(** * OpenBoycott: evidence aggregation and resilient fetching

    A shallow embedding of the two Python sources of the repository,
    [openboycottdata/analyze.py] (module [Analyze] below) and the older
    [analyze_data.py] (module [AnalyzeData]), together with the
    properties their specification states about them.

    Layout:
    - Python values, exceptions and dictionaries;
    - the arithmetic the aggregator uses, as an interface with two
      instances: IEEE-754 binary64 (what Python floats are) and exact
      rationals (the "reals" of the specification's data model);
    - [aggregate_metrics] of both sources, and the pipeline of
      [analyze_data.py] around it;
    - the dates and times [wait_until_4am] computes with;
    - the retry loops and the company pipeline of [analyze.py], run
      against a scripted outside world;
    - the theorems. *)

From Stdlib Require Import ZArith List String Ascii Bool Lia.
From Stdlib Require Import QArith Qround Lqa Permutation.
From Stdlib Require Import SpecFloat.
Import ListNotations.

Set Implicit Arguments.
Local Open Scope string_scope.
Local Open Scope list_scope.
Local Open Scope Z_scope.

(* ===================================================================== *)
(** * Exceptions and results *)
(* ===================================================================== *)

(** The exceptions the sources can meet.  [ClientError code] is
    [google.genai.errors.ClientError] with its HTTP status; [OtherException]
    stands for any other subclass of [Exception] (a network failure, a server
    error, ...). *)
Inductive exn : Type :=
| ClientError (code : Z)
| ValueError
| TypeError
| KeyError
| AttributeError
| OverflowError
| ZeroDivisionError
| OtherException.

(** A Python computation either returns a value or raises. *)
Inductive result (A : Type) : Type :=
| Ok (a : A)
| Raise (e : exn).
Arguments Ok {A} a.
Arguments Raise {A} e.

Definition rbind {A B} (r : result A) (k : A -> result B) : result B :=
  match r with
  | Ok a => k a
  | Raise e => Raise e
  end.

Declare Scope result_scope.
Delimit Scope result_scope with result.
Notation "x <- c ;; k" := (rbind c (fun x => k))
  (at level 100, c at next level, right associativity) : result_scope.

Definition is_ok {A} (r : result A) : bool :=
  match r with Ok _ => true | Raise _ => false end.

Definition raises {A} (r : result A) (which : exn -> bool) : bool :=
  match r with Ok _ => false | Raise e => which e end.

Definition is_ZeroDivisionError (e : exn) : bool :=
  match e with ZeroDivisionError => true | _ => false end.

(* ===================================================================== *)
(** * Dictionaries *)
(* ===================================================================== *)

(** A Python [dict] with string keys: an association list in insertion
    order.  [set] is [d[k] = v]: it overwrites in place when the key is
    there and appends otherwise. *)
Module Dict.

Definition dict (V : Type) : Type := list (string * V).

Fixpoint get {V} (k : string) (d : dict V) : option V :=
  match d with
  | [] => None
  | (k', v) :: rest => if String.eqb k' k then Some v else get k rest
  end.

Definition mem {V} (k : string) (d : dict V) : bool :=
  match get k d with Some _ => true | None => false end.

Fixpoint set {V} (k : string) (v : V) (d : dict V) : dict V :=
  match d with
  | [] => [(k, v)]
  | (k', v') :: rest =>
      if String.eqb k' k then (k', v) :: rest else (k', v') :: set k v rest
  end.

Definition keys {V} (d : dict V) : list string := map fst d.

(** [bool(d)]: a dictionary is truthy when it is not empty. *)
Definition truthy {V} (d : dict V) : bool :=
  match d with [] => false | _ => true end.

End Dict.
Import Dict.

(* ===================================================================== *)
(** * The arithmetic of the aggregator *)
(* ===================================================================== *)

(** What [aggregate_metrics] asks of its numbers: conversion from [int],
    [+], [*], [/], the tests against zero and [round(x, 3)]. *)
Class FloatOps (F : Type) : Type := {
  float_of_int : Z -> option F;   (* float(n); None is OverflowError *)
  fzero : F;                      (* float(0) *)
  fadd : F -> F -> F;
  fmul : F -> F -> F;
  fdiv : F -> F -> F;             (* x / y for y != 0 *)
  fle0 : F -> bool;               (* x <= 0 *)
  feq0 : F -> bool;               (* x == 0 *)
  fpos : F -> bool;               (* x > 0 *)
  round3 : F -> F                 (* round(x, 3) *)
}.

(** Round [num / den] ([den > 0]) to the nearest integer, ties to the even
    one: the rule both [round] and IEEE-754 follow. *)
Definition round_half_even (num den : Z) : Z :=
  let q := num / den in
  let r := num mod den in
  match 2 * r ?= den with
  | Lt => q
  | Gt => q + 1
  | Eq => if Z.even q then q else q + 1
  end.

(** ** Binary64: Python's [float] *)
Module B64.

Definition float : Type := spec_float.

Definition prec : Z := 53.
Definition emax : Z := 1024.

(** [m * 2^e], correctly rounded. *)
Definition ldexp (m e : Z) : float := binary_normalize prec emax m e false.

Definition of_Z (z : Z) : float := ldexp z 0.

Definition zero : float := S754_zero false.

Definition add : float -> float -> float := SFadd prec emax.
Definition sub : float -> float -> float := SFsub prec emax.
Definition mul : float -> float -> float := SFmul prec emax.
Definition div : float -> float -> float := SFdiv prec emax.

(** The literal [n / 10^k], e.g. [dec 123456 4] is [12.3456]: the double
    nearest to the decimal, as the Python parser yields it. *)
Definition dec (n : Z) (k : Z) : float :=
  let den := S754_finite false (Z.to_pos (10 ^ k)) 0 in
  match n with
  | Z0 => zero
  | Zpos p => div (S754_finite false p 0) den
  | Zneg p => div (S754_finite true p 0) den
  end.

(** [float(n)] for an [int]: the nearest double, [OverflowError] when
    that would be an infinity. *)
Definition of_int (z : Z) : option float :=
  match of_Z z with
  | S754_infinity _ => None
  | x => Some x
  end.

(** [sum] over floats in CPython 3.12 and later: the first item is added
    to the int [0], the others with Neumaier's compensation. *)
Fixpoint compensate (xs : list float) (f_result c : float) : float * float :=
  match xs with
  | [] => (f_result, c)
  | x :: rest =>
      let t := add f_result x in
      let c :=
        if SFleb (SFabs x) (SFabs f_result) then add c (add (sub f_result t) x)
        else add c (add (sub x t) f_result) in
      compensate rest t c
  end.

Definition sum_compensated (xs : list float) : float :=
  match xs with
  | [] => zero
  | x :: rest =>
      let (f_result, c) := compensate rest (add zero x) zero in
      match c with
      | S754_finite _ _ _ => add f_result c
      | _ => f_result
      end
  end.

Definition le0 (x : float) : bool := SFleb x zero.
Definition eq0 (x : float) : bool := SFeqb x zero.
Definition pos (x : float) : bool := SFltb zero x.

(** [round(x, 3)] as CPython computes it: the exact value of [x] is
    rounded to the nearest multiple of [1/1000] (ties to even), and that
    decimal is converted back to the nearest double.  Infinities, NaN and
    zeros round to themselves, and so does every double with a
    non-negative exponent, which is an integer. *)
Definition round3 (x : float) : float :=
  match x with
  | S754_finite s m (Zneg p) =>
      match round_half_even (Zpos m * 1000) (Z.pow_pos 2 p) with
      | Zpos n => div (S754_finite s n 0) (S754_finite false 1000 0)
      | _ => S754_zero s
      end
  | _ => x
  end.

#[global] Instance ops : FloatOps float := {
  float_of_int := of_int;
  fzero := zero;
  fadd := add;
  fmul := mul;
  fdiv := div;
  fle0 := le0;
  feq0 := eq0;
  fpos := pos;
  round3 := round3
}.

End B64.

(** ** Exact rationals: the reals of the specification *)
Module Exact.

Local Open Scope Q_scope.

Definition le0 (x : Q) : bool := Qle_bool x 0.
Definition eq0 (x : Q) : bool := Qeq_bool x 0.
Definition pos (x : Q) : bool := negb (Qle_bool x 0).

(** The nearest multiple of [1/1000], ties to even. *)
Definition round3 (x : Q) : Q :=
  round_half_even (Qnum x * 1000) (Zpos (Qden x)) # 1000.

#[global] Instance ops : FloatOps Q := {
  float_of_int := fun z => Some (inject_Z z);
  fzero := 0;
  fadd := Qplus;
  fmul := Qmult;
  fdiv := Qdiv;
  fle0 := le0;
  feq0 := eq0;
  fpos := pos;
  round3 := round3
}.

End Exact.

(* ===================================================================== *)
(** * Python values *)
(* ===================================================================== *)

(** The values an evidence bundle can hold.  A string carries the float
    that [float(s)] parses it to, if any, so that the parser itself stays
    out of the model; [PyOther] is any other object (a dict, a set, ...). *)
#[warnings="-register-all"]
Inductive pyval (F : Type) : Type :=
| PyNone
| PyBool (b : bool)
| PyInt (z : Z)
| PyFloat (x : F)
| PyStr (s : string) (as_float : option F)
| PyList (items : list (pyval F))
| PyTuple (items : list (pyval F))
| PyOther.
Arguments PyNone {F}.
Arguments PyBool {F} b.
Arguments PyInt {F} z.
Arguments PyFloat {F} x.
Arguments PyStr {F} s as_float.
Arguments PyList {F} items.
Arguments PyTuple {F} items.
Arguments PyOther {F}.

(** An evidence bundle: issue id to data, expected to be [[weight, score]]. *)
Definition bundle (F : Type) : Type := dict (pyval F).

Section Numbers.
Context {F : Type} `{FloatOps F}.

(** [float(v)]. *)
Definition py_float (v : pyval F) : result F :=
  match v with
  | PyFloat x => Ok x
  | PyInt z =>
      match float_of_int z with Some x => Ok x | None => Raise OverflowError end
  | PyBool b =>
      match float_of_int (if b then 1 else 0) with
      | Some x => Ok x
      | None => Raise OverflowError
      end
  | PyStr _ (Some x) => Ok x
  | PyStr _ None => Raise ValueError
  | PyNone | PyList _ | PyTuple _ | PyOther => Raise TypeError
  end.

(** [sum(xs)] over floats: the start value is the int [0], so the first
    addition is [float(0) + x], and the items are added from left to right.
    (CPython 3.12 and later add floats with a compensated sum; see
    [B64.sum_compensated].) *)
Definition py_sum (xs : list F) : F := fold_left fadd xs fzero.

(** [x / y]: ZeroDivisionError on a zero divisor. *)
Definition py_truediv (x y : F) : result F :=
  if feq0 y then Raise ZeroDivisionError else Ok (fdiv x y).

(** An entry is well formed when it is a list of two elements that both
    convert to a float. *)
Definition well_formed (data : pyval F) : bool :=
  match data with
  | PyList [w; s] => is_ok (py_float w) && is_ok (py_float s)
  | _ => false
  end.

(** The bundles without their entries that are not well formed. *)
Definition well_formed_only (metrics_list : list (dict (pyval F)))
    : list (dict (pyval F)) :=
  map (filter (fun entry => well_formed (snd entry))) metrics_list.

End Numbers.

(* ===================================================================== *)
(** * aggregate_metrics *)
(* ===================================================================== *)

(** The two sources share the body of [aggregate_metrics] but for two
    places: how one entry is read (with or without the [try] around the
    conversions) and the shape of the value stored for an issue. *)
Section Aggregator.
Context {F : Type} `{FloatOps F} {V : Type}.

(** Reads one entry: [Ok (Some (weight, score))] appends the point,
    [Ok None] skips the entry, [Raise] leaves the function. *)
Variable read_observation : pyval F -> result (option (F * F)).

(** The value stored for an issue, from the rounded total weight and the
    rounded score. *)
Variable issue_value : F -> F -> V.

(** [combined_metrics[issue_id].append(point)] *)
Definition append_point (issue_id : string) (point : F * F)
    (combined_metrics : dict (list (F * F))) : dict (list (F * F)) :=
  match get issue_id combined_metrics with
  | Some points => set issue_id (points ++ [point]) combined_metrics
  | None => combined_metrics
  end.

(** [for issue_id, data in metrics.items(): ...] *)
Fixpoint combine_items (items : list (string * pyval F))
    (combined_metrics : dict (list (F * F))) : result (dict (list (F * F))) :=
  match items with
  | [] => Ok combined_metrics
  | (issue_id, data) :: rest =>
      let combined_metrics :=
        if mem issue_id combined_metrics then combined_metrics
        else set issue_id [] combined_metrics in
      (point <- read_observation data ;;
       combine_items rest
         match point with
         | Some p => append_point issue_id p combined_metrics
         | None => combined_metrics
         end)%result
  end.

(** [for metrics in metrics_list: ...] *)
Fixpoint combine_metrics (metrics_list : list (bundle F))
    (combined_metrics : dict (list (F * F))) : result (dict (list (F * F))) :=
  match metrics_list with
  | [] => Ok combined_metrics
  | metrics :: rest =>
      (combined_metrics <- combine_items metrics combined_metrics ;;
       combine_metrics rest combined_metrics)%result
  end.

(** [for issue_id, data_points in combined_metrics.items(): ...] *)
Fixpoint average_issues (items : list (string * list (F * F)))
    (aggregated_metrics : dict V) : result (dict V) :=
  match items with
  | [] => Ok aggregated_metrics
  | (issue_id, data_points) :: rest =>
      match data_points with
      | [] => average_issues rest aggregated_metrics
      | _ =>
          let total_weight := py_sum (map fst data_points) in
          if fle0 total_weight then average_issues rest aggregated_metrics
          else
            let weighted_sum :=
              py_sum (map (fun point => fmul (fst point) (snd point)) data_points) in
            (final_score <- py_truediv weighted_sum total_weight ;;
             average_issues rest
               (set issue_id
                  (issue_value (round3 total_weight) (round3 final_score))
                  aggregated_metrics))%result
      end
  end.

Definition aggregate_with (metrics_list : list (bundle F)) : result (dict V) :=
  (combined_metrics <- combine_metrics metrics_list [] ;;
   average_issues combined_metrics [])%result.

(** The words of the specification (4.1), to compare the code with.  The
    observations of an issue: every well-formed entry filed under it, over
    all bundles, in order. *)
Definition observations (issue_id : string) (metrics_list : list (bundle F))
    : list (F * F) :=
  flat_map
    (fun entry =>
       if String.eqb (fst entry) issue_id then
         match read_observation (snd entry) with
         | Ok (Some point) => [point]
         | _ => []
         end
       else [])
    (List.concat metrics_list).

Definition total_weight (points : list (F * F)) : F := py_sum (map fst points).

Definition weighted_sum (points : list (F * F)) : F :=
  py_sum (map (fun point => fmul (fst point) (snd point)) points).

(** "If total weight <= 0, omit the issue entirely; otherwise
    score = sum(weight * score) / sum(weight), confidence = sum(weight),
    both rounded to 3 decimal places." *)
Definition weighted_mean (points : list (F * F)) : option V :=
  match points with
  | [] => None
  | _ =>
      if fle0 (total_weight points) then None
      else Some (issue_value (round3 (total_weight points))
                   (round3 (fdiv (weighted_sum points) (total_weight points))))
  end.

(** No entry makes the reading raise. *)
Definition all_read (metrics_list : list (bundle F)) : bool :=
  forallb (fun entry => is_ok (read_observation (snd entry)))
    (List.concat metrics_list).

End Aggregator.

(** ** analyze_data.py *)
Module AnalyzeData.

(** [{"score": ..., "confidence": ...}] *)
Record issue_result (F : Type) : Type := IssueResult {
  score : F;
  confidence : F
}.
Arguments IssueResult {F} score confidence.
Arguments score {F} i.
Arguments confidence {F} i.

Section WithFloats.
Context {F : Type} `{FloatOps F}.

(** [if isinstance(data, list) and len(data) == 2:] with the conversions
    inside [try: ... except (ValueError, TypeError): continue]. *)
Definition read_observation (data : pyval F) : result (option (F * F)) :=
  match data with
  | PyList [w; s] =>
      match (weight <- py_float w ;; score <- py_float s ;;
             Ok (weight, score))%result with
      | Ok point => Ok (Some point)
      | Raise ValueError | Raise TypeError => Ok None
      | Raise e => Raise e
      end
  | _ => Ok None
  end.

(** The second loop is inside [try: ... except (IndexError, TypeError):
    continue] here; on points that are pairs of floats its body raises
    neither. *)
Definition aggregate_metrics (metrics_list : list (bundle F))
    : result (dict (issue_result F)) :=
  aggregate_with read_observation
    (fun total_weight final_score => IssueResult final_score total_weight)
    metrics_list.

End WithFloats.
(** ** The pipeline of analyze_data.py *)

(** [TEST_MODE = 'true']: a string, tested for truth by the sources. *)
Definition TEST_MODE : string := "true".

(** [if s:] on a [str]. *)
Definition str_truthy (s : string) : bool :=
  match s with EmptyString => false | _ => true end.

Definition get_test_fmp_data : bundle B64.float :=
  [ ("ENV", PyList [PyFloat (B64.dec 8 1); PyFloat (B64.dec 75 2)]);
    ("PAY", PyList [PyFloat (B64.dec 5 1); PyFloat (B64.dec 65 2)]) ].

Definition get_test_google_data (company_name : string) : bundle B64.float :=
  if str_truthy company_name then
    [ ("DEI_L", PyList [PyInt 50; PyInt 20]);
      ("DEI_H", PyList [PyInt 60; PyInt 30]);
      ("QUEER", PyList [PyInt 70; PyInt 40]);
      ("BIPOC", PyList [PyInt 80; PyInt 50]);
      ("PAY", PyList [PyInt 90; PyInt 60]) ]
  else [].

Definition get_test_gemini_response (company_name : string) : bundle B64.float :=
  if str_truthy company_name then
    [ ("DEI_L", PyList [PyInt 50; PyInt 75]);
      ("DEI_H", PyList [PyInt 50; PyInt 80]);
      ("QUEER", PyList [PyInt 50; PyInt 70]);
      ("BIPOC", PyList [PyInt 50; PyInt 65]);
      ("PAY", PyList [PyInt 50; PyInt 60]);
      ("ENV", PyList [PyInt 50; PyInt 85]) ]
  else [].

Definition get_test_competitors (company_name : string) : list string :=
  let test_competitors :=
    [ ("Apple", ["Samsung"; "Microsoft"; "Google"]);
      ("Google", ["Microsoft"; "Apple"; "Amazon"]);
      ("Meta", ["Twitter"; "TikTok"; "LinkedIn"]) ] in
  match get company_name test_competitors with
  | Some names => names
  | None => ["Competitor 1"; "Competitor 2"; "Competitor 3"]
  end.

(** The collaborators of the pipeline:
    - [load_api_keys n]: what the [n]-th reading of [keys.json] by
      [analyze_companies] gives ([{}] when it fails);
    - [clock n]: [int(time.time())] at the [n]-th company;
    - [live_fmp], [live_google], [live_gemini], [live_competitors]: what
      each source does past its test of [TEST_MODE], with the network. *)
Record outside : Type := Outside {
  load_api_keys : nat -> dict string;
  clock : nat -> Z;
  live_fmp : string -> result (bundle B64.float);
  live_google : string -> result (bundle B64.float);
  live_gemini : string -> result (bundle B64.float);
  live_competitors : string -> result (list string)
}.

Definition data_fmp (env : outside) (symbol : string) : result (bundle B64.float) :=
  if str_truthy TEST_MODE then Ok get_test_fmp_data else live_fmp env symbol.

Definition data_google (env : outside) (company_name : string)
    : result (bundle B64.float) :=
  if str_truthy TEST_MODE then Ok (get_test_google_data company_name)
  else live_google env company_name.

Definition data_grounded_gemini (env : outside) (company_name : string)
    : result (bundle B64.float) :=
  if str_truthy TEST_MODE then Ok (get_test_gemini_response company_name)
  else live_gemini env company_name.

Definition ask_compeditors (env : outside) (company_name : string)
    : result (list string) :=
  if str_truthy TEST_MODE then Ok (get_test_competitors company_name)
  else live_competitors env company_name.

(** [{"metrics": ..., "competitors": ..., "date": ...}] *)
Record company_data : Type := CompanyData {
  metrics : dict (issue_result B64.float);
  competitors : list string;
  date : Z
}.

(** [for company in companies: ...], at the [n]-th company. *)
Fixpoint analyze_loop (env : outside) (companies : list string) (n : nat)
    (all_company_data : dict company_data) : result (dict company_data) :=
  match companies with
  | [] => Ok all_company_data
  | company :: rest =>
      let api_keys := load_api_keys env n in
      if negb (mem "gemini" api_keys) then
        analyze_loop env rest (S n) all_company_data
      else
        (google_data <- data_google env company ;;
         fmp_data <- data_fmp env company ;;
         gemini_response <- data_grounded_gemini env company ;;
         metrics <- aggregate_metrics [google_data; fmp_data; gemini_response] ;;
         competitors <- ask_compeditors env company ;;
         analyze_loop env rest (S n)
           (if truthy metrics
            then set company (CompanyData metrics competitors (clock env n))
                   all_company_data
            else all_company_data))%result
  end.

Definition analyze_companies (env : outside) (companies : list string)
    : result (dict company_data) :=
  analyze_loop env companies 0 [].

End AnalyzeData.

(* ===================================================================== *)
(** * Dates and times *)
(* ===================================================================== *)

(** The part of Python's [datetime] that [wait_until_4am] uses, on naive
    values: a [datetime] is the ordinal of its day (1 is 0001-01-01) and a
    time of day, a [timedelta] is a count of microseconds. *)
Module Datetime.

Record datetime : Type := Make {
  ordinal : Z;
  hour : Z;
  minute : Z;
  second : Z;
  microsecond : Z
}.

Definition timedelta : Type := Z.



(** [t.replace(hour=h, minute=m, second=s, microsecond=us)] *)
Definition replace (t : datetime) (h m s us : Z) : datetime :=
  Make (ordinal t) h m s us.


(** The microseconds from the start of day 0 to [t]. *)
Definition to_microseconds (t : datetime) : Z :=
  ordinal t * 86400000000
  + ((hour t * 60 + minute t) * 60 + second t) * 1000000
  + microsecond t.


Definition fields (t : datetime) : list Z :=
  [ordinal t; hour t; minute t; second t; microsecond t].


(** [a - b] *)
Definition sub (a b : datetime) : timedelta := to_microseconds a - to_microseconds b.


End Datetime.

(** ** openboycottdata/analyze.py *)
Module Analyze.

(* --------------------------------------------------------------------- *)
(** *** Constants and pure helpers *)

Definition issues : dict string :=
  [ ("DEI_L", "DEI in leadership");
    ("DEI_H", "DEI in hiring");
    ("QUEER", "LGBTQ support");
    ("BIPOC", "BIPOC support");
    ("PAY", "Fair wages");
    ("ENV", "Environmental impact");
    ("CHARITY", "Charitable donations");
    ("POLI", "Progressive political engagement") ].

Definition lower (c : ascii) : ascii :=
  let n := nat_of_ascii c in
  if ((65 <=? n) && (n <=? 90))%nat then ascii_of_nat (n + 32) else c.

Definition is_a_z_0_9 (c : ascii) : bool :=
  let n := nat_of_ascii c in
  (((97 <=? n) && (n <=? 122)) || ((48 <=? n) && (n <=? 57)))%nat.

Fixpoint keep (p : ascii -> bool) (s : string) : string :=
  match s with
  | EmptyString => EmptyString
  | String c rest => if p c then String c (keep p rest) else keep p rest
  end.

Fixpoint map_chars (f : ascii -> ascii) (s : string) : string :=
  match s with
  | EmptyString => EmptyString
  | String c rest => String (f c) (map_chars f rest)
  end.

(** [string.lower()], on a [str] held as its UTF-8 encoding, as far as the
    characters of [a-z0-9] go.  An ASCII letter is lowered as [lower] does.
    Two characters outside ASCII have a lower case with an ASCII letter in
    it: the Kelvin sign U+212A (bytes 226 132 170) becomes ["k"], and the
    dotted capital I U+0130 (bytes 196 176) becomes ["i"] followed by the
    combining dot U+0307 (bytes 204 135).  Every other character outside
    ASCII has a lower case outside ASCII; its bytes are left as they are,
    since the substitution that follows removes the one like the other. *)
Fixpoint lower_str (s : string) : string :=
  match s with
  | EmptyString => EmptyString
  | String c rest =>
      match rest with
      | String c1 rest1 =>
          if ((nat_of_ascii c =? 196) && (nat_of_ascii c1 =? 176))%nat then
            String "i" (String (ascii_of_nat 204) (String (ascii_of_nat 135)
              (lower_str rest1)))
          else
            match rest1 with
            | String c2 rest2 =>
                if ((nat_of_ascii c =? 226) && (nat_of_ascii c1 =? 132)
                    && (nat_of_ascii c2 =? 170))%nat
                then String "k" (lower_str rest2)
                else String (lower c) (lower_str rest)
            | EmptyString => String (lower c) (lower_str rest)
            end
      | EmptyString => String (lower c) EmptyString
      end
  end.

(** In the UTF-8 encoding of a [str], a byte of 128 to 191 continues a
    character; every other byte starts one, and a byte below 128 is an
    ASCII character on its own. *)
Definition is_continuation (c : ascii) : bool :=
  let n := nat_of_ascii c in
  ((128 <=? n) && (n <=? 191))%nat.

Definition is_ascii (c : ascii) : bool := (nat_of_ascii c <? 128)%nat.

(** What the encoding of every [str] does: it starts with the first byte
    of a character, or is empty. *)
Definition starts_character (s : string) : bool :=
  match s with
  | EmptyString => true
  | String c _ => negb (is_continuation c)
  end.

(** [len(string)]: the number of characters. *)
Definition code_points (s : string) : nat :=
  String.length (keep (fun c => negb (is_continuation c)) s).

(** [string.lower().strip()], then [re.sub(r'[^a-z0-9]', '', string)].  The
    substitution removes all white space, so [strip()] changes nothing in
    the result. *)
Definition string_standard_formatting (s : string) : string :=
  keep is_a_z_0_9 (lower_str s).


(** What [ask_compeditors] returns: a list of names (the test data and the
    empty fallback) or the arguments of the model's [list_competition]
    call, kept opaque. *)
Inductive competitors : Type :=
| Names (names : list string)
| Products (args : string).

Definition get_test_competitors (company_name : string) : competitors :=
  let test_competitors :=
    [ ("Apple", ["Samsung"; "Microsoft"; "Google"]);
      ("Google", ["Microsoft"; "Apple"; "Amazon"]);
      ("Meta", ["Twitter"; "TikTok"; "LinkedIn"]) ] in
  match get company_name test_competitors with
  | Some names => Names names
  | None => Names ["Competitor 1"; "Competitor 2"; "Competitor 3"]
  end.

(** [range(5)] *)
Definition range5 : list Z := [0; 1; 2; 3; 4].

(* --------------------------------------------------------------------- *)
(** *** The outside world *)

Inductive source : Type := DataGoogle | DataFmp | DataGroundedGemini | AskCompeditors.

Inductive site : Type := ArticleScoring | GroundedModel | CompetitorLookup.

(** What the run does that can be seen from outside, in order. *)
Inductive event : Type :=
| Called (s : source) (company : string)   (* a source function is entered *)
| Generate (s : site)          (* gemini_client.models.generate_content(...) *)
| Sleep (seconds : Z)                      (* time.sleep(seconds) *)
| Skipped (company : string)               (* print(f"Skipping {company}") *)
| AddData (key : string)                   (* add_data({key: output_data}) *)
| SleepFloat (seconds : B64.float).        (* time.sleep(seconds), a float *)

(** The events that reach the model or hold the run up. *)
Definition is_generate (e : event) : bool :=
  match e with Generate _ => true | _ => false end.

Definition is_sleep (e : event) : bool :=
  match e with Sleep _ | SleepFloat _ => true | _ => false end.

Definition is_add_data (e : event) : bool :=
  match e with AddData _ => true | _ => false end.

Record world : Type := World {
  calls : nat;            (* calls of generate_content made so far *)
  trace : list event
}.

Definition start : world := World 0 [].

(** A computation with effects: it can raise, and it changes the world
    either way. *)
Definition M (A : Type) : Type := world -> result A * world.

Definition ret {A} (a : A) : M A := fun w => (Ok a, w).

Definition raise {A} (e : exn) : M A := fun w => (Raise e, w).

Definition bind {A B} (m : M A) (k : A -> M B) : M B :=
  fun w =>
    match m w with
    | (Ok a, w') => k a w'
    | (Raise e, w') => (Raise e, w')
    end.

(** [try: m] with the handlers applied by the caller to the result. *)
Definition try {A} (m : M A) : M (result A) :=
  fun w => let (r, w') := m w in (Ok r, w').

Definition lift {A} (r : result A) : M A := fun w => (r, w).

Definition log (e : event) : M unit :=
  fun w => (Ok tt, World (calls w) (trace w ++ [e])).

Definition log_all (events : list event) : M unit :=
  fun w => (Ok tt, World (calls w) (trace w ++ events)).

(** A sleep of the search loop of [data_google]: the [time.sleep(20)]
    before the second request for an issue, or a [time.sleep] with a
    float, which is the sleep of [wait_until_4am] after an answer with
    status 429, or the rest of the second an issue is given,
    [time.sleep(1 - elapsed)]. *)
Inductive pause : Type :=
| Reload
| Wait (seconds : B64.float).

Definition pause_event (p : pause) : event :=
  match p with
  | Reload => Sleep 20
  | Wait seconds => SleepFloat seconds
  end.

Declare Scope io_scope.
Delimit Scope io_scope with io.
Notation "x <- c ;; k" := (bind c (fun x => k))
  (at level 100, c at next level, right associativity) : io_scope.
Notation "c ;;; k" := (bind c (fun _ => k))
  (at level 100, right associativity) : io_scope.

(** The five attempts of a site under a rate limit that never lifts:
    a call, then the sleeps of 60, 360, 660 and 960 seconds, each followed
    by a call, and no sleep after the fifth. *)
Definition rate_limited_attempts (s : site) : list event :=
  [ Generate s; Sleep 60;
    Generate s; Sleep 360;
    Generate s; Sleep 660;
    Generate s; Sleep 960;
    Generate s ].

(** The first [k] attempts of a site under a rate limit, each a call
    followed by its sleep of [attempt * 300 + 60] seconds. *)
Definition backoff (s : site) (k : nat) : list event :=
  flat_map (fun attempt => [Generate s; Sleep (attempt * 300 + 60)]) (firstn k range5).

Section Pipeline.
Context {F : Type} `{FloatOps F}.

(** A response of the model, known by what each site reads off it:
    - [article_scores]: the loop over [response.candidates[0].content.parts]
      of [ask_about_article], which stores [[args["weight"], args["score"]]]
      or [[0, 0]] per function call, or raises;
    - [research_scores]: the same loop of [data_grounded_gemini], which
      stores two floats per function call (its inner handler of [KeyError]
      and [ValueError] ends the loop and keeps what was read), or raises;
    - [competition]: [response.function_calls[0].args] or [[]]. *)
Record gc_response : Type := Response {
  article_scores : result (dict (pyval F * pyval F));
  research_scores : result (dict (F * F));
  competition : result competitors
}.

Inductive reply : Type :=
| Responds (r : gc_response)
| Fails (e : exn).

(** The collaborators:
    - [generate n]: what the [n]-th call of [generate_content] of the run
      comes to;
    - [search company]: the search-and-fetch loop of [data_google], i.e. per
      issue the article texts retrieved and the links of the last issue, or
      the exception that escapes it;
    - [pauses company]: the sleeps that loop makes, in order;
    - [esg symbol]: the two fields [data_fmp] reads from the financial
      endpoint, [None] for any failure inside its [try];
    - [clock]: [int(time.time())], given the events so far. *)
Record outside : Type := Outside {
  generate : nat -> reply;
  search : string -> result (list (string * list string) * list string);
  esg : string -> option (pyval F * pyval F);
  clock : list event -> Z;
  pauses : string -> list pause
}.

Variable env : outside.

(** [gemini_client.models.generate_content(...)]; the client is [None]
    when the keys name no Vertex AI project. *)
Definition generate_content (gemini_client : option unit) (s : site) : M gc_response :=
  match gemini_client with
  | None => raise AttributeError
  | Some _ =>
      fun w =>
        (match generate env (calls w) with
         | Responds r => Ok r
         | Fails e => Raise e
         end,
         World (S (calls w)) (trace w ++ [Generate s]))
  end.

Definition sleep (seconds : Z) : M unit := log (Sleep seconds).

(* --------------------------------------------------------------------- *)
(** *** aggregate_metrics *)

(** [if not (isinstance(data, list) and len(data) == 2): continue], then
    the two conversions, which are not guarded. *)
Definition read_observation (data : pyval F) : result (option (F * F)) :=
  match data with
  | PyList [w; s] =>
      (weight <- py_float w ;; score <- py_float s ;;
       Ok (Some (weight, score)))%result
  | _ => Ok None
  end.

Definition aggregate_metrics (metrics_list : list (bundle F)) : result (bundle F) :=
  aggregate_with read_observation
    (fun total_weight final_score =>
       PyList [PyFloat total_weight; PyFloat final_score])
    metrics_list.

(* --------------------------------------------------------------------- *)
(** *** Test data *)

Definition get_test_fmp_data : bundle F :=
  [ ("ENV", PyList [PyInt 80; PyInt 75]);
    ("PAY", PyList [PyInt 50; PyInt 65]) ].

(** [None] is the empty dict [{}], which has no ["data"] key. *)
Definition get_test_google_data (company_name : string)
    : option (bundle F * list string) :=
  match company_name with
  | EmptyString => None
  | _ =>
      Some ([ ("DEI_L", PyList [PyInt 50; PyInt 20]);
              ("DEI_H", PyList [PyInt 60; PyInt 30]);
              ("QUEER", PyList [PyInt 70; PyInt 40]);
              ("BIPOC", PyList [PyInt 80; PyInt 50]);
              ("PAY", PyList [PyInt 90; PyInt 60]) ], [])
  end.

Definition get_test_gemini_response (company_name : string) : bundle F :=
  match company_name with
  | EmptyString => []
  | _ =>
      [ ("DEI_L", PyList [PyInt 50; PyInt 75]);
        ("DEI_H", PyList [PyInt 50; PyInt 80]);
        ("QUEER", PyList [PyInt 50; PyInt 70]);
        ("BIPOC", PyList [PyInt 50; PyInt 65]);
        ("PAY", PyList [PyInt 50; PyInt 60]);
        ("ENV", PyList [PyInt 50; PyInt 85]) ]
  end.

(* --------------------------------------------------------------------- *)
(** *** The three retry sites *)

(** The [for attempt in range(5)] loop of [ask_about_article].  A
    successful call binds [response] and the loop goes on to the next
    attempt (there is no [break]).  [inl d]: the function returned [d] from
    inside the loop; [inr response]: the loop ran to its end. *)
Fixpoint ask_about_article_attempts (gemini_client : option unit)
    (attempts : list Z) (response : option gc_response)
    : M (bundle F + option gc_response) :=
  match attempts with
  | [] => ret (inr response)
  | attempt :: rest =>
      (r <- try (generate_content gemini_client ArticleScoring) ;;
       match r with
       | Ok response' => ask_about_article_attempts gemini_client rest (Some response')
       | Raise (ClientError code) =>
           if negb (code =? 429) then raise (ClientError code)
           else if attempt =? 4 then ret (inl [])
           else
             let cooldown := attempt * 300 + 60 in
             (sleep cooldown ;;;
              ask_about_article_attempts gemini_client rest response)
       | Raise _ =>
           if attempt =? 4 then ret (inl [])
           else ask_about_article_attempts gemini_client rest response
       end)%io
  end.

(** The prompt only reaches the outside world, so it is not an argument
    here.  After the loop [response] is read outside any [try]; it is
    always bound there, since the last attempt either binds it or
    returns. *)
Definition ask_about_article (gemini_client : option unit) : M (bundle F) :=
  (r <- ask_about_article_attempts gemini_client range5 None ;;
   match r with
   | inl output => ret output
   | inr None => raise OtherException
   | inr (Some response) =>
       output <- lift (article_scores response) ;;
       ret (map (fun kv => (fst kv, PyList [fst (snd kv); snd (snd kv)])) output)
   end)%io.

(** The loop of [data_grounded_gemini]: the response is read inside the
    [try].  [None]: the loop ran to its end. *)
Fixpoint data_grounded_gemini_attempts (gemini_client : option unit)
    (attempts : list Z) : M (option (bundle F)) :=
  match attempts with
  | [] => ret None
  | attempt :: rest =>
      (r <- try (response <- generate_content gemini_client GroundedModel ;;
                 lift (research_scores response)) ;;
       match r with
       | Ok final_output =>
           ret (Some (map (fun kv => (fst kv, PyList [PyFloat (fst (snd kv)); PyFloat (snd (snd kv))]))
                        final_output))
       | Raise (ClientError code) =>
           if negb (code =? 429) then raise (ClientError code)
           else if attempt =? 4 then ret (Some [])
           else
             let cooldown := attempt * 300 + 60 in
             (sleep cooldown ;;;
              data_grounded_gemini_attempts gemini_client rest)
       | Raise _ =>
           if attempt =? 4 then ret (Some [])
           else data_grounded_gemini_attempts gemini_client rest
       end)%io
  end.

(** [None] is Python's [None], returned when the loop runs to its end. *)
Definition data_grounded_gemini (company_name : string)
    (gemini_client : option unit) (test_mode : bool) : M (option (bundle F)) :=
  (log (Called DataGroundedGemini company_name) ;;;
   if test_mode then ret (Some (get_test_gemini_response company_name))
   else data_grounded_gemini_attempts gemini_client range5)%io.

(** The loop of [ask_compeditors]: on a 429 it sleeps and goes on, except
    at the last attempt, where it falls through to [raise]; any other
    exception is printed and the loop goes on.  [None]: the loop ran to its
    end. *)
Fixpoint ask_compeditors_attempts (gemini_client : option unit)
    (attempts : list Z) : M (option competitors) :=
  match attempts with
  | [] => ret None
  | attempt :: rest =>
      (r <- try (response <- generate_content gemini_client CompetitorLookup ;;
                 lift (competition response)) ;;
       match r with
       | Ok compeditors => ret (Some compeditors)
       | Raise (ClientError code) =>
           if (code =? 429) && (attempt <? 5 - 1) then
             (sleep (300 * attempt + 60) ;;;
              ask_compeditors_attempts gemini_client rest)
           else raise (ClientError code)
       | Raise _ => ask_compeditors_attempts gemini_client rest
       end)%io
  end.

Definition ask_compeditors (company_name : string)
    (gemini_client : option unit) (test_mode : bool) : M competitors :=
  (log (Called AskCompeditors company_name) ;;;
   if test_mode then ret (get_test_competitors company_name)
   else
     r <- ask_compeditors_attempts gemini_client range5 ;;
     match r with
     | Some compeditors => ret compeditors
     | None => ret (Names [])
     end)%io.

(* --------------------------------------------------------------------- *)
(** *** The evidence sources *)

(** [data_fmp]: everything after the test data is inside one
    [try: ... except Exception: return {}]. *)
Definition data_fmp (symbol : string) (test_mode : bool) : M (bundle F) :=
  (log (Called DataFmp symbol) ;;;
   if test_mode then ret get_test_fmp_data
   else
     match esg env symbol with
     | Some (environmentalScore, socialScore) =>
         ret [ ("ENV", PyList [PyInt 100; environmentalScore]);
               ("PAY", PyList [PyInt 50; socialScore]) ]
     | None => ret []
     end)%io.

(** The second loop of [data_google]: one call of [ask_about_article] per
    issue that has articles. *)
Fixpoint score_articles (gemini_client : option unit)
    (responses : list (string * list string)) (datasets : list (bundle F))
    : M (list (bundle F)) :=
  match responses with
  | [] => ret datasets
  | (issue_id, articles) :: rest =>
      match articles with
      | [] => score_articles gemini_client rest datasets
      | _ =>
          (response <- ask_about_article gemini_client ;;
           score_articles gemini_client rest (datasets ++ [response]))%io
      end
  end.

(** [None] is the empty dict [{}] of the test data; otherwise the pair is
    [{"data": ..., "sources": ...}].  The first loop, which searches and
    fetches, is known by its sleeps and by what it comes to; the second
    loop scores the articles. *)
Definition data_google (company_name : string) (gemini_client : option unit)
    (test_mode : bool) : M (option (bundle F * list string)) :=
  (log (Called DataGoogle company_name) ;;;
   if test_mode then ret (get_test_google_data company_name)
   else
     log_all (map pause_event (pauses env company_name)) ;;;
     found <- lift (search env company_name) ;;
     datasets <- score_articles gemini_client (fst found) [] ;;
     final_metrics <- lift (aggregate_metrics datasets) ;;
     ret (Some (final_metrics, snd found)))%io.

(* --------------------------------------------------------------------- *)
(** *** analyze_companies *)

Record company_data : Type := CompanyData {
  metrics : bundle F;
  full_name : string;
  competitors_of : competitors;
  sources : list string;
  date : Z
}.

Definition empty_function_skip_company (company : string) : bool := true.

(** [int(time.time())] *)
Definition time_now : M Z := fun w => (Ok (clock env (trace w)), w).

(** The body of the loop of [analyze_companies] for a company that is not
    skipped, up to the record it stores ([None] when [metrics] is empty).
    The [print]s of [sum_weights] are left out; the third one raises when
    [data_grounded_gemini] returned [None]. *)
Definition analyze_company (company : string) (gemini_client : option unit)
    (test_mode : bool) : M (option company_data) :=
  (unformatted_google_data <- data_google company gemini_client test_mode ;;
   match unformatted_google_data with
   | None => raise KeyError
   | Some (google_data, sources) =>
       fmp_data <- data_fmp company test_mode ;;
       gemini_response <- data_grounded_gemini company gemini_client test_mode ;;
       match gemini_response with
       | None => raise AttributeError
       | Some gemini_response =>
           metrics <- lift (aggregate_metrics [google_data; fmp_data; gemini_response]) ;;
           competitors <- ask_compeditors company gemini_client test_mode ;;
           if truthy metrics then
             now <- time_now ;;
             ret (Some (CompanyData metrics company competitors sources now))
           else ret None
       end
   end)%io.

(** [for company in companies: ...] *)
Fixpoint analyze_loop (companies : list string) (gemini_client : option unit)
    (test_mode : bool) (skip_company : string -> bool)
    (all_company_data : dict company_data) : M (dict company_data) :=
  match companies with
  | [] => ret all_company_data
  | company :: rest =>
      if skip_company (string_standard_formatting company) then
        (log (Skipped company) ;;;
         analyze_loop rest gemini_client test_mode skip_company all_company_data)%io
      else
        (output_data <- analyze_company company gemini_client test_mode ;;
         match output_data with
         | Some output_data =>
             let key := string_standard_formatting company in
             log (AddData key) ;;;
             analyze_loop rest gemini_client test_mode skip_company
               (set key output_data all_company_data)
         | None =>
             analyze_loop rest gemini_client test_mode skip_company all_company_data
         end)%io
  end.

(** [add_data] is seen as the event [AddData]; the keys only decide
    whether there is a client (they are otherwise passed on to the
    collaborators). *)
Definition analyze_companies (companies : list string) (keys : dict string)
    (test_mode : bool) (skip_company : string -> bool) : M (dict company_data) :=
  let gemini_client :=
    if mem "vertexai_project_name" keys then Some tt else None in
  analyze_loop companies gemini_client test_mode skip_company [].

(** An event that is the call of a source for [company]. *)
Definition calls_for (company : string) (e : event) : bool :=
  match e with
  | Called _ company' => String.eqb company' company
  | _ => false
  end.

(** No source was called for [company]. *)
Definition never_called (company : string) (w : world) : bool :=
  negb (existsb (calls_for company) (trace w)).

(* --------------------------------------------------------------------- *)
(** *** Some outside worlds *)

(** A reply that the retry loops let out at once: a client error that is
    not a rate limit. *)
Definition is_fatal (r : reply) : bool :=
  match r with
  | Fails (ClientError code) => negb (code =? 429)
  | _ => false
  end.

(** A reply that the retry loops take for a passing failure: an exception
    that is no client error. *)
Definition is_transient (r : reply) : bool :=
  match r with
  | Fails (ClientError _) => false
  | Fails _ => true
  | Responds _ => false
  end.

(** A reply after which the retry loops go on to the next attempt: a rate
    limit or an exception that is no client error. *)
Definition is_retried (r : reply) : bool :=
  match r with
  | Fails (ClientError code) => code =? 429
  | Fails _ => true
  | Responds _ => false
  end.

(** Every call of the model fails with [e]; the search finds no article,
    without a sleep, and the financial endpoint answers with [fields]. *)
Definition failing_model (e : exn) (fields : option (pyval F * pyval F)) : outside :=
  Outside (fun _ => Fails e) (fun _ => Ok ([], [])) (fun _ => fields) (fun _ => 0)
    (fun _ => []).

(** The model is rate limited for the first [n] calls and then answers
    with [r]. *)
Definition rate_limited_then (n : nat) (r : gc_response)
    (fields : option (pyval F * pyval F)) : outside :=
  Outside (fun k => if (k <? n)%nat then Fails (ClientError 429) else Responds r)
    (fun _ => Ok ([], [])) (fun _ => fields) (fun _ => 0) (fun _ => []).

End Pipeline.
End Analyze.
(* ===================================================================== *)
(** * Facts about dictionaries *)
(* ===================================================================== *)

Lemma get_set {V} (k i : string) (v : V) (d : dict V) :
  get i (set k v d) = if String.eqb k i then Some v else get i d.
Proof.
  induction d as [|[k' v'] rest IH]; simpl.
  - reflexivity.
  - destruct (String.eqb k' k) eqn:Ek; simpl.
    + apply String.eqb_eq in Ek. subst k'.
      destruct (String.eqb k i); reflexivity.
    + rewrite IH. destruct (String.eqb k' i) eqn:Ei; [|reflexivity].
      apply String.eqb_eq in Ei. subst k'. rewrite String.eqb_sym, Ek.
      reflexivity.
Qed.

Lemma get_none_notin {V} (k : string) (d : dict V) :
  get k d = None <-> ~ In k (keys d).
Proof.
  induction d as [|[k' v'] rest IH]; simpl.
  - tauto.
  - destruct (String.eqb k' k) eqn:Ek.
    + apply String.eqb_eq in Ek. split; [discriminate | tauto].
    + apply String.eqb_neq in Ek. rewrite IH. tauto.
Qed.

Lemma keys_set {V} (k : string) (v : V) (d : dict V) :
  keys (set k v d) = if mem k d then keys d else keys d ++ [k].
Proof.
  unfold mem. induction d as [|[k' v'] rest IH]; simpl.
  - reflexivity.
  - destruct (String.eqb k' k) eqn:Ek; simpl.
    + reflexivity.
    + rewrite IH. destruct (get k rest); reflexivity.
Qed.

Lemma nodup_set {V} (k : string) (v : V) (d : dict V) :
  NoDup (keys d) -> NoDup (keys (set k v d)).
Proof.
  intros Hd. rewrite keys_set. unfold mem.
  destruct (get k d) eqn:E; [assumption|].
  apply get_none_notin in E.
  apply NoDup_app; [assumption | repeat constructor; simpl; tauto |].
  intros x Hx [Hk|[]]. subst x. contradiction.
Qed.

(* ===================================================================== *)
(** * The model at work *)
(* ===================================================================== *)

(** [round(x, 3)] on doubles as CPython answers: 0.0625 is a tie and goes
    to the even 0.062; the double written 0.0005 lies above the tie and
    goes to 0.001; the double written 1.0005 lies below it and goes to 1.0;
    -0.0001 goes to -0.0; 2^53 + 2 stays. *)
Example round3_on_doubles :
  B64.round3 (B64.dec 625 4) = B64.dec 62 3
  /\ B64.round3 (B64.dec 5 4) = B64.dec 1 3
  /\ B64.round3 (B64.dec 10005 4) = B64.of_Z 1
  /\ B64.round3 (B64.dec (-1) 4) = S754_zero true
  /\ B64.round3 (B64.of_Z (2 ^ 53 + 2)) = B64.of_Z (2 ^ 53 + 2).
Proof. repeat split. Qed.

(** [float(n)] rounds to the nearest double and overflows from
    2^1024 - 2^970 on. *)
Example float_of_int_on_large_ints :
  B64.of_int (2 ^ 53 + 1) = Some (B64.ldexp 1 53)
  /\ B64.of_int (2 ^ 1024 - 2 ^ 970 - 1) = Some (B64.ldexp (2 ^ 53 - 1) 971)
  /\ B64.of_int (2 ^ 1024 - 2 ^ 970) = None.
Proof. repeat split. Qed.

Example string_standard_formatting_apple :
  Analyze.string_standard_formatting " Apple Inc. " = "appleinc".
Proof. reflexivity. Qed.

(** A test-mode run over one company: the four sources are called in
    order, the three bundles of test data are aggregated, and the record
    is handed to [add_data]. *)
Example test_mode_run :
  let out :=
    Analyze.analyze_companies
      (Analyze.failing_model (F := B64.float) OtherException None)
      ["Tesla"] [] true (fun _ => false) Analyze.start in
  snd out =
  Analyze.World 0
    [ Analyze.Called Analyze.DataGoogle "Tesla";
      Analyze.Called Analyze.DataFmp "Tesla";
      Analyze.Called Analyze.DataGroundedGemini "Tesla";
      Analyze.Called Analyze.AskCompeditors "Tesla";
      Analyze.AddData "tesla" ]
  /\ exists d record,
       fst out = Ok d /\ d = [("tesla", record)]
       /\ get "DEI_L" (Analyze.metrics record) =
          Some (PyList [PyFloat (B64.of_Z 100); PyFloat (B64.dec 475 1)])
       /\ get "ENV" (Analyze.metrics record) =
          Some (PyList [PyFloat (B64.of_Z 130); PyFloat (B64.dec 78846 3)])
       /\ Analyze.competitors_of record =
          Analyze.Names ["Competitor 1"; "Competitor 2"; "Competitor 3"].
Proof.
  split; [reflexivity|].
  eexists. eexists. split; [vm_compute; reflexivity|].
  repeat split.
Qed.
(* ===================================================================== *)
(** * Facts about aggregate_metrics, for any arithmetic *)
(* ===================================================================== *)

Section AggregatorFacts.
Context {F : Type} `{FloatOps F} {V : Type}.
Variable read_observation : pyval F -> result (option (F * F)).
Variable issue_value : F -> F -> V.

(** The two tests against zero agree: a zero is not above zero. *)
Hypothesis feq0_le0 : forall x : F, feq0 x = true -> fle0 x = true.

(** The points an entry list files under an issue. *)
Let filed (issue_id : string) (items : list (string * pyval F)) : list (F * F) :=
  flat_map
    (fun entry =>
       if String.eqb (fst entry) issue_id then
         match read_observation (snd entry) with
         | Ok (Some point) => [point]
         | _ => []
         end
       else [])
    items.

Lemma get_append_point (i k : string) (p : F * F) (c : dict (list (F * F))) :
  get i (append_point k p c) =
  if String.eqb k i then option_map (fun l => l ++ [p]) (get i c) else get i c.
Proof.
  unfold append_point. destruct (get k c) as [l|] eqn:E.
  - rewrite get_set. destruct (String.eqb k i) eqn:Eki; [|reflexivity].
    apply String.eqb_eq in Eki. subst i. rewrite E. reflexivity.
  - destruct (String.eqb k i) eqn:Eki; [|reflexivity].
    apply String.eqb_eq in Eki. subst i. rewrite E. reflexivity.
Qed.

Lemma get_ensure (i k : string) (c : dict (list (F * F))) :
  get i (if mem k c then c else set k [] c) =
  if String.eqb k i then Some (match get i c with Some l => l | None => [] end)
  else get i c.
Proof.
  unfold mem. destruct (get k c) as [l|] eqn:E.
  - destruct (String.eqb k i) eqn:Eki; [|reflexivity].
    apply String.eqb_eq in Eki. subst i. rewrite E. reflexivity.
  - rewrite get_set. destruct (String.eqb k i) eqn:Eki; [|reflexivity].
    apply String.eqb_eq in Eki. subst i. rewrite E. reflexivity.
Qed.

(** What the first loop leaves under an issue: what was there, then the
    points the entries file under it. *)
Lemma combine_items_get (items : list (string * pyval F)) :
  forall (c c' : dict (list (F * F))) (i : string),
    combine_items read_observation items c = Ok c' ->
    get i c' =
    match get i c with
    | Some l => Some (l ++ filed i items)
    | None =>
        if existsb (fun entry => String.eqb (fst entry) i) items
        then Some (filed i items) else None
    end.
Proof.
  induction items as [|[k d] rest IH]; intros c c' i Hc; simpl in Hc.
  - inversion Hc; subst. simpl. destruct (get i c'); [rewrite app_nil_r|]; reflexivity.
  - destruct (read_observation d) as [point|e] eqn:Er; simpl in Hc; [|discriminate].
    rewrite (IH _ _ i Hc). unfold filed. simpl. rewrite Er. fold (filed i rest).
    destruct point as [p|].
    + rewrite get_append_point, get_ensure.
      destruct (String.eqb k i) eqn:Eki; simpl.
      * destruct (get i c); simpl; [rewrite <- app_assoc|]; reflexivity.
      * reflexivity.
    + rewrite get_ensure.
      destruct (String.eqb k i) eqn:Eki; simpl.
      * destruct (get i c); reflexivity.
      * reflexivity.
Qed.

Lemma nodup_append_point (k : string) (p : F * F) (c : dict (list (F * F))) :
  NoDup (keys c) -> NoDup (keys (append_point k p c)).
Proof.
  intros Hc. unfold append_point. destruct (get k c); [apply nodup_set|]; assumption.
Qed.

Lemma combine_items_nodup (items : list (string * pyval F)) :
  forall c c' : dict (list (F * F)),
    NoDup (keys c) -> combine_items read_observation items c = Ok c' ->
    NoDup (keys c').
Proof.
  induction items as [|[k d] rest IH]; intros c c' Hn Hc; simpl in Hc.
  - inversion Hc; subst. assumption.
  - destruct (read_observation d) as [point|e]; simpl in Hc; [|discriminate].
    apply IH in Hc; [assumption|].
    assert (Hn' : NoDup (keys (if mem k c then c else set k [] c))).
    { destruct (mem k c); [assumption | apply nodup_set; assumption]. }
    destruct point; [apply nodup_append_point|]; assumption.
Qed.

(** The two nested loops are one loop over all the entries. *)
Lemma combine_metrics_concat (metrics_list : list (bundle F)) :
  forall c : dict (list (F * F)),
    combine_metrics read_observation metrics_list c =
    combine_items read_observation (List.concat metrics_list) c.
Proof.
  induction metrics_list as [|m rest IH]; intros c; simpl.
  - reflexivity.
  - revert c. induction m as [|[k d] m' IHm]; intros c; simpl.
    + apply IH.
    + destruct (read_observation d) as [point|e]; simpl; [|reflexivity].
      apply IHm.
Qed.

(** The first loop returns exactly when every entry can be read. *)
Lemma combine_items_total (items : list (string * pyval F)) :
  forall c : dict (list (F * F)),
    is_ok (combine_items read_observation items c) =
    forallb (fun entry => is_ok (read_observation (snd entry))) items.
Proof.
  induction items as [|[k d] rest IH]; intros c; simpl.
  - reflexivity.
  - destruct (read_observation d) as [point|e]; simpl; [apply IH | reflexivity].
Qed.

(** When it raises, it raises what the reading of some entry raised. *)
Lemma combine_items_raise (items : list (string * pyval F)) :
  forall (c : dict (list (F * F))) (e : exn),
    combine_items read_observation items c = Raise e ->
    exists entry, In entry items /\ read_observation (snd entry) = Raise e.
Proof.
  induction items as [|[k d] rest IH]; intros c e Hc; simpl in Hc.
  - discriminate.
  - destruct (read_observation d) as [point|e'] eqn:Er; simpl in Hc.
    + destruct (IH _ _ Hc) as [entry [Hin Hr]].
      exists entry. split; [right|]; assumption.
    + inversion Hc; subst. exists (k, d). split; [left; reflexivity | assumption].
Qed.

(** One turn of the second loop: the division is behind the test
    [total_weight <= 0], so it never raises, and the turn stores the
    weighted mean of the points, if there is one. *)
Lemma average_issues_step (k : string) (pts : list (F * F))
    (rest : list (string * list (F * F))) (acc : dict V) :
  average_issues issue_value ((k, pts) :: rest) acc =
  average_issues issue_value rest
    match weighted_mean issue_value pts with
    | Some v => set k v acc
    | None => acc
    end.
Proof.
  simpl. destruct pts as [|p pts']; [reflexivity|].
  unfold weighted_mean, total_weight, weighted_sum.
  destruct (fle0 (py_sum (map fst (p :: pts')))) eqn:Ele; [reflexivity|].
  unfold py_truediv.
  destruct (feq0 (py_sum (map fst (p :: pts')))) eqn:Eeq.
  - apply feq0_le0 in Eeq. congruence.
  - reflexivity.
Qed.

Lemma average_issues_get (items : list (string * list (F * F))) :
  forall acc : dict V,
    NoDup (keys items) ->
    exists out,
      average_issues issue_value items acc = Ok out /\
      forall i,
        get i out =
        match get i items with
        | Some points =>
            match weighted_mean issue_value points with
            | Some v => Some v
            | None => get i acc
            end
        | None => get i acc
        end.
Proof.
  induction items as [|[k pts] rest IH]; intros acc Hn.
  - exists acc. split; reflexivity.
  - inversion Hn as [|? ? Hk Hrest]; subst.
    assert (Hget : get k rest = None) by (apply get_none_notin; exact Hk).
    rewrite average_issues_step.
    destruct (IH (match weighted_mean issue_value pts with
                  | Some v => set k v acc
                  | None => acc
                  end) Hrest) as [out [Ho Hg]].
    exists out. split; [exact Ho|].
    intros i. rewrite Hg. simpl get.
    destruct (String.eqb k i) eqn:Eki.
    + apply String.eqb_eq in Eki. subst i. rewrite Hget.
      destruct (weighted_mean issue_value pts); [|reflexivity].
      rewrite get_set, String.eqb_refl. reflexivity.
    + destruct (weighted_mean issue_value pts) as [v|]; [|reflexivity].
      rewrite get_set, Eki. reflexivity.
Qed.

(** [aggregate_with] returns exactly when every entry can be read. *)
Lemma aggregate_with_total (metrics_list : list (bundle F)) :
  is_ok (aggregate_with read_observation issue_value metrics_list) =
  all_read read_observation metrics_list.
Proof.
  unfold aggregate_with, all_read.
  rewrite <- (combine_items_total (List.concat metrics_list) []).
  rewrite combine_metrics_concat.
  destruct (combine_items read_observation (List.concat metrics_list) []) as [c|e] eqn:Ec;
    simpl; [|reflexivity].
  destruct (average_issues_get c []) as [out [Ho _]].
  - eapply combine_items_nodup; [|exact Ec]. constructor.
  - rewrite Ho. reflexivity.
Qed.

(** When it returns, it holds for every issue the weighted mean of the
    observations of that issue, and nothing for an issue without one. *)
Lemma aggregate_with_get (metrics_list : list (bundle F)) (r : dict V) (i : string) :
  aggregate_with read_observation issue_value metrics_list = Ok r ->
  get i r = weighted_mean issue_value (observations read_observation i metrics_list).
Proof.
  unfold aggregate_with. rewrite combine_metrics_concat.
  destruct (combine_items read_observation (List.concat metrics_list) []) as [c|e] eqn:Ec;
    simpl; [|discriminate].
  intros Hr.
  destruct (average_issues_get c []) as [out [Ho Hg]].
  - eapply combine_items_nodup; [|exact Ec]. constructor.
  - rewrite Ho in Hr. inversion Hr; subst out.
    rewrite Hg, (combine_items_get _ _ i Ec). simpl.
    fold (filed i (List.concat metrics_list)).
    change (observations read_observation i metrics_list)
      with (filed i (List.concat metrics_list)).
    destruct (existsb (fun entry => String.eqb (fst entry) i) (List.concat metrics_list)) eqn:Ex.
    + destruct (weighted_mean issue_value (filed i (List.concat metrics_list))); reflexivity.
    + assert (Hf : filed i (List.concat metrics_list) = []).
      { unfold filed. clear -Ex. induction (List.concat metrics_list) as [|[k d] l IH]; simpl in *.
        - reflexivity.
        - apply orb_false_elim in Ex. destruct Ex as [E1 E2].
          rewrite E1. simpl. apply IH. exact E2. }
      rewrite Hf. reflexivity.
Qed.

(** Whatever it raises was raised by the reading of an entry. *)
Lemma aggregate_with_raise (metrics_list : list (bundle F)) (e : exn) :
  aggregate_with read_observation issue_value metrics_list = Raise e ->
  exists entry,
    In entry (List.concat metrics_list) /\ read_observation (snd entry) = Raise e.
Proof.
  unfold aggregate_with. rewrite combine_metrics_concat.
  destruct (combine_items read_observation (List.concat metrics_list) []) as [c|e'] eqn:Ec;
    simpl.
  - intros Hr.
    destruct (average_issues_get c []) as [out [Ho _]].
    + eapply combine_items_nodup; [|exact Ec]. constructor.
    + rewrite Ho in Hr. discriminate.
  - intros Hr. inversion Hr; subst. eapply combine_items_raise. exact Ec.
Qed.

End AggregatorFacts.

(* ===================================================================== *)
(** * Facts about the two arithmetics and the two readings *)
(* ===================================================================== *)

Lemma b64_eq0_le0 (x : B64.float) : feq0 x = true -> fle0 x = true.
Proof.
  simpl. unfold B64.eq0, B64.le0, SFeqb, SFleb.
  destruct (SFcompare x B64.zero) as [[| |]|]; congruence.
Qed.

Lemma b64_pos_nle0 (x : B64.float) : fpos x = true -> fle0 x = false.
Proof.
  simpl. unfold B64.pos, B64.le0, SFltb, SFleb, B64.zero.
  destruct x as [s|s| |s m e]; simpl; try discriminate;
    destruct s; simpl; congruence.
Qed.

Lemma exact_eq0_le0 (x : Q) : feq0 x = true -> fle0 x = true.
Proof.
  simpl. unfold Exact.eq0, Exact.le0. intros E. apply Qeq_bool_iff in E.
  apply Qle_bool_iff. rewrite E. apply Qle_refl.
Qed.

Section Readings.
Context {F : Type} `{FloatOps F}.

(** [float(v)] raises nothing but these three. *)
Lemma py_float_raise (v : pyval F) (e : exn) :
  py_float v = Raise e -> e = ValueError \/ e = TypeError \/ e = OverflowError.
Proof.
  destruct v as [|b|z|x|s [x|]|l|l|]; simpl; intros E; try discriminate;
    try (inversion E; subst; tauto).
  - destruct (float_of_int (if b then 1 else 0)); inversion E; subst; tauto.
  - destruct (float_of_int z); inversion E; subst; tauto.
Qed.

(** The reading of [analyze_data.py] lets through nothing but an
    [OverflowError]. *)
Lemma analyze_data_read_raise (data : pyval F) (e : exn) :
  AnalyzeData.read_observation data = Raise e -> e = OverflowError.
Proof.
  unfold AnalyzeData.read_observation.
  destruct data as [| | | | |[|w [|s [|? ?]]]| |]; try discriminate.
  destruct (py_float w) as [x|e1] eqn:Ew; simpl.
  - destruct (py_float s) as [y|e2] eqn:Es; simpl; [discriminate|].
    destruct (py_float_raise _ Es) as [->|[->| ->]]; intros E; inversion E; reflexivity.
  - destruct (py_float_raise _ Ew) as [->|[->| ->]]; intros E; inversion E; reflexivity.
Qed.

(** The reading of [analyze.py] raises whatever a conversion raises. *)
Lemma analyze_read_raise (data : pyval F) (e : exn) :
  Analyze.read_observation data = Raise e ->
  e = ValueError \/ e = TypeError \/ e = OverflowError.
Proof.
  unfold Analyze.read_observation.
  destruct data as [| | | | |[|w [|s [|? ?]]]| |]; try discriminate.
  destruct (py_float w) as [x|e1] eqn:Ew; simpl.
  - destruct (py_float s) as [y|e2] eqn:Es; simpl; [discriminate|].
    intros E; inversion E; subst. exact (py_float_raise _ Es).
  - intros E; inversion E; subst. exact (py_float_raise _ Ew).
Qed.

(** Where the unguarded reading returns, the guarded one returns the
    same. *)
Lemma analyze_read_ok (data : pyval F) (o : option (F * F)) :
  Analyze.read_observation data = Ok o -> AnalyzeData.read_observation data = Ok o.
Proof.
  unfold Analyze.read_observation, AnalyzeData.read_observation.
  destruct data as [| | | | |[|w [|s [|? ?]]]| |]; try (intros E; exact E).
  destruct (py_float w) as [x|e1]; simpl; [|discriminate].
  destruct (py_float s) as [y|e2]; simpl; [|discriminate].
  intros E; inversion E; reflexivity.
Qed.

End Readings.

(** [aggregate_metrics] of [analyze_data.py] raises nothing but an
    [OverflowError]: a malformed entry never makes it raise. *)
Lemma analyze_data_aggregate_raise {F : Type} `{FloatOps F}
    (metrics_list : list (bundle F)) (e : exn) :
  (forall x : F, feq0 x = true -> fle0 x = true) ->
  AnalyzeData.aggregate_metrics metrics_list = Raise e -> e = OverflowError.
Proof.
  intros Hlaw E. unfold AnalyzeData.aggregate_metrics in E.
  destruct (aggregate_with_raise _ _ Hlaw _ E) as [entry [_ Hr]].
  exact (analyze_data_read_raise _ Hr).
Qed.

Lemma analyze_aggregate_raise {F : Type} `{FloatOps F}
    (metrics_list : list (bundle F)) (e : exn) :
  (forall x : F, feq0 x = true -> fle0 x = true) ->
  Analyze.aggregate_metrics metrics_list = Raise e ->
  e = ValueError \/ e = TypeError \/ e = OverflowError.
Proof.
  intros Hlaw E. unfold Analyze.aggregate_metrics in E.
  destruct (aggregate_with_raise _ _ Hlaw _ E) as [entry [_ Hr]].
  exact (analyze_read_raise _ Hr).
Qed.
(* ===================================================================== *)
(** * The aggregator on Python floats *)
(* ===================================================================== *)

Section AggregatorClaims.
Context {F : Type} `{FloatOps F} {V : Type}.
Variable read_observation : pyval F -> result (option (F * F)).
Variable issue_value : F -> F -> V.
Hypothesis feq0_le0 : forall x : F, feq0 x = true -> fle0 x = true.
Hypothesis fpos_nle0 : forall x : F, fpos x = true -> fle0 x = false.
Hypothesis fle0_zero : fle0 (fzero : F) = true.

(** With every entry readable and a total weight above zero, the call
    returns and holds the rounded sums for the issue. *)
Lemma aggregate_with_positive (metrics_list : list (bundle F)) (i : string) :
  let points := observations read_observation i metrics_list in
  all_read read_observation metrics_list = true ->
  fpos (total_weight points) = true ->
  exists r,
    aggregate_with read_observation issue_value metrics_list = Ok r /\
    get i r =
    Some (issue_value (round3 (total_weight points))
            (round3 (fdiv (weighted_sum points) (total_weight points)))).
Proof.
  intros points Hread Hpos.
  rewrite <- (aggregate_with_total read_observation issue_value feq0_le0) in Hread.
  destruct (aggregate_with read_observation issue_value metrics_list) as [r|e] eqn:E;
    [|discriminate].
  exists r. split; [reflexivity|].
  rewrite (aggregate_with_get read_observation issue_value feq0_le0 _ i E).
  fold points. unfold weighted_mean.
  apply fpos_nle0 in Hpos. rewrite Hpos.
  destruct points as [|p points']; [|reflexivity].
  unfold total_weight, py_sum in Hpos. simpl in Hpos. congruence.
Qed.

(** With a total weight of zero or below, the issue is left out. *)
Lemma aggregate_with_omits (metrics_list : list (bundle F)) (i : string) (r : dict V) :
  fle0 (total_weight (observations read_observation i metrics_list)) = true ->
  aggregate_with read_observation issue_value metrics_list = Ok r ->
  get i r = None.
Proof.
  intros Hle E.
  rewrite (aggregate_with_get read_observation issue_value feq0_le0 _ i E).
  unfold weighted_mean. rewrite Hle.
  destruct (observations read_observation i metrics_list); reflexivity.
Qed.


End AggregatorClaims.

(** C1.  When the observations collected for an issue have a total weight
    above zero and the call returns, [aggregate_metrics] returns for that
    issue the score sum(weight * score) / sum(weight) and the confidence
    sum(weight), both rounded to 3 decimal places: as a
    [{"score", "confidence"}] record in [analyze_data.py] and as the list
    [[confidence, score]] in [analyze.py].  On the scenario of the
    specification, whose observations [(1, 80)] and [(1, 60)] are the
    entries [[1, 80]] and [[1, 60]], both return confidence 2 and score 70
    for "ENV".  The call does not return on every list of bundles, though.
    In [analyze.py] an entry with a non-numeric element makes it raise:
    on [[{"ENV": [100, None], "PAY": [50, 65]}]], where the well-formed
    observations of "PAY" have the total weight 50, it raises [TypeError]
    and nothing is returned for "PAY", whereas [analyze_data.py] returns its
    weighted mean.  In both sources an [int] too large for a float makes
    the conversion raise [OverflowError], which [analyze_data.py] does not
    catch either. *)
Theorem aggregate_metrics_weighted_mean :
  forall (metrics_list : list (bundle B64.float)) (issue_id : string),
    (let points := observations AnalyzeData.read_observation issue_id metrics_list in
     all_read AnalyzeData.read_observation metrics_list = true ->
     fpos (total_weight points) = true ->
     exists r,
       AnalyzeData.aggregate_metrics metrics_list = Ok r /\
       get issue_id r =
       Some (AnalyzeData.IssueResult
               (round3 (fdiv (weighted_sum points) (total_weight points)))
               (round3 (total_weight points))))
    /\
    (let points := observations Analyze.read_observation issue_id metrics_list in
     all_read Analyze.read_observation metrics_list = true ->
     fpos (total_weight points) = true ->
     exists r,
       Analyze.aggregate_metrics metrics_list = Ok r /\
       get issue_id r =
       Some (PyList
               [PyFloat (round3 (total_weight points));
                PyFloat (round3 (fdiv (weighted_sum points) (total_weight points)))]))
    /\
    AnalyzeData.aggregate_metrics (F := B64.float)
      [ [("ENV", PyList [PyInt 1; PyInt 80])];
        [("ENV", PyList [PyInt 1; PyInt 60])] ] =
    Ok [("ENV", AnalyzeData.IssueResult (B64.of_Z 70) (B64.of_Z 2))]
    /\
    Analyze.aggregate_metrics (F := B64.float)
      [ [("ENV", PyList [PyInt 1; PyInt 80])];
        [("ENV", PyList [PyInt 1; PyInt 60])] ] =
    Ok [("ENV", PyList [PyFloat (B64.of_Z 2); PyFloat (B64.of_Z 70)])]
    /\
    (let null_field : list (bundle B64.float) :=
       [ [("ENV", PyList [PyInt 100; PyNone]); ("PAY", PyList [PyInt 50; PyInt 65])] ] in
     fpos (total_weight (observations Analyze.read_observation "PAY" null_field)) = true
     /\ Analyze.aggregate_metrics null_field = Raise TypeError
     /\ AnalyzeData.aggregate_metrics null_field =
        Ok [("PAY", AnalyzeData.IssueResult (B64.of_Z 65) (B64.of_Z 50))])
    /\
    (let too_large : list (bundle B64.float) :=
       [ [("ENV", PyList [PyInt (2 ^ 1024); PyInt 1]); ("PAY", PyList [PyInt 50; PyInt 65])] ] in
     fpos (total_weight (observations AnalyzeData.read_observation "PAY" too_large)) = true
     /\ AnalyzeData.aggregate_metrics too_large = Raise OverflowError
     /\ Analyze.aggregate_metrics too_large = Raise OverflowError).
Proof.
  intros metrics_list issue_id. repeat split.
  - intros points Hread Hpos.
    exact (aggregate_with_positive AnalyzeData.read_observation
             (fun total_weight final_score => AnalyzeData.IssueResult final_score total_weight)
             b64_eq0_le0 b64_pos_nle0 eq_refl metrics_list issue_id Hread Hpos).
  - intros points Hread Hpos.
    exact (aggregate_with_positive Analyze.read_observation
             (fun total_weight final_score =>
                PyList [PyFloat total_weight; PyFloat final_score])
             b64_eq0_le0 b64_pos_nle0 eq_refl metrics_list issue_id Hread Hpos).
Qed.

(** C1, on the scenario itself: the two hypotheses hold there. *)
Lemma aggregate_metrics_weighted_mean_scenario :
  let metrics_list : list (bundle B64.float) :=
    [ [("ENV", PyList [PyInt 1; PyInt 80])];
      [("ENV", PyList [PyInt 1; PyInt 60])] ] in
  let points := observations AnalyzeData.read_observation "ENV" metrics_list in
  all_read AnalyzeData.read_observation metrics_list = true /\
  fpos (total_weight points) = true /\
  exists r,
    AnalyzeData.aggregate_metrics metrics_list = Ok r /\
    get "ENV" r =
    Some (AnalyzeData.IssueResult
            (round3 (fdiv (weighted_sum points) (total_weight points)))
            (round3 (total_weight points))).
Proof.
  split; [reflexivity|]. split; [reflexivity|].
  apply (proj1 (aggregate_metrics_weighted_mean
                  [ [("ENV", PyList [PyInt 1; PyInt 80])];
                    [("ENV", PyList [PyInt 1; PyInt 60])] ] "ENV"));
    reflexivity.
Defined.

(** C2.  On the empty bundle list [aggregate_metrics] returns the empty
    mapping; an issue whose observations sum to a total weight of zero or
    below is absent from what it returns; an issue that is present, the
    only kind for which the division runs, has a total weight that is not
    [<= 0]; and [aggregate_metrics] never raises [ZeroDivisionError].  In
    both sources. *)
Theorem aggregate_metrics_guards_division :
  forall (metrics_list : list (bundle B64.float)) (issue_id : string),
    AnalyzeData.aggregate_metrics (F := B64.float) [] = Ok []
    /\ Analyze.aggregate_metrics (F := B64.float) [] = Ok []
    /\ (fle0 (total_weight (observations AnalyzeData.read_observation issue_id metrics_list)) = true ->
        forall r, AnalyzeData.aggregate_metrics metrics_list = Ok r -> get issue_id r = None)
    /\ (fle0 (total_weight (observations Analyze.read_observation issue_id metrics_list)) = true ->
        forall r, Analyze.aggregate_metrics metrics_list = Ok r -> get issue_id r = None)
    /\ (forall r v,
          AnalyzeData.aggregate_metrics metrics_list = Ok r -> get issue_id r = Some v ->
          fle0 (total_weight (observations AnalyzeData.read_observation issue_id metrics_list)) = false)
    /\ (forall r v,
          Analyze.aggregate_metrics metrics_list = Ok r -> get issue_id r = Some v ->
          fle0 (total_weight (observations Analyze.read_observation issue_id metrics_list)) = false)
    /\ raises (AnalyzeData.aggregate_metrics metrics_list) is_ZeroDivisionError = false
    /\ raises (Analyze.aggregate_metrics metrics_list) is_ZeroDivisionError = false.
Proof.
  intros metrics_list issue_id.
  assert (Homit1 :
    fle0 (total_weight (observations AnalyzeData.read_observation issue_id metrics_list)) = true ->
    forall r, AnalyzeData.aggregate_metrics metrics_list = Ok r -> get issue_id r = None).
  { intros Hle r E.
    exact (aggregate_with_omits AnalyzeData.read_observation _ b64_eq0_le0 _ _ Hle E). }
  assert (Homit2 :
    fle0 (total_weight (observations Analyze.read_observation issue_id metrics_list)) = true ->
    forall r, Analyze.aggregate_metrics metrics_list = Ok r -> get issue_id r = None).
  { intros Hle r E.
    exact (aggregate_with_omits Analyze.read_observation _ b64_eq0_le0 _ _ Hle E). }
  split; [reflexivity|]. split; [reflexivity|].
  split; [exact Homit1|]. split; [exact Homit2|].
  split; [|split; [|split]].
  - intros r v E Hv.
    destruct (fle0 (total_weight (observations AnalyzeData.read_observation issue_id metrics_list)))
      eqn:Hle; [|reflexivity].
    rewrite (Homit1 eq_refl r E) in Hv. discriminate.
  - intros r v E Hv.
    destruct (fle0 (total_weight (observations Analyze.read_observation issue_id metrics_list)))
      eqn:Hle; [|reflexivity].
    rewrite (Homit2 eq_refl r E) in Hv. discriminate.
  - destruct (AnalyzeData.aggregate_metrics metrics_list) as [r|e] eqn:E; [reflexivity|].
    rewrite (analyze_data_aggregate_raise _ b64_eq0_le0 E). reflexivity.
  - destruct (Analyze.aggregate_metrics metrics_list) as [r|e] eqn:E; [reflexivity|].
    destruct (analyze_aggregate_raise _ b64_eq0_le0 E) as [->|[->| ->]]; reflexivity.
Qed.

(** C2, on observations that all have weight zero: [{"X": [0, 50]}] and
    [{"X": [0, 70]}] give the empty mapping. *)
Lemma aggregate_metrics_guards_division_zero_weights :
  let metrics_list : list (bundle B64.float) :=
    [ [("X", PyList [PyInt 0; PyInt 50])];
      [("X", PyList [PyInt 0; PyInt 70])] ] in
  fle0 (total_weight (observations AnalyzeData.read_observation "X" metrics_list)) = true /\
  AnalyzeData.aggregate_metrics metrics_list = Ok [] /\
  get "X" ([] : dict (AnalyzeData.issue_result B64.float)) = None.
Proof.
  split; [reflexivity|]. split; [reflexivity|].
  destruct (aggregate_metrics_guards_division
              [ [("X", PyList [PyInt 0; PyInt 50])];
                [("X", PyList [PyInt 0; PyInt 70])] ] "X")
    as [_ [_ [Homit _]]].
  apply Homit; reflexivity.
Defined.

(** C5, on [analyze.py]: an entry with a non-numeric element, such as
    the [[100, None]] that [data_fmp] builds from a null field, is not
    discarded; the conversion raises and the whole call fails.  On the same
    input [analyze_data.py] discards the entry and aggregates the rest. *)
Theorem aggregate_metrics_raises_on_non_numeric :
  Analyze.aggregate_metrics (F := B64.float)
    [ [("ENV", PyList [PyInt 100; PyNone]); ("PAY", PyList [PyInt 50; PyInt 65])] ] =
  Raise TypeError
  /\ Analyze.aggregate_metrics (F := B64.float)
       [ [("ENV", PyList [PyStr "high" None; PyInt 80])];
         [("ENV", PyList [PyInt 1; PyInt 60])] ] =
     Raise ValueError
  /\ AnalyzeData.aggregate_metrics (F := B64.float)
       [ [("ENV", PyList [PyInt 100; PyNone]); ("PAY", PyList [PyInt 50; PyInt 65])] ] =
     Ok [("PAY", AnalyzeData.IssueResult (B64.of_Z 65) (B64.of_Z 50))]
  /\ Analyze.aggregate_metrics (F := B64.float)
       [ [("ENV", PyList [PyInt 100]); ("PAY", PyList [PyInt 50; PyInt 65])] ] =
     Ok [("PAY", PyList [PyFloat (B64.of_Z 50); PyFloat (B64.of_Z 65)])].
Proof. repeat split. Qed.



(* ===================================================================== *)
(** * Order of the bundles *)
(* ===================================================================== *)

Lemma concat_permutation {A : Type} (l l' : list (list A)) :
  Permutation l l' -> Permutation (List.concat l) (List.concat l').
Proof.
  induction 1 as [|x l l' _ IH|x y l|l l' l'' _ IH1 _ IH2]; simpl.
  - constructor.
  - apply Permutation_app_head. exact IH.
  - rewrite !app_assoc. apply Permutation_app_tail. apply Permutation_app_comm.
  - eapply Permutation_trans; eassumption.
Qed.

Lemma forallb_permutation {A : Type} (p : A -> bool) (l l' : list A) :
  Permutation l l' -> forallb p l = forallb p l'.
Proof.
  induction 1 as [|x l l' _ IH|x y l|l l' l'' _ IH1 _ IH2]; simpl.
  - reflexivity.
  - rewrite IH. reflexivity.
  - destruct (p x), (p y); reflexivity.
  - congruence.
Qed.

Section Order.
Context {F : Type} `{FloatOps F} {V : Type}.
Variable read_observation : pyval F -> result (option (F * F)).
Variable issue_value : F -> F -> V.
Hypothesis feq0_le0 : forall x : F, feq0 x = true -> fle0 x = true.

(** Permuting the bundles permutes the observations of every issue. *)
Lemma observations_permutation (metrics_list metrics_list' : list (bundle F)) (i : string) :
  Permutation metrics_list metrics_list' ->
  Permutation (observations read_observation i metrics_list)
              (observations read_observation i metrics_list').
Proof.
  intros Hp. unfold observations.
  apply Permutation_flat_map. apply concat_permutation. exact Hp.
Qed.

(** Where the two sums of an issue come out the same in both orders, so
    does what is returned for it. *)
Lemma aggregate_with_permutation (metrics_list metrics_list' : list (bundle F))
    (i : string) (r : dict V) :
  Permutation metrics_list metrics_list' ->
  total_weight (observations read_observation i metrics_list) =
  total_weight (observations read_observation i metrics_list') ->
  weighted_sum (observations read_observation i metrics_list) =
  weighted_sum (observations read_observation i metrics_list') ->
  aggregate_with read_observation issue_value metrics_list = Ok r ->
  exists r',
    aggregate_with read_observation issue_value metrics_list' = Ok r' /\
    get i r = get i r'.
Proof.
  intros Hp Hw Hs E.
  assert (Hok : is_ok (aggregate_with read_observation issue_value metrics_list') = true).
  { rewrite (aggregate_with_total read_observation issue_value feq0_le0).
    unfold all_read.
    rewrite <- (forallb_permutation _ (concat_permutation Hp)).
    fold (all_read read_observation metrics_list).
    rewrite <- (aggregate_with_total read_observation issue_value feq0_le0), E.
    reflexivity. }
  destruct (aggregate_with read_observation issue_value metrics_list') as [r'|e] eqn:E';
    [|discriminate].
  exists r'. split; [reflexivity|].
  rewrite (aggregate_with_get read_observation issue_value feq0_le0 _ i E).
  rewrite (aggregate_with_get read_observation issue_value feq0_le0 _ i E').
  pose proof (observations_permutation i Hp) as Hobs.
  unfold weighted_mean. rewrite Hw, Hs.
  destruct (observations read_observation i metrics_list) as [|p l];
    destruct (observations read_observation i metrics_list') as [|p' l'];
    try reflexivity.
  - apply Permutation_nil in Hobs. discriminate.
  - apply Permutation_sym, Permutation_nil in Hobs. discriminate.
Qed.

End Order.

(** Over the rationals, addition is commutative and associative on the
    nose, so a sum does not depend on the order of its terms. *)
Lemma exact_add_comm (x y : Q) : Qplus x y = Qplus y x.
Proof.
  destruct x as [nx dx], y as [ny dy]. unfold Qplus. simpl.
  f_equal; [ring | apply Pos.mul_comm].
Qed.

Lemma exact_add_assoc (x y z : Q) : Qplus (Qplus x y) z = Qplus x (Qplus y z).
Proof.
  destruct x as [nx dx], y as [ny dy], z as [nz dz]. unfold Qplus. simpl.
  f_equal; [rewrite !Pos2Z.inj_mul; ring | symmetry; apply Pos.mul_assoc].
Qed.

Lemma exact_sum_permutation (xs ys : list Q) :
  Permutation xs ys -> py_sum xs = py_sum ys.
Proof.
  intros Hp. unfold py_sum. simpl. generalize 0%Q.
  induction Hp as [|x l l' _ IH|x y l|l l' l'' _ IH1 _ IH2]; intros a; simpl.
  - reflexivity.
  - apply IH.
  - f_equal. rewrite !exact_add_assoc. f_equal. apply exact_add_comm.
  - rewrite IH1. apply IH2.
Qed.

(** So, in exact arithmetic, [aggregate_with] does not depend on the
    order of the bundles. *)
Lemma exact_aggregate_with_permutation {V : Type}
    (read_observation : pyval Q -> result (option (Q * Q)))
    (issue_value : Q -> Q -> V)
    (metrics_list metrics_list' : list (bundle Q)) (i : string) (r : dict V) :
  Permutation metrics_list metrics_list' ->
  aggregate_with read_observation issue_value metrics_list = Ok r ->
  exists r',
    aggregate_with read_observation issue_value metrics_list' = Ok r' /\
    get i r = get i r'.
Proof.
  intros Hp E.
  pose proof (observations_permutation read_observation i Hp) as Hobs.
  apply (aggregate_with_permutation read_observation issue_value exact_eq0_le0 i Hp);
    [| |exact E].
  - unfold total_weight. apply exact_sum_permutation.
    apply Permutation_map. exact Hobs.
  - unfold weighted_sum. apply exact_sum_permutation.
    apply Permutation_map. exact Hobs.
Qed.

(** C7, as the code has it.  Permuting the bundle list permutes the
    observations collected for each issue; and where the floating-point
    sums of the weights and of the weighted scores of an issue come out
    the same in both orders, the two calls return the same for that
    issue.  Read over exact arithmetic the sums always agree, and the two
    calls return the same for every issue; binary64 addition is not
    associative. *)
Theorem aggregate_metrics_permutation :
  forall (metrics_list metrics_list' : list (bundle B64.float)) (issue_id : string),
    Permutation metrics_list metrics_list' ->
    (Permutation (observations AnalyzeData.read_observation issue_id metrics_list)
                 (observations AnalyzeData.read_observation issue_id metrics_list')
     /\ (total_weight (observations AnalyzeData.read_observation issue_id metrics_list) =
         total_weight (observations AnalyzeData.read_observation issue_id metrics_list') ->
         weighted_sum (observations AnalyzeData.read_observation issue_id metrics_list) =
         weighted_sum (observations AnalyzeData.read_observation issue_id metrics_list') ->
         forall r,
           AnalyzeData.aggregate_metrics metrics_list = Ok r ->
           exists r',
             AnalyzeData.aggregate_metrics metrics_list' = Ok r' /\
             get issue_id r = get issue_id r'))
    /\
    (Permutation (observations Analyze.read_observation issue_id metrics_list)
                 (observations Analyze.read_observation issue_id metrics_list')
     /\ (total_weight (observations Analyze.read_observation issue_id metrics_list) =
         total_weight (observations Analyze.read_observation issue_id metrics_list') ->
         weighted_sum (observations Analyze.read_observation issue_id metrics_list) =
         weighted_sum (observations Analyze.read_observation issue_id metrics_list') ->
         forall r,
           Analyze.aggregate_metrics metrics_list = Ok r ->
           exists r',
             Analyze.aggregate_metrics metrics_list' = Ok r' /\
             get issue_id r = get issue_id r'))
    /\
    (forall exact exact' : list (bundle Q),
       Permutation exact exact' ->
       (forall r,
          AnalyzeData.aggregate_metrics exact = Ok r ->
          exists r',
            AnalyzeData.aggregate_metrics exact' = Ok r' /\
            get issue_id r = get issue_id r')
       /\
       (forall r,
          Analyze.aggregate_metrics exact = Ok r ->
          exists r',
            Analyze.aggregate_metrics exact' = Ok r' /\
            get issue_id r = get issue_id r')).
Proof.
  intros metrics_list metrics_list' issue_id Hp. split; [|split]; [split|split|].
  - apply observations_permutation. exact Hp.
  - intros Hw Hs r E.
    exact (aggregate_with_permutation AnalyzeData.read_observation _ b64_eq0_le0
             issue_id Hp Hw Hs E).
  - apply observations_permutation. exact Hp.
  - intros Hw Hs r E.
    exact (aggregate_with_permutation Analyze.read_observation _ b64_eq0_le0
             issue_id Hp Hw Hs E).
  - intros exact exact' Hq. split; intros r E.
    + exact (exact_aggregate_with_permutation AnalyzeData.read_observation _
               issue_id Hq E).
    + exact (exact_aggregate_with_permutation Analyze.read_observation _
               issue_id Hq E).
Qed.

(** C7, on the scenario of the specification with its two bundles
    swapped: the sums agree, and so do the results. *)
Lemma aggregate_metrics_permutation_swap :
  let metrics_list : list (bundle B64.float) :=
    [ [("ENV", PyList [PyInt 1; PyInt 80])];
      [("ENV", PyList [PyInt 1; PyInt 60])] ] in
  let metrics_list' : list (bundle B64.float) :=
    [ [("ENV", PyList [PyInt 1; PyInt 60])];
      [("ENV", PyList [PyInt 1; PyInt 80])] ] in
  Permutation metrics_list metrics_list' /\
  exists r',
    AnalyzeData.aggregate_metrics metrics_list' = Ok r' /\
    get "ENV" [("ENV", AnalyzeData.IssueResult (B64.of_Z 70) (B64.of_Z 2))] = get "ENV" r'.
Proof.
  split; [apply perm_swap|].
  destruct (aggregate_metrics_permutation "ENV"
              (perm_swap [("ENV", PyList [PyInt 1; PyInt 60])]
                         [("ENV", PyList [PyInt 1; PyInt 80])]
                         ([] : list (bundle B64.float))))
    as [[_ Hsame] _].
  apply Hsame; reflexivity.
Defined.

(** C7 as stated fails.  The observations (3.2, 52), (2.98, 19) and
    (0.0695, 43) give the confidence 6.249 in this order and 6.25 in the
    reverse order: added from left to right, the weights sum to a double
    just below 6.2495 one way and just above it the other way.  And with
    the weights 2^106, 2^53, 1 and 1 (each with score 50), the confidence
    is 2^106 in one order (each smaller weight is absorbed in turn) and
    2^106 + 2^54 in the reverse order; there the compensated sum of later
    CPython versions gives the same two values. *)
Lemma aggregate_metrics_order_matters :
  let small : list (bundle B64.float) :=
    [ [("X", PyList [PyFloat (B64.dec 32 1); PyInt 52])];
      [("X", PyList [PyFloat (B64.dec 298 2); PyInt 19])];
      [("X", PyList [PyFloat (B64.dec 695 4); PyInt 43])] ] in
  let a := B64.ldexp 1 106 in
  let b := B64.ldexp 1 53 in
  let one := B64.of_Z 1 in
  let large : list (bundle B64.float) :=
    [ [("X", PyList [PyFloat a; PyInt 50])];
      [("X", PyList [PyFloat b; PyInt 50])];
      [("X", PyList [PyInt 1; PyInt 50])];
      [("X", PyList [PyInt 1; PyInt 50])] ] in
  Permutation small (rev small)
  /\ AnalyzeData.aggregate_metrics small =
     Ok [("X", AnalyzeData.IssueResult (B64.dec 36164 3) (B64.dec 6249 3))]
  /\ AnalyzeData.aggregate_metrics (rev small) =
     Ok [("X", AnalyzeData.IssueResult (B64.dec 36164 3) (B64.dec 625 2))]
  /\ Analyze.aggregate_metrics small =
     Ok [("X", PyList [PyFloat (B64.dec 6249 3); PyFloat (B64.dec 36164 3)])]
  /\ Analyze.aggregate_metrics (rev small) =
     Ok [("X", PyList [PyFloat (B64.dec 625 2); PyFloat (B64.dec 36164 3)])]
  /\ SFltb (B64.dec 6249 3) (B64.dec 625 2) = true
  /\ Permutation large (rev large)
  /\ AnalyzeData.aggregate_metrics large =
     Ok [("X", AnalyzeData.IssueResult (B64.of_Z 50) a)]
  /\ AnalyzeData.aggregate_metrics (rev large) =
     Ok [("X", AnalyzeData.IssueResult (B64.of_Z 50) (B64.add a (B64.ldexp 1 54)))]
  /\ SFltb a (B64.add a (B64.ldexp 1 54)) = true
  /\ B64.sum_compensated [a; b; one; one] = a
  /\ B64.sum_compensated [one; one; b; a] = B64.add a (B64.ldexp 1 54).
Proof.
  split; [apply Permutation_rev|].
  do 5 (split; [reflexivity|]).
  split; [apply Permutation_rev|].
  repeat split.
Qed.
(* ===================================================================== *)
(** * The weighted mean in exact arithmetic *)
(* ===================================================================== *)

Section ExactMean.
Local Open Scope Q_scope.








End ExactMean.





(* ===================================================================== *)
(** * The retry loops of analyze.py *)
(* ===================================================================== *)

Section RetryFacts.
Context {F : Type} `{FloatOps F}.
Variable env : Analyze.outside (F := F).

(** A client error that is not a rate limit leaves [ask_about_article]
    at the first attempt. *)
Lemma ask_about_article_fatal (code : Z) (w : Analyze.world) :
  code <> 429 ->
  Analyze.generate env (Analyze.calls w) = Analyze.Fails (ClientError code) ->
  Analyze.ask_about_article env (Some tt) w =
  (Raise (ClientError code),
   Analyze.World (S (Analyze.calls w))
     (Analyze.trace w ++ [Analyze.Generate Analyze.ArticleScoring])).
Proof.
  intros Hc Hg. apply Z.eqb_neq in Hc.
  unfold Analyze.ask_about_article, Analyze.bind. simpl.
  unfold Analyze.try, Analyze.bind. simpl. rewrite Hg, Hc. reflexivity.
Qed.

Lemma data_grounded_gemini_fatal (company : string) (code : Z) (w : Analyze.world) :
  code <> 429 ->
  Analyze.generate env (Analyze.calls w) = Analyze.Fails (ClientError code) ->
  Analyze.data_grounded_gemini env company (Some tt) false w =
  (Raise (ClientError code),
   Analyze.World (S (Analyze.calls w))
     (Analyze.trace w ++
      [Analyze.Called Analyze.DataGroundedGemini company;
       Analyze.Generate Analyze.GroundedModel])).
Proof.
  intros Hc Hg. apply Z.eqb_neq in Hc.
  unfold Analyze.data_grounded_gemini, Analyze.bind. simpl.
  unfold Analyze.try, Analyze.bind. simpl. rewrite Hg, Hc.
  rewrite <- app_assoc. reflexivity.
Qed.

Lemma ask_compeditors_fatal (company : string) (code : Z) (w : Analyze.world) :
  code <> 429 ->
  Analyze.generate env (Analyze.calls w) = Analyze.Fails (ClientError code) ->
  Analyze.ask_compeditors env company (Some tt) false w =
  (Raise (ClientError code),
   Analyze.World (S (Analyze.calls w))
     (Analyze.trace w ++
      [Analyze.Called Analyze.AskCompeditors company;
       Analyze.Generate Analyze.CompetitorLookup])).
Proof.
  intros Hc Hg. apply Z.eqb_neq in Hc.
  unfold Analyze.ask_compeditors, Analyze.bind. simpl.
  unfold Analyze.try, Analyze.bind. simpl. rewrite Hg, Hc.
  rewrite <- app_assoc. reflexivity.
Qed.

(** A site is rate limited through five calls from [w]. *)
Let rate_limited (w : Analyze.world) : Prop :=
  forall k : nat, (k < 5)%nat ->
    Analyze.generate env (k + Analyze.calls w) = Analyze.Fails (ClientError 429).

Ltac run_rate_limited Hrl :=
  pose proof (Hrl 0%nat ltac:(lia)) as H0;
  pose proof (Hrl 1%nat ltac:(lia)) as H1;
  pose proof (Hrl 2%nat ltac:(lia)) as H2;
  pose proof (Hrl 3%nat ltac:(lia)) as H3;
  pose proof (Hrl 4%nat ltac:(lia)) as H4;
  simpl in H0, H1, H2, H3, H4;
  unfold Analyze.ask_about_article, Analyze.data_grounded_gemini,
    Analyze.ask_compeditors;
  repeat first
    [ progress (unfold Analyze.bind, Analyze.try, Analyze.sleep, Analyze.log; simpl)
    | rewrite H0 | rewrite H1 | rewrite H2 | rewrite H3 | rewrite H4 ];
  rewrite <- !app_assoc; reflexivity.

Lemma ask_about_article_rate_limited (w : Analyze.world) :
  rate_limited w ->
  Analyze.ask_about_article env (Some tt) w =
  (Ok [],
   Analyze.World (5 + Analyze.calls w)
     (Analyze.trace w ++ Analyze.rate_limited_attempts Analyze.ArticleScoring)).
Proof. intros Hrl. run_rate_limited Hrl. Qed.

Lemma data_grounded_gemini_rate_limited (company : string) (w : Analyze.world) :
  rate_limited w ->
  Analyze.data_grounded_gemini env company (Some tt) false w =
  (Ok (Some []),
   Analyze.World (5 + Analyze.calls w)
     (Analyze.trace w ++
      Analyze.Called Analyze.DataGroundedGemini company ::
      Analyze.rate_limited_attempts Analyze.GroundedModel)).
Proof. intros Hrl. run_rate_limited Hrl. Qed.

(** The competitor lookup makes the same attempts and then lets the
    error out. *)
Lemma ask_compeditors_rate_limited (company : string) (w : Analyze.world) :
  rate_limited w ->
  Analyze.ask_compeditors env company (Some tt) false w =
  (Raise (ClientError 429),
   Analyze.World (5 + Analyze.calls w)
     (Analyze.trace w ++
      Analyze.Called Analyze.AskCompeditors company ::
      Analyze.rate_limited_attempts Analyze.CompetitorLookup)).
Proof. intros Hrl. run_rate_limited Hrl. Qed.


(** [data_fmp] never raises. *)
Lemma data_fmp_returns (symbol : string) (w : Analyze.world) :
  Analyze.data_fmp env symbol false w =
  (Ok match Analyze.esg env symbol with
      | Some (environmentalScore, socialScore) =>
          [ ("ENV", PyList [PyInt 100; environmentalScore]);
            ("PAY", PyList [PyInt 50; socialScore]) ]
      | None => []
      end,
   Analyze.World (Analyze.calls w)
     (Analyze.trace w ++ [Analyze.Called Analyze.DataFmp symbol])).
Proof.
  unfold Analyze.data_fmp, Analyze.bind, Analyze.log. simpl.
  destruct (Analyze.esg env symbol) as [[e s]|]; reflexivity.
Qed.

End RetryFacts.

Section RetrySteps.
Context {F : Type} `{FloatOps F}.
Variable env : Analyze.outside (F := F).

(** One attempt of [ask_about_article] that is not the last: whatever the
    call comes to, short of a fatal error, the loop goes on. *)
Lemma ask_about_article_step (attempt : Z) (rest : list Z)
    (response : option Analyze.gc_response) (w : Analyze.world) :
  (attempt =? 4) = false ->
  Analyze.is_fatal (Analyze.generate env (Analyze.calls w)) = false ->
  exists w',
    Analyze.ask_about_article_attempts env (Some tt) (attempt :: rest) response w =
    Analyze.ask_about_article_attempts env (Some tt) rest
      match Analyze.generate env (Analyze.calls w) with
      | Analyze.Responds r => Some r
      | Analyze.Fails _ => response
      end w'
    /\ Analyze.calls w' = S (Analyze.calls w).
Proof.
  intros Ha Hf. simpl.
  unfold Analyze.bind, Analyze.try, Analyze.generate_content. simpl.
  destruct (Analyze.generate env (Analyze.calls w)) as [r|e].
  - eexists. split; reflexivity.
  - destruct e; simpl in Hf; rewrite ?Ha;
      try (eexists; split; reflexivity).
    rewrite Hf. unfold Analyze.sleep, Analyze.log. simpl.
    eexists. split; reflexivity.
Qed.

(** The last attempt. *)
Lemma ask_about_article_last (response : option Analyze.gc_response) (w : Analyze.world) :
  Analyze.is_fatal (Analyze.generate env (Analyze.calls w)) = false ->
  exists w',
    Analyze.ask_about_article_attempts env (Some tt) [4] response w =
    (Ok match Analyze.generate env (Analyze.calls w) with
        | Analyze.Responds r => inr (Some r)
        | Analyze.Fails _ => inl []
        end, w')
    /\ Analyze.calls w' = S (Analyze.calls w).
Proof.
  intros Hf. simpl.
  unfold Analyze.bind, Analyze.try, Analyze.generate_content. simpl.
  destruct (Analyze.generate env (Analyze.calls w)) as [r|e].
  - eexists. split; reflexivity.
  - destruct e; simpl in Hf; try (eexists; split; reflexivity).
    rewrite Hf. eexists. split; reflexivity.
Qed.

Lemma ask_about_article_attempts_run (w : Analyze.world) :
  (forall j : nat, (j < 5)%nat ->
     Analyze.is_fatal (Analyze.generate env (j + Analyze.calls w)) = false) ->
  exists w',
    Analyze.ask_about_article_attempts env (Some tt) Analyze.range5 None w =
    (Ok match Analyze.generate env (4 + Analyze.calls w) with
        | Analyze.Responds r => inr (Some r)
        | Analyze.Fails _ => inl []
        end, w')
    /\ Analyze.calls w' = (5 + Analyze.calls w)%nat.
Proof.
  intros Hf. unfold Analyze.range5.
  destruct (ask_about_article_step 0 [1; 2; 3; 4] None w eq_refl (Hf 0%nat ltac:(lia)))
    as [w1 [E1 C1]].
  rewrite E1. clear E1.
  match goal with
  | |- context [Analyze.ask_about_article_attempts env (Some tt) [1; 2; 3; 4] ?resp w1] =>
      destruct (ask_about_article_step 1 [2; 3; 4] resp w1 eq_refl) as [w2 [E2 C2]];
        [rewrite C1; exact (Hf 1%nat ltac:(lia))|];
        rewrite E2; clear E2
  end.
  match goal with
  | |- context [Analyze.ask_about_article_attempts env (Some tt) [2; 3; 4] ?resp w2] =>
      destruct (ask_about_article_step 2 [3; 4] resp w2 eq_refl) as [w3 [E3 C3]];
        [rewrite C2, C1; exact (Hf 2%nat ltac:(lia))|];
        rewrite E3; clear E3
  end.
  match goal with
  | |- context [Analyze.ask_about_article_attempts env (Some tt) [3; 4] ?resp w3] =>
      destruct (ask_about_article_step 3 [4] resp w3 eq_refl) as [w4 [E4 C4]];
        [rewrite C3, C2, C1; exact (Hf 3%nat ltac:(lia))|];
        rewrite E4; clear E4
  end.
  match goal with
  | |- context [Analyze.ask_about_article_attempts env (Some tt) [4] ?resp w4] =>
      destruct (ask_about_article_last resp w4) as [w5 [E5 C5]];
        [rewrite C4, C3, C2, C1; exact (Hf 4%nat ltac:(lia))|];
        rewrite E5; clear E5
  end.
  rewrite C4, C3, C2, C1 in *.
  exists w5. split; [reflexivity | exact C5].
Qed.

Lemma ask_about_article_five_calls (w : Analyze.world) :
  (forall j : nat, (j < 5)%nat ->
     Analyze.is_fatal (Analyze.generate env (j + Analyze.calls w)) = false) ->
  Analyze.calls (snd (Analyze.ask_about_article env (Some tt) w)) = (5 + Analyze.calls w)%nat
  /\ fst (Analyze.ask_about_article env (Some tt) w) =
     match Analyze.generate env (4 + Analyze.calls w) with
     | Analyze.Responds response =>
         (output <- Analyze.article_scores response ;;
          Ok (map (fun kv => (fst kv, PyList [fst (snd kv); snd (snd kv)])) output))%result
     | Analyze.Fails _ => Ok []
     end.
Proof.
  intros Hf. destruct (ask_about_article_attempts_run w Hf) as [w5 [E5 C5]].
  unfold Analyze.ask_about_article, Analyze.bind. rewrite E5.
  destruct (Analyze.generate env (4 + Analyze.calls w)) as [r|e]; simpl.
  - unfold Analyze.lift.
    destruct (Analyze.article_scores r); simpl; split; first [exact C5 | reflexivity].
  - split; [exact C5 | reflexivity].
Qed.

(** A passing failure at an attempt: no sleep, and the loop goes on, or
    gives its fallback at the last attempt. *)
Lemma ask_about_article_transient (attempt : Z) (rest : list Z)
    (response : option Analyze.gc_response) (w : Analyze.world) :
  Analyze.is_transient (Analyze.generate env (Analyze.calls w)) = true ->
  Analyze.ask_about_article_attempts env (Some tt) (attempt :: rest) response w =
  let w' := Analyze.World (S (Analyze.calls w))
              (Analyze.trace w ++ [Analyze.Generate Analyze.ArticleScoring]) in
  if attempt =? 4 then (Ok (inl []), w')
  else Analyze.ask_about_article_attempts env (Some tt) rest response w'.
Proof.
  intros Ht. simpl.
  unfold Analyze.bind, Analyze.try, Analyze.generate_content. simpl.
  destruct (Analyze.generate env (Analyze.calls w)) as [r|e]; [discriminate Ht|].
  destruct e; first [discriminate Ht | destruct (attempt =? 4); reflexivity].
Qed.

Lemma data_grounded_gemini_transient (attempt : Z) (rest : list Z) (w : Analyze.world) :
  Analyze.is_transient (Analyze.generate env (Analyze.calls w)) = true ->
  Analyze.data_grounded_gemini_attempts env (Some tt) (attempt :: rest) w =
  let w' := Analyze.World (S (Analyze.calls w))
              (Analyze.trace w ++ [Analyze.Generate Analyze.GroundedModel]) in
  if attempt =? 4 then (Ok (Some []), w')
  else Analyze.data_grounded_gemini_attempts env (Some tt) rest w'.
Proof.
  intros Ht. simpl.
  unfold Analyze.bind, Analyze.try, Analyze.generate_content. simpl.
  destruct (Analyze.generate env (Analyze.calls w)) as [r|e]; [discriminate Ht|].
  destruct e; first [discriminate Ht | destruct (attempt =? 4); reflexivity].
Qed.

Lemma ask_compeditors_transient (attempt : Z) (rest : list Z) (w : Analyze.world) :
  Analyze.is_transient (Analyze.generate env (Analyze.calls w)) = true ->
  Analyze.ask_compeditors_attempts env (Some tt) (attempt :: rest) w =
  Analyze.ask_compeditors_attempts env (Some tt) rest
    (Analyze.World (S (Analyze.calls w))
       (Analyze.trace w ++ [Analyze.Generate Analyze.CompetitorLookup])).
Proof.
  intros Ht. simpl.
  unfold Analyze.bind, Analyze.try, Analyze.generate_content. simpl.
  destruct (Analyze.generate env (Analyze.calls w)) as [r|e]; [discriminate Ht|].
  destruct e; first [discriminate Ht | reflexivity].
Qed.

(** Passing failures through five calls from [w]. *)
Let failing (w : Analyze.world) : Prop :=
  forall j : nat, (j < 5)%nat ->
    Analyze.is_transient (Analyze.generate env (j + Analyze.calls w)) = true.

Ltac run_failing Hf step :=
  pose proof (Hf 0%nat ltac:(lia)) as H0;
  pose proof (Hf 1%nat ltac:(lia)) as H1;
  pose proof (Hf 2%nat ltac:(lia)) as H2;
  pose proof (Hf 3%nat ltac:(lia)) as H3;
  pose proof (Hf 4%nat ltac:(lia)) as H4;
  simpl in H0, H1, H2, H3, H4;
  unfold Analyze.range5;
  rewrite step by exact H0; cbv zeta; simpl Z.eqb; cbv iota;
  rewrite step by exact H1; cbv zeta; simpl Z.eqb; cbv iota;
  rewrite step by exact H2; cbv zeta; simpl Z.eqb; cbv iota;
  rewrite step by exact H3; cbv zeta; simpl Z.eqb; cbv iota;
  rewrite step by exact H4; cbv zeta; simpl Z.eqb; cbv iota.

Lemma ask_about_article_failing (w : Analyze.world) :
  failing w ->
  Analyze.ask_about_article env (Some tt) w =
  (Ok [],
   Analyze.World (5 + Analyze.calls w)
     (Analyze.trace w ++ repeat (Analyze.Generate Analyze.ArticleScoring) 5)).
Proof.
  intros Hf. unfold Analyze.ask_about_article, Analyze.bind.
  run_failing Hf ask_about_article_transient.
  simpl. rewrite <- !app_assoc. reflexivity.
Qed.

Lemma data_grounded_gemini_failing (company : string) (w : Analyze.world) :
  failing w ->
  Analyze.data_grounded_gemini env company (Some tt) false w =
  (Ok (Some []),
   Analyze.World (5 + Analyze.calls w)
     (Analyze.trace w ++
      Analyze.Called Analyze.DataGroundedGemini company ::
      repeat (Analyze.Generate Analyze.GroundedModel) 5)).
Proof.
  intros Hf. unfold Analyze.data_grounded_gemini, Analyze.bind, Analyze.log.
  cbv iota beta.
  set (w0 := Analyze.World (Analyze.calls w)
               (Analyze.trace w ++ [Analyze.Called Analyze.DataGroundedGemini company])).
  assert (Hf0 : failing w0) by exact Hf.
  run_failing Hf0 data_grounded_gemini_transient.
  subst w0. simpl. rewrite <- !app_assoc. reflexivity.
Qed.

Lemma ask_compeditors_failing (company : string) (w : Analyze.world) :
  failing w ->
  Analyze.ask_compeditors env company (Some tt) false w =
  (Ok (Analyze.Names []),
   Analyze.World (5 + Analyze.calls w)
     (Analyze.trace w ++
      Analyze.Called Analyze.AskCompeditors company ::
      repeat (Analyze.Generate Analyze.CompetitorLookup) 5)).
Proof.
  intros Hf. unfold Analyze.ask_compeditors, Analyze.bind, Analyze.log.
  cbv iota beta.
  set (w0 := Analyze.World (Analyze.calls w)
               (Analyze.trace w ++ [Analyze.Called Analyze.AskCompeditors company])).
  assert (Hf0 : failing w0) by exact Hf.
  pose proof (Hf0 0%nat ltac:(lia)) as H0.
  pose proof (Hf0 1%nat ltac:(lia)) as H1.
  pose proof (Hf0 2%nat ltac:(lia)) as H2.
  pose proof (Hf0 3%nat ltac:(lia)) as H3.
  pose proof (Hf0 4%nat ltac:(lia)) as H4.
  simpl in H0, H1, H2, H3, H4. unfold Analyze.range5.
  rewrite ask_compeditors_transient by exact H0.
  rewrite ask_compeditors_transient by exact H1.
  rewrite ask_compeditors_transient by exact H2.
  rewrite ask_compeditors_transient by exact H3.
  rewrite ask_compeditors_transient by exact H4.
  subst w0. simpl. rewrite <- !app_assoc. reflexivity.
Qed.

(** One rate-limited attempt that is not the last: the call, the sleep,
    and the loop goes on. *)
Lemma data_grounded_gemini_rate_limited_step (attempt : Z) (rest : list Z)
    (w : Analyze.world) :
  (attempt =? 4) = false ->
  Analyze.generate env (Analyze.calls w) = Analyze.Fails (ClientError 429) ->
  Analyze.data_grounded_gemini_attempts env (Some tt) (attempt :: rest) w =
  Analyze.data_grounded_gemini_attempts env (Some tt) rest
    (Analyze.World (S (Analyze.calls w))
       (Analyze.trace w ++
        [Analyze.Generate Analyze.GroundedModel; Analyze.Sleep (attempt * 300 + 60)])).
Proof.
  intros Ha Hg. cbn [Analyze.data_grounded_gemini_attempts].
  unfold Analyze.bind, Analyze.try, Analyze.generate_content, Analyze.sleep, Analyze.log.
  cbv iota beta. rewrite Hg. cbv iota beta. rewrite Ha.
  cbn [Z.eqb Pos.eqb negb Analyze.calls Analyze.trace]. rewrite <- app_assoc. reflexivity.
Qed.

Lemma ask_compeditors_rate_limited_step (attempt : Z) (rest : list Z)
    (w : Analyze.world) :
  (attempt <? 5 - 1) = true ->
  Analyze.generate env (Analyze.calls w) = Analyze.Fails (ClientError 429) ->
  Analyze.ask_compeditors_attempts env (Some tt) (attempt :: rest) w =
  Analyze.ask_compeditors_attempts env (Some tt) rest
    (Analyze.World (S (Analyze.calls w))
       (Analyze.trace w ++
        [Analyze.Generate Analyze.CompetitorLookup; Analyze.Sleep (300 * attempt + 60)])).
Proof.
  intros Ha Hg. cbn [Analyze.ask_compeditors_attempts].
  unfold Analyze.bind, Analyze.try, Analyze.generate_content, Analyze.sleep, Analyze.log.
  cbv iota beta. rewrite Hg. cbv iota beta. rewrite Ha.
  cbn [Z.eqb Pos.eqb andb Analyze.calls Analyze.trace]. rewrite <- app_assoc. reflexivity.
Qed.

(** An attempt that is answered ends the loop. *)
Lemma data_grounded_gemini_answered_step (attempt : Z) (rest : list Z)
    (w : Analyze.world) (r : Analyze.gc_response) (final_output : dict (F * F)) :
  Analyze.generate env (Analyze.calls w) = Analyze.Responds r ->
  Analyze.research_scores r = Ok final_output ->
  Analyze.data_grounded_gemini_attempts env (Some tt) (attempt :: rest) w =
  (Ok (Some (map (fun kv => (fst kv, PyList [PyFloat (fst (snd kv)); PyFloat (snd (snd kv))]))
               final_output)),
   Analyze.World (S (Analyze.calls w))
     (Analyze.trace w ++ [Analyze.Generate Analyze.GroundedModel])).
Proof.
  intros Hg Hr. cbn [Analyze.data_grounded_gemini_attempts].
  unfold Analyze.bind, Analyze.try, Analyze.generate_content, Analyze.lift.
  cbv iota beta. rewrite Hg. cbv iota beta. rewrite Hr. reflexivity.
Qed.

Lemma ask_compeditors_answered_step (attempt : Z) (rest : list Z)
    (w : Analyze.world) (r : Analyze.gc_response) (compeditors : Analyze.competitors) :
  Analyze.generate env (Analyze.calls w) = Analyze.Responds r ->
  Analyze.competition r = Ok compeditors ->
  Analyze.ask_compeditors_attempts env (Some tt) (attempt :: rest) w =
  (Ok (Some compeditors),
   Analyze.World (S (Analyze.calls w))
     (Analyze.trace w ++ [Analyze.Generate Analyze.CompetitorLookup])).
Proof.
  intros Hg Hr. cbn [Analyze.ask_compeditors_attempts].
  unfold Analyze.bind, Analyze.try, Analyze.generate_content, Analyze.lift.
  cbv iota beta. rewrite Hg. cbv iota beta. rewrite Hr. reflexivity.
Qed.

(** The model answers the call after [k] rate-limited ones. *)
Let answered_after (k : nat) (r : Analyze.gc_response) (w : Analyze.world) : Prop :=
  (forall j : nat, (j < k)%nat ->
     Analyze.generate env (j + Analyze.calls w) = Analyze.Fails (ClientError 429))
  /\ Analyze.generate env (k + Analyze.calls w) = Analyze.Responds r.

Lemma answered_after_next (k : nat) (r : Analyze.gc_response) (w w' : Analyze.world) :
  Analyze.calls w' = S (Analyze.calls w) ->
  answered_after (S k) r w -> answered_after k r w'.
Proof.
  intros Hc [Hrl Hg]. split.
  - intros j Hj. rewrite Hc, Nat.add_succ_r. apply (Hrl (S j)). lia.
  - rewrite Hc, Nat.add_succ_r. exact Hg.
Qed.

Lemma data_grounded_gemini_attempts_answered_after (r : Analyze.gc_response)
    (final_output : dict (F * F)) (k : nat) :
  Analyze.research_scores r = Ok final_output ->
  forall (attempts : list Z) (w : Analyze.world),
    (k < List.length attempts)%nat ->
    forallb (fun attempt => negb (attempt =? 4)) (firstn k attempts) = true ->
    answered_after k r w ->
    Analyze.data_grounded_gemini_attempts env (Some tt) attempts w =
    (Ok (Some (map (fun kv => (fst kv, PyList [PyFloat (fst (snd kv)); PyFloat (snd (snd kv))]))
                 final_output)),
     Analyze.World (S k + Analyze.calls w)
       (Analyze.trace w ++
        flat_map (fun attempt =>
                    [Analyze.Generate Analyze.GroundedModel;
                     Analyze.Sleep (attempt * 300 + 60)]) (firstn k attempts) ++
        [Analyze.Generate Analyze.GroundedModel])).
Proof.
  intros Hr. induction k as [|k IH]; intros attempts w Hlen Hnot Ha.
  - destruct attempts as [|attempt rest]; [simpl in Hlen; lia|].
    destruct Ha as [_ Hg]. simpl in Hg.
    rewrite (data_grounded_gemini_answered_step attempt rest w Hg Hr). reflexivity.
  - destruct attempts as [|attempt rest]; [simpl in Hlen; lia|].
    simpl in Hlen, Hnot. apply andb_true_iff in Hnot. destruct Hnot as [Hattempt Hnot].
    apply negb_true_iff in Hattempt.
    rewrite (data_grounded_gemini_rate_limited_step attempt rest w Hattempt
               (proj1 Ha 0%nat ltac:(lia))).
    rewrite IH; [| lia | exact Hnot | eapply answered_after_next; [|exact Ha]; reflexivity ].
    cbn [Analyze.calls Analyze.trace firstn flat_map].
    rewrite <- !app_assoc, Nat.add_succ_r. reflexivity.
Qed.

Lemma ask_compeditors_attempts_answered_after (r : Analyze.gc_response)
    (compeditors : Analyze.competitors) (k : nat) :
  Analyze.competition r = Ok compeditors ->
  forall (attempts : list Z) (w : Analyze.world),
    (k < List.length attempts)%nat ->
    forallb (fun attempt => attempt <? 5 - 1) (firstn k attempts) = true ->
    answered_after k r w ->
    Analyze.ask_compeditors_attempts env (Some tt) attempts w =
    (Ok (Some compeditors),
     Analyze.World (S k + Analyze.calls w)
       (Analyze.trace w ++
        flat_map (fun attempt =>
                    [Analyze.Generate Analyze.CompetitorLookup;
                     Analyze.Sleep (300 * attempt + 60)]) (firstn k attempts) ++
        [Analyze.Generate Analyze.CompetitorLookup])).
Proof.
  intros Hr. induction k as [|k IH]; intros attempts w Hlen Hnot Ha.
  - destruct attempts as [|attempt rest]; [simpl in Hlen; lia|].
    destruct Ha as [_ Hg]. simpl in Hg.
    rewrite (ask_compeditors_answered_step attempt rest w Hg Hr). reflexivity.
  - destruct attempts as [|attempt rest]; [simpl in Hlen; lia|].
    simpl in Hlen, Hnot. apply andb_true_iff in Hnot. destruct Hnot as [Hattempt Hnot].
    rewrite (ask_compeditors_rate_limited_step attempt rest w Hattempt
               (proj1 Ha 0%nat ltac:(lia))).
    rewrite IH; [| lia | exact Hnot | eapply answered_after_next; [|exact Ha]; reflexivity ].
    cbn [Analyze.calls Analyze.trace firstn flat_map].
    rewrite <- !app_assoc, Nat.add_succ_r. reflexivity.
Qed.

Lemma data_grounded_gemini_answered_after (company : string) (w : Analyze.world)
    (k : nat) (r : Analyze.gc_response) (final_output : dict (F * F)) :
  (k <= 4)%nat ->
  answered_after k r w ->
  Analyze.research_scores r = Ok final_output ->
  Analyze.data_grounded_gemini env company (Some tt) false w =
  (Ok (Some (map (fun kv => (fst kv, PyList [PyFloat (fst (snd kv)); PyFloat (snd (snd kv))]))
               final_output)),
   Analyze.World (S k + Analyze.calls w)
     (Analyze.trace w ++
      Analyze.Called Analyze.DataGroundedGemini company ::
      Analyze.backoff Analyze.GroundedModel k ++
      [Analyze.Generate Analyze.GroundedModel])).
Proof.
  intros Hk Ha Hr.
  unfold Analyze.data_grounded_gemini, Analyze.bind, Analyze.log. cbv iota beta.
  rewrite (@data_grounded_gemini_attempts_answered_after r final_output k Hr).
  - cbn [Analyze.calls Analyze.trace]. rewrite <- app_assoc. reflexivity.
  - simpl. lia.
  - destruct k as [|[|[|[|[|k]]]]]; first [reflexivity | lia].
  - exact Ha.
Qed.

Lemma ask_compeditors_answered_after (company : string) (w : Analyze.world)
    (k : nat) (r : Analyze.gc_response) (compeditors : Analyze.competitors) :
  (k <= 4)%nat ->
  answered_after k r w ->
  Analyze.competition r = Ok compeditors ->
  Analyze.ask_compeditors env company (Some tt) false w =
  (Ok compeditors,
   Analyze.World (S k + Analyze.calls w)
     (Analyze.trace w ++
      Analyze.Called Analyze.AskCompeditors company ::
      Analyze.backoff Analyze.CompetitorLookup k ++
      [Analyze.Generate Analyze.CompetitorLookup])).
Proof.
  intros Hk Ha Hr.
  unfold Analyze.ask_compeditors, Analyze.bind, Analyze.log. cbv iota beta.
  rewrite (@ask_compeditors_attempts_answered_after r compeditors k Hr).
  - cbn [Analyze.calls Analyze.trace]. rewrite <- app_assoc.
    destruct k as [|[|[|[|[|k]]]]]; first [reflexivity | lia].
  - simpl. lia.
  - destruct k as [|[|[|[|[|k]]]]]; first [reflexivity | lia].
  - exact Ha.
Qed.

(** An attempt that meets a client error that is not a rate limit: the
    error leaves the loop, whatever the attempt. *)
Lemma ask_about_article_fatal_step (attempt : Z) (rest : list Z)
    (response : option Analyze.gc_response) (w : Analyze.world) (code : Z) :
  (code =? 429) = false ->
  Analyze.generate env (Analyze.calls w) = Analyze.Fails (ClientError code) ->
  Analyze.ask_about_article_attempts env (Some tt) (attempt :: rest) response w =
  (Raise (ClientError code),
   Analyze.World (S (Analyze.calls w))
     (Analyze.trace w ++ [Analyze.Generate Analyze.ArticleScoring])).
Proof.
  intros Hc Hg. cbn [Analyze.ask_about_article_attempts].
  unfold Analyze.bind, Analyze.try, Analyze.generate_content.
  cbv iota beta. rewrite Hg. cbv iota beta. rewrite Hc. reflexivity.
Qed.

Lemma data_grounded_gemini_fatal_step (attempt : Z) (rest : list Z)
    (w : Analyze.world) (code : Z) :
  (code =? 429) = false ->
  Analyze.generate env (Analyze.calls w) = Analyze.Fails (ClientError code) ->
  Analyze.data_grounded_gemini_attempts env (Some tt) (attempt :: rest) w =
  (Raise (ClientError code),
   Analyze.World (S (Analyze.calls w))
     (Analyze.trace w ++ [Analyze.Generate Analyze.GroundedModel])).
Proof.
  intros Hc Hg. cbn [Analyze.data_grounded_gemini_attempts].
  unfold Analyze.bind, Analyze.try, Analyze.generate_content.
  cbv iota beta. rewrite Hg. cbv iota beta. rewrite Hc. reflexivity.
Qed.

Lemma ask_compeditors_fatal_step (attempt : Z) (rest : list Z)
    (w : Analyze.world) (code : Z) :
  (code =? 429) = false ->
  Analyze.generate env (Analyze.calls w) = Analyze.Fails (ClientError code) ->
  Analyze.ask_compeditors_attempts env (Some tt) (attempt :: rest) w =
  (Raise (ClientError code),
   Analyze.World (S (Analyze.calls w))
     (Analyze.trace w ++ [Analyze.Generate Analyze.CompetitorLookup])).
Proof.
  intros Hc Hg. cbn [Analyze.ask_compeditors_attempts].
  unfold Analyze.bind, Analyze.try, Analyze.generate_content.
  cbv iota beta. rewrite Hg. cbv iota beta. rewrite Hc. reflexivity.
Qed.

(** An attempt that is not the last and that the loop retries: one more
    call, and the loop goes on. *)
Lemma ask_about_article_retried_step (attempt : Z) (rest : list Z)
    (response : option Analyze.gc_response) (w : Analyze.world) :
  (attempt =? 4) = false ->
  Analyze.is_fatal (Analyze.generate env (Analyze.calls w)) = false ->
  exists response' w' events,
    Analyze.ask_about_article_attempts env (Some tt) (attempt :: rest) response w =
    Analyze.ask_about_article_attempts env (Some tt) rest response' w'
    /\ Analyze.calls w' = S (Analyze.calls w)
    /\ Analyze.trace w' = Analyze.trace w ++ events.
Proof.
  intros Ha Hf. cbn [Analyze.ask_about_article_attempts].
  unfold Analyze.bind, Analyze.try, Analyze.generate_content, Analyze.sleep, Analyze.log.
  cbv iota beta.
  destruct (Analyze.generate env (Analyze.calls w)) as [r|e].
  - do 3 eexists. split; [reflexivity|]. split; reflexivity.
  - destruct e; cbn [Analyze.is_fatal] in Hf; rewrite ?Ha;
      try (do 3 eexists; split; [reflexivity|]; split; reflexivity).
    rewrite Hf. cbv iota beta.
    do 3 eexists. split; [reflexivity|]. split; [reflexivity|].
    cbn [Analyze.trace]. rewrite <- app_assoc. reflexivity.
Qed.

Lemma data_grounded_gemini_retried_step (attempt : Z) (rest : list Z)
    (w : Analyze.world) :
  (attempt =? 4) = false ->
  Analyze.is_retried (Analyze.generate env (Analyze.calls w)) = true ->
  exists w' events,
    Analyze.data_grounded_gemini_attempts env (Some tt) (attempt :: rest) w =
    Analyze.data_grounded_gemini_attempts env (Some tt) rest w'
    /\ Analyze.calls w' = S (Analyze.calls w)
    /\ Analyze.trace w' = Analyze.trace w ++ events.
Proof.
  intros Ha Hr. cbn [Analyze.data_grounded_gemini_attempts].
  unfold Analyze.bind, Analyze.try, Analyze.generate_content, Analyze.sleep, Analyze.log.
  cbv iota beta.
  destruct (Analyze.generate env (Analyze.calls w)) as [r|e]; [discriminate Hr|].
  destruct e; cbn [Analyze.is_retried] in Hr; rewrite ?Ha;
    try (do 2 eexists; split; [reflexivity|]; split; reflexivity).
  rewrite Hr. cbv iota beta. cbn [negb].
  do 2 eexists. split; [reflexivity|]. split; [reflexivity|].
  cbn [Analyze.trace]. rewrite <- app_assoc. reflexivity.
Qed.

Lemma ask_compeditors_retried_step (attempt : Z) (rest : list Z)
    (w : Analyze.world) :
  (attempt <? 5 - 1) = true ->
  Analyze.is_retried (Analyze.generate env (Analyze.calls w)) = true ->
  exists w' events,
    Analyze.ask_compeditors_attempts env (Some tt) (attempt :: rest) w =
    Analyze.ask_compeditors_attempts env (Some tt) rest w'
    /\ Analyze.calls w' = S (Analyze.calls w)
    /\ Analyze.trace w' = Analyze.trace w ++ events.
Proof.
  intros Ha Hr. cbn [Analyze.ask_compeditors_attempts].
  unfold Analyze.bind, Analyze.try, Analyze.generate_content, Analyze.sleep, Analyze.log.
  cbv iota beta.
  destruct (Analyze.generate env (Analyze.calls w)) as [r|e]; [discriminate Hr|].
  destruct e; cbn [Analyze.is_retried] in Hr; rewrite ?Ha;
    try (do 2 eexists; split; [reflexivity|]; split; reflexivity).
  rewrite Hr. cbv iota beta. cbn [andb].
  do 2 eexists. split; [reflexivity|]. split; [reflexivity|].
  cbn [Analyze.trace]. rewrite <- app_assoc. reflexivity.
Qed.

(** The call after [k] retried ones meets a client error that is not a
    rate limit: the error leaves the loop at that call. *)
Lemma ask_about_article_attempts_fatal_after (code : Z) (k : nat) :
  (code =? 429) = false ->
  forall (attempts : list Z) (response : option Analyze.gc_response) (w : Analyze.world),
    (k < List.length attempts)%nat ->
    forallb (fun attempt => negb (attempt =? 4)) (firstn k attempts) = true ->
    (forall j : nat, (j < k)%nat ->
       Analyze.is_fatal (Analyze.generate env (j + Analyze.calls w)) = false) ->
    Analyze.generate env (k + Analyze.calls w) = Analyze.Fails (ClientError code) ->
    exists events,
      Analyze.ask_about_article_attempts env (Some tt) attempts response w =
      (Raise (ClientError code),
       Analyze.World (S k + Analyze.calls w)
         (Analyze.trace w ++ events ++ [Analyze.Generate Analyze.ArticleScoring])).
Proof.
  intros Hc. induction k as [|k IH]; intros attempts response w Hlen Hnot Hok Hg.
  - destruct attempts as [|attempt rest]; [simpl in Hlen; lia|].
    exists []. simpl in Hg.
    rewrite (ask_about_article_fatal_step attempt rest response w Hc Hg). reflexivity.
  - destruct attempts as [|attempt rest]; [simpl in Hlen; lia|].
    simpl in Hlen, Hnot. apply andb_true_iff in Hnot. destruct Hnot as [Hattempt Hnot].
    apply negb_true_iff in Hattempt.
    destruct (ask_about_article_retried_step attempt rest response w Hattempt
                (Hok 0%nat ltac:(lia)))
      as [response' [w' [events1 [E [Hcalls Htrace]]]]].
    destruct (IH rest response' w') as [events Hrun].
    + lia.
    + exact Hnot.
    + intros j Hj. rewrite Hcalls, Nat.add_succ_r. apply (Hok (S j)). lia.
    + rewrite Hcalls, Nat.add_succ_r. exact Hg.
    + exists (events1 ++ events). rewrite E, Hrun, Hcalls, Htrace.
      rewrite Nat.add_succ_r, <- !app_assoc. reflexivity.
Qed.

Lemma data_grounded_gemini_attempts_fatal_after (code : Z) (k : nat) :
  (code =? 429) = false ->
  forall (attempts : list Z) (w : Analyze.world),
    (k < List.length attempts)%nat ->
    forallb (fun attempt => negb (attempt =? 4)) (firstn k attempts) = true ->
    (forall j : nat, (j < k)%nat ->
       Analyze.is_retried (Analyze.generate env (j + Analyze.calls w)) = true) ->
    Analyze.generate env (k + Analyze.calls w) = Analyze.Fails (ClientError code) ->
    exists events,
      Analyze.data_grounded_gemini_attempts env (Some tt) attempts w =
      (Raise (ClientError code),
       Analyze.World (S k + Analyze.calls w)
         (Analyze.trace w ++ events ++ [Analyze.Generate Analyze.GroundedModel])).
Proof.
  intros Hc. induction k as [|k IH]; intros attempts w Hlen Hnot Hok Hg.
  - destruct attempts as [|attempt rest]; [simpl in Hlen; lia|].
    exists []. simpl in Hg.
    rewrite (data_grounded_gemini_fatal_step attempt rest w Hc Hg). reflexivity.
  - destruct attempts as [|attempt rest]; [simpl in Hlen; lia|].
    simpl in Hlen, Hnot. apply andb_true_iff in Hnot. destruct Hnot as [Hattempt Hnot].
    apply negb_true_iff in Hattempt.
    destruct (data_grounded_gemini_retried_step attempt rest w Hattempt
                (Hok 0%nat ltac:(lia)))
      as [w' [events1 [E [Hcalls Htrace]]]].
    destruct (IH rest w') as [events Hrun].
    + lia.
    + exact Hnot.
    + intros j Hj. rewrite Hcalls, Nat.add_succ_r. apply (Hok (S j)). lia.
    + rewrite Hcalls, Nat.add_succ_r. exact Hg.
    + exists (events1 ++ events). rewrite E, Hrun, Hcalls, Htrace.
      rewrite Nat.add_succ_r, <- !app_assoc. reflexivity.
Qed.

Lemma ask_compeditors_attempts_fatal_after (code : Z) (k : nat) :
  (code =? 429) = false ->
  forall (attempts : list Z) (w : Analyze.world),
    (k < List.length attempts)%nat ->
    forallb (fun attempt => attempt <? 5 - 1) (firstn k attempts) = true ->
    (forall j : nat, (j < k)%nat ->
       Analyze.is_retried (Analyze.generate env (j + Analyze.calls w)) = true) ->
    Analyze.generate env (k + Analyze.calls w) = Analyze.Fails (ClientError code) ->
    exists events,
      Analyze.ask_compeditors_attempts env (Some tt) attempts w =
      (Raise (ClientError code),
       Analyze.World (S k + Analyze.calls w)
         (Analyze.trace w ++ events ++ [Analyze.Generate Analyze.CompetitorLookup])).
Proof.
  intros Hc. induction k as [|k IH]; intros attempts w Hlen Hnot Hok Hg.
  - destruct attempts as [|attempt rest]; [simpl in Hlen; lia|].
    exists []. simpl in Hg.
    rewrite (ask_compeditors_fatal_step attempt rest w Hc Hg). reflexivity.
  - destruct attempts as [|attempt rest]; [simpl in Hlen; lia|].
    simpl in Hlen, Hnot. apply andb_true_iff in Hnot. destruct Hnot as [Hattempt Hnot].
    destruct (ask_compeditors_retried_step attempt rest w Hattempt
                (Hok 0%nat ltac:(lia)))
      as [w' [events1 [E [Hcalls Htrace]]]].
    destruct (IH rest w') as [events Hrun].
    + lia.
    + exact Hnot.
    + intros j Hj. rewrite Hcalls, Nat.add_succ_r. apply (Hok (S j)). lia.
    + rewrite Hcalls, Nat.add_succ_r. exact Hg.
    + exists (events1 ++ events). rewrite E, Hrun, Hcalls, Htrace.
      rewrite Nat.add_succ_r, <- !app_assoc. reflexivity.
Qed.

(** The same, for the three functions. *)
Lemma ask_about_article_fatal_after (code : Z) (k : nat) (w : Analyze.world) :
  (k < 5)%nat ->
  code <> 429 ->
  (forall j : nat, (j < k)%nat ->
     Analyze.is_fatal (Analyze.generate env (j + Analyze.calls w)) = false) ->
  Analyze.generate env (k + Analyze.calls w) = Analyze.Fails (ClientError code) ->
  exists events,
    Analyze.ask_about_article env (Some tt) w =
    (Raise (ClientError code),
     Analyze.World (S k + Analyze.calls w)
       (Analyze.trace w ++ events ++ [Analyze.Generate Analyze.ArticleScoring])).
Proof.
  intros Hk Hc Hok Hg. apply Z.eqb_neq in Hc.
  destruct (@ask_about_article_attempts_fatal_after code k Hc Analyze.range5 None w)
    as [events Hrun].
  - simpl. exact Hk.
  - destruct k as [|[|[|[|[|k]]]]]; first [reflexivity | lia].
  - exact Hok.
  - exact Hg.
  - exists events. unfold Analyze.ask_about_article, Analyze.bind.
    rewrite Hrun. reflexivity.
Qed.

Lemma data_grounded_gemini_fatal_after (company : string) (code : Z) (k : nat)
    (w : Analyze.world) :
  (k < 5)%nat ->
  code <> 429 ->
  (forall j : nat, (j < k)%nat ->
     Analyze.is_retried (Analyze.generate env (j + Analyze.calls w)) = true) ->
  Analyze.generate env (k + Analyze.calls w) = Analyze.Fails (ClientError code) ->
  exists events,
    Analyze.data_grounded_gemini env company (Some tt) false w =
    (Raise (ClientError code),
     Analyze.World (S k + Analyze.calls w)
       (Analyze.trace w ++ events ++ [Analyze.Generate Analyze.GroundedModel])).
Proof.
  intros Hk Hc Hok Hg. apply Z.eqb_neq in Hc.
  unfold Analyze.data_grounded_gemini, Analyze.bind, Analyze.log. cbv iota beta.
  match goal with
  | |- context [Analyze.data_grounded_gemini_attempts env (Some tt) Analyze.range5 ?w0] =>
      destruct (@data_grounded_gemini_attempts_fatal_after code k Hc Analyze.range5 w0)
        as [events Hrun]
  end.
  - simpl. exact Hk.
  - destruct k as [|[|[|[|[|k]]]]]; first [reflexivity | lia].
  - exact Hok.
  - exact Hg.
  - exists (Analyze.Called Analyze.DataGroundedGemini company :: events).
    rewrite Hrun. cbn [Analyze.calls Analyze.trace]. rewrite <- !app_assoc. reflexivity.
Qed.

Lemma ask_compeditors_fatal_after (company : string) (code : Z) (k : nat)
    (w : Analyze.world) :
  (k < 5)%nat ->
  code <> 429 ->
  (forall j : nat, (j < k)%nat ->
     Analyze.is_retried (Analyze.generate env (j + Analyze.calls w)) = true) ->
  Analyze.generate env (k + Analyze.calls w) = Analyze.Fails (ClientError code) ->
  exists events,
    Analyze.ask_compeditors env company (Some tt) false w =
    (Raise (ClientError code),
     Analyze.World (S k + Analyze.calls w)
       (Analyze.trace w ++ events ++ [Analyze.Generate Analyze.CompetitorLookup])).
Proof.
  intros Hk Hc Hok Hg. apply Z.eqb_neq in Hc.
  unfold Analyze.ask_compeditors, Analyze.bind, Analyze.log. cbv iota beta.
  match goal with
  | |- context [Analyze.ask_compeditors_attempts env (Some tt) Analyze.range5 ?w0] =>
      destruct (@ask_compeditors_attempts_fatal_after code k Hc Analyze.range5 w0)
        as [events Hrun]
  end.
  - simpl. exact Hk.
  - destruct k as [|[|[|[|[|k]]]]]; first [reflexivity | lia].
  - exact Hok.
  - exact Hg.
  - exists (Analyze.Called Analyze.AskCompeditors company :: events).
    rewrite Hrun. cbn [Analyze.calls Analyze.trace]. rewrite <- !app_assoc. reflexivity.
Qed.

End RetrySteps.

(** C3, as the code has it.  Under a rate limit that holds through
    five calls, each of the three retry sites makes exactly 5 attempts and
    sleeps 60, 360,
    660 and 960 seconds between them, with no sleep after the last; then
    article scoring and the grounded model return the empty mapping,
    whereas the competitor lookup lets the rate-limit error out.  A client
    error that is not a rate limit leaves each of the three sites at the
    call that meets it, whichever of the five attempts that is: at the
    first call after one attempt and no sleep, and at call [k + 1] of the
    loop, after [k] calls that the loop went past (rate limits, other
    failures and, in article scoring, answers), with [k + 1] calls made in
    all, the failing call the last event and nothing after it. *)
Theorem retry_sites_under_rate_limit :
  forall (env : Analyze.outside (F := B64.float)) (company : string) (w : Analyze.world),
    ((forall k : nat, (k < 5)%nat ->
        Analyze.generate env (k + Analyze.calls w) = Analyze.Fails (ClientError 429)) ->
     Analyze.ask_about_article env (Some tt) w =
     (Ok [],
      Analyze.World (5 + Analyze.calls w)
        (Analyze.trace w ++ Analyze.rate_limited_attempts Analyze.ArticleScoring))
     /\
     Analyze.data_grounded_gemini env company (Some tt) false w =
     (Ok (Some []),
      Analyze.World (5 + Analyze.calls w)
        (Analyze.trace w ++
         Analyze.Called Analyze.DataGroundedGemini company ::
         Analyze.rate_limited_attempts Analyze.GroundedModel))
     /\
     Analyze.ask_compeditors env company (Some tt) false w =
     (Raise (ClientError 429),
      Analyze.World (5 + Analyze.calls w)
        (Analyze.trace w ++
         Analyze.Called Analyze.AskCompeditors company ::
         Analyze.rate_limited_attempts Analyze.CompetitorLookup)))
    /\
    (forall code : Z,
       code <> 429 ->
       Analyze.generate env (Analyze.calls w) = Analyze.Fails (ClientError code) ->
       Analyze.ask_about_article env (Some tt) w =
       (Raise (ClientError code),
        Analyze.World (S (Analyze.calls w))
          (Analyze.trace w ++ [Analyze.Generate Analyze.ArticleScoring]))
       /\
       Analyze.data_grounded_gemini env company (Some tt) false w =
       (Raise (ClientError code),
        Analyze.World (S (Analyze.calls w))
          (Analyze.trace w ++
           [Analyze.Called Analyze.DataGroundedGemini company;
            Analyze.Generate Analyze.GroundedModel]))
       /\
       Analyze.ask_compeditors env company (Some tt) false w =
       (Raise (ClientError code),
        Analyze.World (S (Analyze.calls w))
          (Analyze.trace w ++
           [Analyze.Called Analyze.AskCompeditors company;
            Analyze.Generate Analyze.CompetitorLookup])))
    /\
    (forall (code : Z) (k : nat),
       (k < 5)%nat ->
       code <> 429 ->
       Analyze.generate env (k + Analyze.calls w) = Analyze.Fails (ClientError code) ->
       ((forall j : nat, (j < k)%nat ->
           Analyze.is_fatal (Analyze.generate env (j + Analyze.calls w)) = false) ->
        exists events,
          Analyze.ask_about_article env (Some tt) w =
          (Raise (ClientError code),
           Analyze.World (S k + Analyze.calls w)
             (Analyze.trace w ++ events ++ [Analyze.Generate Analyze.ArticleScoring])))
       /\
       ((forall j : nat, (j < k)%nat ->
           Analyze.is_retried (Analyze.generate env (j + Analyze.calls w)) = true) ->
        (exists events,
           Analyze.data_grounded_gemini env company (Some tt) false w =
           (Raise (ClientError code),
            Analyze.World (S k + Analyze.calls w)
              (Analyze.trace w ++ events ++ [Analyze.Generate Analyze.GroundedModel])))
        /\
        (exists events,
           Analyze.ask_compeditors env company (Some tt) false w =
           (Raise (ClientError code),
            Analyze.World (S k + Analyze.calls w)
              (Analyze.trace w ++ events ++
               [Analyze.Generate Analyze.CompetitorLookup]))))).
Proof.
  intros env company w. split; [|split].
  - intros Hrl. split; [|split].
    + apply ask_about_article_rate_limited. exact Hrl.
    + apply data_grounded_gemini_rate_limited. exact Hrl.
    + apply ask_compeditors_rate_limited. exact Hrl.
  - intros code Hc Hg. split; [|split].
    + apply ask_about_article_fatal; assumption.
    + apply data_grounded_gemini_fatal; assumption.
    + apply ask_compeditors_fatal; assumption.
  - intros code k Hk Hc Hg. split.
    + intros Hok. apply ask_about_article_fatal_after; assumption.
    + intros Hok. split.
      * apply data_grounded_gemini_fatal_after; assumption.
      * apply ask_compeditors_fatal_after; assumption.
Qed.

(** C3, in a world where every call is rate limited: article scoring
    makes its five attempts and returns the empty mapping; and in one
    where the first call is rate limited and the second is refused with
    status 403: the grounded model sleeps 60 seconds after the first call
    and lets the 403 out at the second. *)
Lemma retry_sites_under_rate_limit_429_403 :
  (forall n : nat,
     Analyze.generate (Analyze.failing_model (F := B64.float) (ClientError 429) None) n =
     Analyze.Fails (ClientError 429))
  /\ Analyze.ask_about_article
       (Analyze.failing_model (F := B64.float) (ClientError 429) None) (Some tt)
       Analyze.start =
     (Ok [],
      Analyze.World 5 (Analyze.rate_limited_attempts Analyze.ArticleScoring))
  /\ 403 <> 429
  /\ Analyze.ask_about_article
       (Analyze.failing_model (F := B64.float) (ClientError 403) None) (Some tt)
       Analyze.start =
     (Raise (ClientError 403),
      Analyze.World 1 [Analyze.Generate Analyze.ArticleScoring])
  /\ (exists events,
        Analyze.data_grounded_gemini
          (Analyze.Outside (F := B64.float)
             (fun n => if (n <? 1)%nat then Analyze.Fails (ClientError 429)
                       else Analyze.Fails (ClientError 403))
             (fun _ => Ok ([], [])) (fun _ => None) (fun _ => 0) (fun _ => []))
          "Acme" (Some tt) false Analyze.start =
        (Raise (ClientError 403),
         Analyze.World 2 (events ++ [Analyze.Generate Analyze.GroundedModel])))
  /\ Analyze.data_grounded_gemini
       (Analyze.Outside (F := B64.float)
          (fun n => if (n <? 1)%nat then Analyze.Fails (ClientError 429)
                    else Analyze.Fails (ClientError 403))
          (fun _ => Ok ([], [])) (fun _ => None) (fun _ => 0) (fun _ => []))
       "Acme" (Some tt) false Analyze.start =
     (Raise (ClientError 403),
      Analyze.World 2
        [ Analyze.Called Analyze.DataGroundedGemini "Acme";
          Analyze.Generate Analyze.GroundedModel; Analyze.Sleep 60;
          Analyze.Generate Analyze.GroundedModel ]).
Proof.
  split; [intros n; reflexivity|].
  split.
  - exact (proj1 (proj1 (retry_sites_under_rate_limit
                           (Analyze.failing_model (ClientError 429) None) ""
                           Analyze.start)
                        (fun k _ => eq_refl))).
  - split; [discriminate|]. split; [|split].
    + exact (proj1 (proj1 (proj2 (retry_sites_under_rate_limit
                             (Analyze.failing_model (ClientError 403) None) ""
                             Analyze.start))
                          403 ltac:(discriminate) eq_refl)).
    + refine (proj1 (proj2 (proj2 (proj2 (retry_sites_under_rate_limit
                 (Analyze.Outside (F := B64.float)
                    (fun n => if (n <? 1)%nat then Analyze.Fails (ClientError 429)
                              else Analyze.Fails (ClientError 403))
                    (fun _ => Ok ([], [])) (fun _ => None) (fun _ => 0) (fun _ => []))
                 "Acme" Analyze.start))
               403 1%nat _ _ eq_refl) _)).
      * lia.
      * discriminate.
      * intros j Hj. destruct j as [|j]; [reflexivity | lia].
    + reflexivity.
Defined.

(** C3 as stated fails at the competitor lookup: under a rate limit
    that never lifts, [ask_compeditors] makes its 5 attempts with the four
    sleeps and then raises the rate-limit error; it does not return its
    fallback, the empty list. *)
Lemma competitor_lookup_lets_rate_limit_out :
  Analyze.ask_compeditors
    (Analyze.failing_model (F := B64.float) (ClientError 429) None)
    "Acme" (Some tt) false Analyze.start =
  (Raise (ClientError 429),
   Analyze.World 5
     [ Analyze.Called Analyze.AskCompeditors "Acme";
       Analyze.Generate Analyze.CompetitorLookup; Analyze.Sleep 60;
       Analyze.Generate Analyze.CompetitorLookup; Analyze.Sleep 360;
       Analyze.Generate Analyze.CompetitorLookup; Analyze.Sleep 660;
       Analyze.Generate Analyze.CompetitorLookup; Analyze.Sleep 960;
       Analyze.Generate Analyze.CompetitorLookup ]).
Proof. reflexivity. Qed.
(* ===================================================================== *)
(** * The pipeline of analyze.py *)
(* ===================================================================== *)

Section PipelineFacts.
Context {F : Type} `{FloatOps F}.
Variable env : Analyze.outside (F := F).

(** The company whose sources must stay untouched. *)
Variable skipped : string.

(** A computation is quiet when it calls no source for [skipped]. *)
Let quiet {A : Type} (m : Analyze.M A) : Prop :=
  forall w, Analyze.never_called skipped w = true ->
            Analyze.never_called skipped (snd (m w)) = true.

Lemma quiet_ret {A : Type} (a : A) : quiet (Analyze.ret a).
Proof. intros w Hw. exact Hw. Qed.

Lemma quiet_raise {A : Type} (e : exn) : quiet (Analyze.raise (A := A) e).
Proof. intros w Hw. exact Hw. Qed.

Lemma quiet_lift {A : Type} (r : result A) : quiet (Analyze.lift r).
Proof. intros w Hw. exact Hw. Qed.

Lemma quiet_bind {A B : Type} (m : Analyze.M A) (k : A -> Analyze.M B) :
  quiet m -> (forall a, quiet (k a)) -> quiet (Analyze.bind m k).
Proof.
  intros Hm Hk w Hw. unfold Analyze.bind.
  specialize (Hm w Hw). destruct (m w) as [[a|e] w']; simpl in *.
  - apply Hk. exact Hm.
  - exact Hm.
Qed.

Lemma quiet_try {A : Type} (m : Analyze.M A) : quiet m -> quiet (Analyze.try m).
Proof.
  intros Hm w Hw. unfold Analyze.try.
  specialize (Hm w Hw). destruct (m w) as [r w']. exact Hm.
Qed.

Lemma quiet_log (e : Analyze.event) :
  Analyze.calls_for skipped e = false -> quiet (Analyze.log e).
Proof.
  intros He w Hw. unfold Analyze.never_called in *. simpl.
  rewrite existsb_app. simpl. rewrite He, !orb_false_r. exact Hw.
Qed.

Lemma quiet_generate_content (client : option unit) (s : Analyze.site) :
  quiet (Analyze.generate_content env client s).
Proof.
  destruct client as [u|]; [|apply quiet_raise].
  intros w Hw. unfold Analyze.never_called in *. simpl.
  rewrite existsb_app. simpl. rewrite !orb_false_r. exact Hw.
Qed.

Lemma quiet_pauses (pauses : list Analyze.pause) :
  quiet (Analyze.log_all (map Analyze.pause_event pauses)).
Proof.
  intros w Hw. unfold Analyze.never_called in *. simpl.
  rewrite existsb_app.
  assert (E : existsb (Analyze.calls_for skipped)
                (map Analyze.pause_event pauses) = false).
  { induction pauses as [|p rest IH]; [reflexivity|].
    simpl. rewrite IH. destruct p; reflexivity. }
  rewrite E, orb_false_r. exact Hw.
Qed.

Lemma quiet_time_now : quiet (Analyze.time_now env).
Proof. intros w Hw. exact Hw. Qed.

Ltac quiet_step :=
  first
    [ apply quiet_ret
    | apply quiet_raise
    | apply quiet_lift
    | apply quiet_time_now
    | apply quiet_pauses
    | apply quiet_generate_content
    | apply quiet_try
    | apply quiet_log; first [reflexivity | assumption]
    | apply quiet_bind; [|intros ?]
    | assumption
    | match goal with
      | |- quiet (match ?x with _ => _ end) => destruct x
      | |- quiet (if ?b then _ else _) => destruct b
      end ].

Lemma quiet_ask_about_article_attempts (client : option unit) (attempts : list Z) :
  forall response, quiet (Analyze.ask_about_article_attempts env client attempts response).
Proof.
  induction attempts as [|attempt rest IH]; intros response; simpl.
  - apply quiet_ret.
  - apply quiet_bind; [apply quiet_try, quiet_generate_content|].
    intros [r|e]; [apply IH|].
    destruct e; repeat first [apply IH | unfold Analyze.sleep; quiet_step].
Qed.

Lemma quiet_ask_about_article (client : option unit) :
  quiet (Analyze.ask_about_article env client).
Proof.
  unfold Analyze.ask_about_article.
  apply quiet_bind; [apply quiet_ask_about_article_attempts|].
  intros a. repeat quiet_step.
Qed.

Lemma quiet_data_grounded_gemini_attempts (client : option unit) (attempts : list Z) :
  quiet (Analyze.data_grounded_gemini_attempts env client attempts).
Proof.
  induction attempts as [|attempt rest IH]; simpl.
  - apply quiet_ret.
  - apply quiet_bind; [repeat quiet_step|].
    intros [r|e]; [apply quiet_ret|].
    destruct e; repeat first [apply IH | unfold Analyze.sleep; quiet_step].
Qed.

Lemma quiet_ask_compeditors_attempts (client : option unit) (attempts : list Z) :
  quiet (Analyze.ask_compeditors_attempts env client attempts).
Proof.
  induction attempts as [|attempt rest IH]; simpl.
  - apply quiet_ret.
  - apply quiet_bind; [repeat quiet_step|].
    intros [r|e]; [apply quiet_ret|].
    destruct e; repeat first [apply IH | unfold Analyze.sleep; quiet_step].
Qed.

Lemma quiet_score_articles (client : option unit) (responses : list (string * list string)) :
  forall datasets, quiet (Analyze.score_articles env client responses datasets).
Proof.
  induction responses as [|[issue_id articles] rest IH]; intros datasets; simpl.
  - apply quiet_ret.
  - destruct articles; [apply IH|].
    apply quiet_bind; [apply quiet_ask_about_article|]. intros a. apply IH.
Qed.

(** Analysing another company calls no source for [skipped]. *)
Lemma quiet_analyze_company (company : string) (client : option unit) (test_mode : bool) :
  String.eqb company skipped = false ->
  quiet (Analyze.analyze_company env company client test_mode).
Proof.
  intros Hne.
  assert (Hcall : forall s, Analyze.calls_for skipped (Analyze.Called s company) = false)
    by (intros s; exact Hne).
  unfold Analyze.analyze_company, Analyze.data_google, Analyze.data_fmp,
    Analyze.data_grounded_gemini, Analyze.ask_compeditors.
  repeat first
    [ apply quiet_score_articles
    | apply quiet_data_grounded_gemini_attempts
    | apply quiet_ask_compeditors_attempts
    | apply quiet_log; apply Hcall
    | quiet_step ].
Qed.

Section Loop.
Variable skip_company : string -> bool.
Hypothesis skipped_is_skipped :
  skip_company (Analyze.string_standard_formatting skipped) = true.

Lemma not_skipped_differs (company : string) :
  skip_company (Analyze.string_standard_formatting company) = false ->
  String.eqb company skipped = false /\
  String.eqb (Analyze.string_standard_formatting company)
             (Analyze.string_standard_formatting skipped) = false.
Proof.
  intros Hs. split.
  - destruct (String.eqb company skipped) eqn:E; [|reflexivity].
    apply String.eqb_eq in E. subst. congruence.
  - destruct (String.eqb _ _) eqn:E; [|reflexivity].
    apply String.eqb_eq in E. rewrite E in Hs. congruence.
Qed.

Lemma quiet_analyze_loop (companies : list string) (client : option unit)
    (test_mode : bool) :
  forall all_company_data,
    quiet (Analyze.analyze_loop env companies client test_mode skip_company all_company_data).
Proof.
  induction companies as [|company rest IH]; intros all_company_data; simpl.
  - apply quiet_ret.
  - destruct (skip_company (Analyze.string_standard_formatting company)) eqn:Es.
    + apply quiet_bind; [apply quiet_log; reflexivity|]. intros _. apply IH.
    + apply quiet_bind.
      * apply quiet_analyze_company. apply not_skipped_differs. exact Es.
      * intros [output_data|]; [|apply IH].
        apply quiet_bind; [apply quiet_log; reflexivity|]. intros _. apply IH.
Qed.

(** The records are filed under the names of companies that were not
    skipped. *)
Lemma analyze_loop_get (companies : list string) (client : option unit)
    (test_mode : bool) :
  forall all_company_data w d,
    get (Analyze.string_standard_formatting skipped) all_company_data = None ->
    fst (Analyze.analyze_loop env companies client test_mode skip_company
           all_company_data w) = Ok d ->
    get (Analyze.string_standard_formatting skipped) d = None.
Proof.
  induction companies as [|company rest IH]; intros all_company_data w d Hall Hd;
    simpl in Hd.
  - inversion Hd; subst. exact Hall.
  - destruct (skip_company (Analyze.string_standard_formatting company)) eqn:Es.
    + unfold Analyze.bind, Analyze.log in Hd. simpl in Hd.
      eapply IH; eassumption.
    + unfold Analyze.bind in Hd.
      destruct (Analyze.analyze_company env company client test_mode w)
        as [[[output_data|]|e] w']; simpl in Hd.
      * eapply IH; [|exact Hd].
        rewrite get_set.
        destruct (not_skipped_differs _ Es) as [_ Hne]. rewrite Hne. exact Hall.
      * eapply IH; eassumption.
      * discriminate.
Qed.

End Loop.
End PipelineFacts.

(** C9.  A company for which the skip predicate answers true (it is
    asked about the name in standard formatting) has none of the three
    evidence sources and no competitor lookup called for it, and no record
    is filed under its name in what [analyze_companies] returns. *)
Theorem analyze_companies_skips :
  forall (env : Analyze.outside (F := B64.float)) (companies : list string)
         (keys : dict string) (test_mode : bool) (skip_company : string -> bool)
         (company : string),
    skip_company (Analyze.string_standard_formatting company) = true ->
    let out :=
      Analyze.analyze_companies env companies keys test_mode skip_company
        Analyze.start in
    Analyze.never_called company (snd out) = true
    /\ forall d, fst out = Ok d ->
                 get (Analyze.string_standard_formatting company) d = None.
Proof.
  intros env companies keys test_mode skip_company company Hskip out. split.
  - apply (quiet_analyze_loop env company skip_company Hskip). reflexivity.
  - intros d Hd.
    eapply (analyze_loop_get env company skip_company Hskip); [|exact Hd].
    reflexivity.
Qed.

(** C9, on the scenario of the specification: with a predicate that
    skips "apple", a test-mode run over Apple and Tesla calls no source
    for Apple and returns a record for Tesla alone. *)
Lemma analyze_companies_skips_apple :
  let skip_company := fun name => String.eqb name "apple" in
  let out :=
    Analyze.analyze_companies
      (Analyze.failing_model (F := B64.float) OtherException None)
      ["Apple"; "Tesla"] [] true skip_company Analyze.start in
  skip_company (Analyze.string_standard_formatting "Apple") = true
  /\ Analyze.never_called "Apple" (snd out) = true
  /\ exists d,
       fst out = Ok d
       /\ get (Analyze.string_standard_formatting "Apple") d = None
       /\ keys d = ["tesla"].
Proof.
  split; [reflexivity|].
  pose proof (analyze_companies_skips
                (Analyze.failing_model (F := B64.float) OtherException None)
                ["Apple"; "Tesla"] [] true
                (fun name => String.eqb name "apple") "Apple" eq_refl) as Hs.
  split; [exact (proj1 Hs)|].
  eexists. split; [vm_compute; reflexivity|].
  split; [|vm_compute; reflexivity].
  apply (proj2 Hs). vm_compute. reflexivity.
Defined.

(** C10.  The default skip predicate answers true for every name, so a
    call of [analyze_companies] that leaves it in place skips every
    company: it calls no source (the only events are the skips), and it
    returns the empty mapping, whatever the companies, the keys and the
    outside world. *)
Theorem analyze_companies_default_skips_everything :
  forall (env : Analyze.outside (F := B64.float)) (companies : list string)
         (keys : dict string) (test_mode : bool) (w : Analyze.world),
    Analyze.analyze_companies env companies keys test_mode
      Analyze.empty_function_skip_company w =
    (Ok [],
     Analyze.World (Analyze.calls w)
       (Analyze.trace w ++ map Analyze.Skipped companies)).
Proof.
  intros env companies keys test_mode w. unfold Analyze.analyze_companies.
  generalize (if mem "vertexai_project_name" keys then Some tt else None : option unit).
  intros client. revert w.
  induction companies as [|company rest IH]; intros w; simpl.
  - rewrite app_nil_r. destruct w. reflexivity.
  - unfold Analyze.bind, Analyze.log. simpl. rewrite IH. simpl.
    rewrite <- app_assoc. reflexivity.
Qed.

(** The loop of [analyze_companies] at a company that is not skipped and
    whose search returned, up to the call of the grounded model. *)
Lemma analyze_loop_after_search {F : Type} `{FloatOps F}
    (env : Analyze.outside (F := F)) (company : string)
    (rest : list string) (skip_company : string -> bool)
    (all_company_data : dict (Analyze.company_data (F := F)))
    (w w1 : Analyze.world) (google_data : bundle F) (sources : list string) :
  skip_company (Analyze.string_standard_formatting company) = false ->
  Analyze.data_google env company (Some tt) false w =
    (Ok (Some (google_data, sources)), w1) ->
  Analyze.analyze_loop env (company :: rest) (Some tt) false skip_company
    all_company_data w =
  match
    Analyze.data_grounded_gemini env company (Some tt) false
      (Analyze.World (Analyze.calls w1)
         (Analyze.trace w1 ++ [Analyze.Called Analyze.DataFmp company]))
  with
  | (Raise e, w3) => (Raise e, w3)
  | (Ok None, w3) => (Raise AttributeError, w3)
  | (Ok (Some gemini_data), w3) =>
      match
        Analyze.aggregate_metrics
          [ google_data;
            match Analyze.esg env company with
            | Some (environmentalScore, socialScore) =>
                [ ("ENV", PyList [PyInt 100; environmentalScore]);
                  ("PAY", PyList [PyInt 50; socialScore]) ]
            | None => []
            end;
            gemini_data ]
      with
      | Raise e => (Raise e, w3)
      | Ok metrics =>
          match Analyze.ask_compeditors env company (Some tt) false w3 with
          | (Raise e, w4) => (Raise e, w4)
          | (Ok compeditors, w4) =>
              if truthy metrics then
                Analyze.analyze_loop env rest (Some tt) false skip_company
                  (set (Analyze.string_standard_formatting company)
                     (Analyze.CompanyData metrics company compeditors sources
                        (Analyze.clock env (Analyze.trace w4)))
                     all_company_data)
                  (Analyze.World (Analyze.calls w4)
                     (Analyze.trace w4 ++
                      [Analyze.AddData (Analyze.string_standard_formatting company)]))
              else
                Analyze.analyze_loop env rest (Some tt) false skip_company
                  all_company_data w4
          end
      end
  end.
Proof.
  intros Hskip Hgoogle.
  cbn [Analyze.analyze_loop]. rewrite Hskip.
  unfold Analyze.bind at 1. unfold Analyze.analyze_company.
  unfold Analyze.bind at 1. rewrite Hgoogle.
  unfold Analyze.bind at 1. rewrite data_fmp_returns.
  unfold Analyze.bind at 1.
  destruct (Analyze.data_grounded_gemini env company (Some tt) false _)
    as [[[gemini_data|]|e] w3]; [|reflexivity|reflexivity].
  unfold Analyze.bind at 1. unfold Analyze.lift at 1.
  set (aggregated :=
         Analyze.aggregate_metrics
           [ google_data;
             match Analyze.esg env company with
             | Some (environmentalScore, socialScore) =>
                 [ ("ENV", PyList [PyInt 100; environmentalScore]);
                   ("PAY", PyList [PyInt 50; socialScore]) ]
             | None => []
             end;
             gemini_data ]).
  match goal with
  | |- context [Analyze.aggregate_metrics ?l] =>
      change (Analyze.aggregate_metrics l) with aggregated
  end.
  destruct aggregated as [metrics|e]; [|reflexivity].
  unfold Analyze.bind at 1.
  destruct (Analyze.ask_compeditors env company (Some tt) false w3)
    as [[compeditors|e] w4]; [|reflexivity].
  destruct (truthy metrics); reflexivity.
Qed.

(** When the aggregation of the three bundles raises, see
    [analyze_raises_on_null_score], the error ends the run before the
    competitor lookup. *)
Lemma analyze_loop_aggregation_raises
    (env : Analyze.outside (F := B64.float)) (company : string)
    (rest : list string) (skip_company : string -> bool)
    (all_company_data : dict (Analyze.company_data (F := B64.float)))
    (w w1 w3 : Analyze.world) (google_data gemini_data : bundle B64.float)
    (sources : list string) (e : exn) :
  skip_company (Analyze.string_standard_formatting company) = false ->
  Analyze.data_google env company (Some tt) false w =
    (Ok (Some (google_data, sources)), w1) ->
  Analyze.data_grounded_gemini env company (Some tt) false
    (Analyze.World (Analyze.calls w1)
       (Analyze.trace w1 ++ [Analyze.Called Analyze.DataFmp company])) =
    (Ok (Some gemini_data), w3) ->
  Analyze.aggregate_metrics
    [ google_data;
      match Analyze.esg env company with
      | Some (environmentalScore, socialScore) =>
          [ ("ENV", PyList [PyInt 100; environmentalScore]);
            ("PAY", PyList [PyInt 50; socialScore]) ]
      | None => []
      end;
      gemini_data ] = Raise e ->
  Analyze.analyze_loop env (company :: rest) (Some tt) false skip_company
    all_company_data w = (Raise e, w3).
Proof.
  intros Hskip Hgoogle Hgemini Hagg.
  rewrite (analyze_loop_after_search env company rest skip_company all_company_data
             w Hskip Hgoogle).
  rewrite Hgemini. cbv iota beta. rewrite Hagg. reflexivity.
Qed.





(* ===================================================================== *)
(** * More about aggregate_metrics *)
(* ===================================================================== *)

Lemma concat_map_filter {A : Type} (p : A -> bool) (l : list (list A)) :
  List.concat (map (filter p) l) = filter p (List.concat l).
Proof.
  induction l as [|x l IH]; simpl.
  - reflexivity.
  - rewrite filter_app, IH. reflexivity.
Qed.

Lemma flat_map_filter {A B : Type} (f : A -> list B) (p : A -> bool) (l : list A) :
  (forall a, p a = false -> f a = []) ->
  flat_map f (filter p l) = flat_map f l.
Proof.
  intros Hf. induction l as [|a l IH]; simpl.
  - reflexivity.
  - destruct (p a) eqn:Ep; simpl.
    + rewrite IH. reflexivity.
    + rewrite (Hf a Ep). exact IH.
Qed.

Section Shape.
Context {F : Type} `{FloatOps F}.

(** What each reading does with an entry that is well formed, and with
    one that is not. *)
Lemma analyze_data_read_well_formed (data : pyval F) :
  well_formed data = true <->
  exists point, AnalyzeData.read_observation data = Ok (Some point).
Proof.
  unfold well_formed, AnalyzeData.read_observation.
  destruct data as [| | | | |[|w [|s [|third more]]]| |];
    try (split; [discriminate | intros [p Hp]; discriminate Hp]).
  destruct (py_float w) as [x|e1] eqn:Ew; simpl.
  - destruct (py_float s) as [y|e2] eqn:Es; simpl.
    + split; [intros _; eexists; reflexivity | reflexivity].
    + split; [discriminate|]. intros [p Hp]. destruct e2; discriminate Hp.
  - split; [discriminate|]. intros [p Hp]. destruct e1; discriminate Hp.
Qed.

Lemma analyze_read_well_formed (data : pyval F) :
  well_formed data = true <->
  exists point, Analyze.read_observation data = Ok (Some point).
Proof.
  unfold well_formed, Analyze.read_observation.
  destruct data as [| | | | |[|w [|s [|third more]]]| |];
    try (split; [discriminate | intros [p Hp]; discriminate Hp]).
  destruct (py_float w) as [x|e1] eqn:Ew; simpl.
  - destruct (py_float s) as [y|e2] eqn:Es; simpl.
    + split; [intros _; eexists; reflexivity | reflexivity].
    + split; [discriminate|]. intros [p Hp]. discriminate Hp.
  - split; [discriminate|]. intros [p Hp]. discriminate Hp.
Qed.

End Shape.

Section Discarding.
Context {F : Type} `{FloatOps F} {V : Type}.
Variable read_observation : pyval F -> result (option (F * F)).
Variable issue_value : F -> F -> V.
Hypothesis feq0_le0 : forall x : F, feq0 x = true -> fle0 x = true.
Hypothesis read_well_formed :
  forall data : pyval F,
    well_formed data = true <-> exists point, read_observation data = Ok (Some point).

Lemma observations_well_formed_only (metrics_list : list (bundle F)) (i : string) :
  observations read_observation i (well_formed_only metrics_list) =
  observations read_observation i metrics_list.
Proof.
  unfold observations, well_formed_only. rewrite concat_map_filter.
  apply flat_map_filter. intros [k data] Hwf. simpl in *.
  destruct (String.eqb k i); [|reflexivity].
  destruct (read_observation data) as [[p|]|e] eqn:Er; try reflexivity.
  assert (Hex : exists point, read_observation data = Ok (Some point))
    by (exists p; exact Er).
  apply read_well_formed in Hex. congruence.
Qed.

Lemma all_read_well_formed_only (metrics_list : list (bundle F)) :
  all_read read_observation (well_formed_only metrics_list) = true.
Proof.
  unfold all_read, well_formed_only. rewrite concat_map_filter.
  apply forallb_forall. intros [k data] Hin. apply filter_In in Hin.
  destruct Hin as [_ Hwf]. simpl in *.
  apply read_well_formed in Hwf. destruct Hwf as [p Hp]. rewrite Hp. reflexivity.
Qed.

(** Whatever is returned, it is what the well-formed entries alone give. *)
Lemma aggregate_with_well_formed_only (metrics_list : list (bundle F)) (r : dict V) :
  aggregate_with read_observation issue_value metrics_list = Ok r ->
  exists r',
    aggregate_with read_observation issue_value (well_formed_only metrics_list) = Ok r' /\
    forall i, get i r = get i r'.
Proof.
  intros E.
  pose proof (aggregate_with_total read_observation issue_value feq0_le0
                (well_formed_only metrics_list)) as Hok.
  rewrite all_read_well_formed_only in Hok.
  destruct (aggregate_with read_observation issue_value (well_formed_only metrics_list))
    as [r'|e] eqn:E'; [|discriminate].
  exists r'. split; [reflexivity|]. intros i.
  rewrite (aggregate_with_get read_observation issue_value feq0_le0 _ i E).
  rewrite (aggregate_with_get read_observation issue_value feq0_le0 _ i E').
  rewrite observations_well_formed_only. reflexivity.
Qed.

(** The second loop files no issue twice. *)
Lemma average_issues_nodup (items : list (string * list (F * F))) :
  forall (acc out : dict V),
    NoDup (keys acc) -> average_issues issue_value items acc = Ok out ->
    NoDup (keys out).
Proof.
  induction items as [|[k pts] rest IH]; intros acc out Hacc Ho.
  - simpl in Ho. inversion Ho; subst. exact Hacc.
  - rewrite average_issues_step in Ho by exact feq0_le0.
    eapply IH; [|exact Ho].
    destruct (weighted_mean issue_value pts); [apply nodup_set|]; exact Hacc.
Qed.

Lemma aggregate_with_nodup (metrics_list : list (bundle F)) (r : dict V) :
  aggregate_with read_observation issue_value metrics_list = Ok r ->
  NoDup (keys r).
Proof.
  unfold aggregate_with.
  destruct (combine_metrics read_observation metrics_list []) as [c|e];
    simpl; [|discriminate].
  apply average_issues_nodup. constructor.
Qed.

(** An issue that is returned has a well-formed entry in some bundle. *)
Lemma aggregate_with_provenance (metrics_list : list (bundle F)) (r : dict V)
    (i : string) (v : V) :
  aggregate_with read_observation issue_value metrics_list = Ok r ->
  get i r = Some v ->
  exists metrics data,
    In metrics metrics_list /\ In (i, data) metrics /\ well_formed data = true.
Proof.
  intros E Hv.
  rewrite (aggregate_with_get read_observation issue_value feq0_le0 _ i E) in Hv.
  unfold weighted_mean in Hv.
  destruct (observations read_observation i metrics_list) as [|p pts] eqn:Eo;
    [discriminate|].
  assert (Hin : In p (observations read_observation i metrics_list))
    by (rewrite Eo; left; reflexivity).
  unfold observations in Hin. apply in_flat_map in Hin.
  destruct Hin as [[k data] [Hentry Hp]]. simpl in Hp.
  destruct (String.eqb k i) eqn:Ek; [|destruct Hp].
  apply String.eqb_eq in Ek. subst k.
  apply in_concat in Hentry. destruct Hentry as [metrics [Hm Hd]].
  exists metrics, data. split; [exact Hm|]. split; [exact Hd|].
  apply read_well_formed.
  destruct (read_observation data) as [[q|]|e];
    [exists q; reflexivity | destruct Hp | destruct Hp].
Qed.

(** Every value the second loop files is built by [issue_value] from two
    rounded numbers. *)
Lemma average_issues_values (items : list (string * list (F * F))) :
  forall (acc out : dict V),
    Forall (fun kv => exists a b, snd kv = issue_value (round3 a) (round3 b)) acc ->
    average_issues issue_value items acc = Ok out ->
    Forall (fun kv => exists a b, snd kv = issue_value (round3 a) (round3 b)) out.
Proof.
  induction items as [|[k pts] rest IH]; intros acc out Hacc Ho.
  - simpl in Ho. inversion Ho; subst. exact Hacc.
  - rewrite average_issues_step in Ho by exact feq0_le0.
    eapply IH; [|exact Ho].
    destruct (weighted_mean issue_value pts) as [v|] eqn:Ev; [|exact Hacc].
    assert (Hv : exists a b, v = issue_value (round3 a) (round3 b)).
    { unfold weighted_mean in Ev. destruct pts; [discriminate|].
      destruct (fle0 _); [discriminate|]. inversion Ev. eauto. }
    clear -Hacc Hv. induction acc as [|[k' v'] acc IHacc]; simpl.
    + constructor; [exact Hv | constructor].
    + inversion Hacc; subst. destruct (String.eqb k' k).
      * constructor; [exact Hv | assumption].
      * constructor; [assumption | apply IHacc; assumption].
Qed.

Lemma aggregate_with_values (metrics_list : list (bundle F)) (r : dict V) :
  aggregate_with read_observation issue_value metrics_list = Ok r ->
  Forall (fun kv => exists a b, snd kv = issue_value (round3 a) (round3 b)) r.
Proof.
  unfold aggregate_with.
  destruct (combine_metrics read_observation metrics_list []) as [c|e];
    simpl; [|discriminate].
  apply average_issues_values. constructor.
Qed.

(** The observations of an issue in a single bundle. *)
Lemma observations_single (metrics : bundle F) (i : string) :
  NoDup (keys metrics) ->
  observations read_observation i [metrics] =
  match get i metrics with
  | Some data =>
      match read_observation data with
      | Ok (Some point) => [point]
      | _ => []
      end
  | None => []
  end.
Proof.
  unfold observations. simpl. rewrite app_nil_r.
  induction metrics as [|[k data] rest IH]; simpl; intros Hnd.
  - reflexivity.
  - inversion Hnd as [|? ? Hk Hrest]; subst.
    destruct (String.eqb k i) eqn:Ek.
    + apply String.eqb_eq in Ek. subst k.
      assert (Hnone : get i rest = None) by (apply get_none_notin; exact Hk).
      rewrite (IH Hrest), Hnone, app_nil_r. reflexivity.
    + exact (IH Hrest).
Qed.

End Discarding.

(** X1.  Entries that are not well formed (not a list, not of two
    elements, or with an element that does not convert to a float) leave no
    mark on what [aggregate_metrics] returns: whenever the call returns, the
    call on the bundles stripped of those entries returns too, with the same
    value for every issue.  In both sources. *)
Theorem aggregate_metrics_discards_malformed :
  forall (metrics_list : list (bundle B64.float)),
    (forall r,
        AnalyzeData.aggregate_metrics metrics_list = Ok r ->
        exists r',
          AnalyzeData.aggregate_metrics (well_formed_only metrics_list) = Ok r' /\
          forall issue_id, get issue_id r = get issue_id r')
    /\
    (forall r,
        Analyze.aggregate_metrics metrics_list = Ok r ->
        exists r',
          Analyze.aggregate_metrics (well_formed_only metrics_list) = Ok r' /\
          forall issue_id, get issue_id r = get issue_id r').
Proof.
  intros metrics_list. split; intros r E.
  - exact (@aggregate_with_well_formed_only _ _ _ AnalyzeData.read_observation _
             b64_eq0_le0 analyze_data_read_well_formed metrics_list r E).
  - exact (@aggregate_with_well_formed_only _ _ _ Analyze.read_observation _
             b64_eq0_le0 analyze_read_well_formed metrics_list r E).
Qed.

(** X1, on two bundles with a one-element list, a string that is no
    number and an entry that is no list: only "PAY" is left, before and
    after stripping. *)
Lemma aggregate_metrics_discards_malformed_fmp :
  let metrics_list : list (bundle B64.float) :=
    [ [("ENV", PyList [PyInt 100]); ("PAY", PyList [PyInt 50; PyInt 65])];
      [("ENV", PyList [PyStr "high" None; PyInt 80]); ("POLI", PyNone)] ] in
  let r := [("PAY", AnalyzeData.IssueResult (B64.of_Z 65) (B64.of_Z 50))] in
  AnalyzeData.aggregate_metrics metrics_list = Ok r /\
  well_formed_only metrics_list = [ [("PAY", PyList [PyInt 50; PyInt 65])]; [] ] /\
  exists r',
    AnalyzeData.aggregate_metrics (well_formed_only metrics_list) = Ok r' /\
    forall issue_id, get issue_id r = get issue_id r'.
Proof.
  split; [reflexivity|]. split; [reflexivity|].
  exact (proj1 (aggregate_metrics_discards_malformed
                  [ [("ENV", PyList [PyInt 100]); ("PAY", PyList [PyInt 50; PyInt 65])];
                    [("ENV", PyList [PyStr "high" None; PyInt 80]); ("POLI", PyNone)] ])
               _ eq_refl).
Defined.

(** X2.  What [aggregate_metrics] returns names no issue twice, and every
    issue it names has a well-formed entry in one of the bundles: nothing is
    reported for an issue that was only ever mentioned by malformed entries,
    or not at all.  In both sources. *)
Theorem aggregate_metrics_reports_only_observed :
  forall (metrics_list : list (bundle B64.float)),
    (forall r,
        AnalyzeData.aggregate_metrics metrics_list = Ok r ->
        NoDup (keys r) /\
        forall issue_id v,
          get issue_id r = Some v ->
          exists metrics data,
            In metrics metrics_list /\ In (issue_id, data) metrics /\
            well_formed data = true)
    /\
    (forall r,
        Analyze.aggregate_metrics metrics_list = Ok r ->
        NoDup (keys r) /\
        forall issue_id v,
          get issue_id r = Some v ->
          exists metrics data,
            In metrics metrics_list /\ In (issue_id, data) metrics /\
            well_formed data = true).
Proof.
  intros metrics_list. split; intros r E; split.
  - exact (@aggregate_with_nodup _ _ _ AnalyzeData.read_observation _
             b64_eq0_le0 metrics_list r E).
  - intros issue_id v Hv.
    exact (@aggregate_with_provenance _ _ _ AnalyzeData.read_observation _
             b64_eq0_le0 analyze_data_read_well_formed metrics_list r issue_id v E Hv).
  - exact (@aggregate_with_nodup _ _ _ Analyze.read_observation _
             b64_eq0_le0 metrics_list r E).
  - intros issue_id v Hv.
    exact (@aggregate_with_provenance _ _ _ Analyze.read_observation _
             b64_eq0_le0 analyze_read_well_formed metrics_list r issue_id v E Hv).
Qed.

(** X2, on the bundles of two sources that both know "PAY". *)
Lemma aggregate_metrics_reports_only_observed_pay :
  let metrics_list : list (bundle B64.float) :=
    [ [("ENV", PyList [PyInt 100]); ("PAY", PyList [PyInt 50; PyInt 65])];
      [("PAY", PyList [PyInt 50; PyInt 60])] ] in
  let r := [("PAY", PyList [PyFloat (B64.of_Z 100); PyFloat (B64.dec 625 1)])] in
  Analyze.aggregate_metrics metrics_list = Ok r /\
  NoDup (keys r) /\
  get "PAY" r = Some (PyList [PyFloat (B64.of_Z 100); PyFloat (B64.dec 625 1)]) /\
  exists metrics data,
    In metrics metrics_list /\ In ("PAY", data) metrics /\ well_formed data = true.
Proof.
  split; [reflexivity|].
  pose proof (proj2 (aggregate_metrics_reports_only_observed
                  [ [("ENV", PyList [PyInt 100]); ("PAY", PyList [PyInt 50; PyInt 65])];
                    [("PAY", PyList [PyInt 50; PyInt 60])] ])
               _ eq_refl) as [Hnodup Hfrom].
  split; [exact Hnodup|]. split; [reflexivity|].
  exact (Hfrom "PAY" _ eq_refl).
Defined.

Lemma all_read_app {F : Type} `{FloatOps F}
    (read_observation : pyval F -> result (option (F * F)))
    (l l' : list (bundle F)) :
  all_read read_observation (l ++ l') =
  all_read read_observation l && all_read read_observation l'.
Proof.
  unfold all_read. rewrite concat_app, forallb_app. reflexivity.
Qed.

(** A bundle of lists of two floats can be read. *)
Lemma all_read_floats {F : Type} `{FloatOps F} (r : bundle F) :
  Forall (fun entry : string * pyval F =>
            exists x y, snd entry = PyList [PyFloat x; PyFloat y]) r ->
  all_read Analyze.read_observation [r] = true.
Proof.
  intros Hshape. unfold all_read. simpl. rewrite app_nil_r.
  apply forallb_forall. intros entry Hin.
  rewrite Forall_forall in Hshape.
  destruct (Hshape entry Hin) as [a [b ->]]. reflexivity.
Qed.

(** X3.  What the [aggregate_metrics] of [analyze.py] returns can be
    aggregated again, as [analyze_companies] does with the result of
    [data_google]: every value is a list of two floats, so the call on that
    result, placed anywhere among bundles that can be read, returns. *)
Theorem aggregate_metrics_output_is_readable :
  forall (metrics_list before after : list (bundle B64.float)) (r : bundle B64.float),
    Analyze.aggregate_metrics metrics_list = Ok r ->
    all_read Analyze.read_observation before = true ->
    all_read Analyze.read_observation after = true ->
    Forall (fun entry =>
              exists total_weight final_score,
                snd entry = PyList [PyFloat total_weight; PyFloat final_score]) r
    /\ is_ok (Analyze.aggregate_metrics (before ++ r :: after)) = true.
Proof.
  intros metrics_list before after r E Hbefore Hafter.
  assert (Hshape :
    Forall (fun entry : string * pyval B64.float =>
              exists total_weight final_score,
                snd entry = PyList [PyFloat total_weight; PyFloat final_score]) r).
  { eapply Forall_impl;
      [|exact (@aggregate_with_values _ _ _ Analyze.read_observation
                 (fun total_weight final_score =>
                    PyList [PyFloat total_weight; PyFloat final_score])
                 b64_eq0_le0 metrics_list r E)].
    intros entry [a [b Hv]]. eauto. }
  split; [exact Hshape|].
  unfold Analyze.aggregate_metrics.
  rewrite (aggregate_with_total Analyze.read_observation
             (fun total_weight final_score =>
                PyList [PyFloat total_weight; PyFloat final_score])
             b64_eq0_le0).
  change (before ++ r :: after) with (before ++ [r] ++ after).
  rewrite !all_read_app, Hbefore, Hafter, (all_read_floats Hshape). reflexivity.
Qed.

(** X3, on the test data of [data_fmp] aggregated twice. *)
Lemma aggregate_metrics_output_is_readable_twice :
  let metrics_list : list (bundle B64.float) := [Analyze.get_test_fmp_data] in
  let r := [ ("ENV", PyList [PyFloat (B64.of_Z 80); PyFloat (B64.of_Z 75)]);
             ("PAY", PyList [PyFloat (B64.of_Z 50); PyFloat (B64.of_Z 65)]) ] in
  Analyze.aggregate_metrics metrics_list = Ok r /\
  all_read Analyze.read_observation ([] : list (bundle B64.float)) = true /\
  all_read Analyze.read_observation [Analyze.get_test_fmp_data (F := B64.float)] = true /\
  is_ok (Analyze.aggregate_metrics ([] ++ r :: [Analyze.get_test_fmp_data])) = true.
Proof.
  split; [reflexivity|]. split; [reflexivity|]. split; [reflexivity|].
  exact (proj2 (@aggregate_metrics_output_is_readable
                  [Analyze.get_test_fmp_data] [] [Analyze.get_test_fmp_data] _
                  eq_refl eq_refl eq_refl)).
Defined.
(* ===================================================================== *)
(** * Aggregating twice *)
(* ===================================================================== *)

Lemma round_half_even_scale (N D c : Z) :
  0 < D -> 0 < c ->
  round_half_even (N * c) (D * c) = round_half_even N D.
Proof.
  intros HD Hc. unfold round_half_even.
  rewrite Z.div_mul_cancel_r by lia.
  rewrite Z.mul_mod_distr_r by lia.
  replace (2 * (N mod D * c)) with ((2 * (N mod D)) * c) by ring.
  rewrite <- (Zmult_compare_compat_r (2 * (N mod D)) D c) by lia.
  reflexivity.
Qed.

(** Rounding does not see how a rational is written. *)
Lemma exact_round3_eq (x y : Q) : (x == y)%Q -> Exact.round3 x = Exact.round3 y.
Proof.
  unfold Qeq, Exact.round3. intros Hxy. f_equal.
  rewrite <- (@round_half_even_scale (Qnum x * 1000) (Zpos (Qden x)) (Zpos (Qden y)))
    by reflexivity.
  rewrite <- (@round_half_even_scale (Qnum y * 1000) (Zpos (Qden y)) (Zpos (Qden x)))
    by reflexivity.
  f_equal; [|apply Z.mul_comm].
  replace (Qnum x * 1000 * Zpos (Qden y)) with (Qnum x * Zpos (Qden y) * 1000) by ring.
  rewrite Hxy. ring.
Qed.

(** A rounded number rounds to itself. *)
Lemma exact_round3_idempotent (x : Q) :
  Exact.round3 (Exact.round3 x) = Exact.round3 x.
Proof.
  unfold Exact.round3.
  set (z := round_half_even (Qnum x * 1000) (Zpos (Qden x))).
  cbn [Qnum Qden]. f_equal. unfold round_half_even.
  rewrite Z.div_mul by discriminate. rewrite Z.mod_mul by discriminate.
  reflexivity.
Qed.

Lemma exact_zero_plus_rounded (x : Q) :
  Qplus 0 (Exact.round3 x) = Exact.round3 x.
Proof.
  unfold Exact.round3, Qplus. cbn [Qnum Qden].
  rewrite Z.mul_1_r. reflexivity.
Qed.

(** The single observation [(c, s)] of two rounded numbers, with [c]
    above zero, aggregates to itself. *)
Lemma exact_weighted_mean_rounded {V : Type} (issue_value : Q -> Q -> V) (a b : Q) :
  weighted_mean issue_value [(Exact.round3 a, Exact.round3 b)] =
  if fle0 (Exact.round3 a) then None
  else Some (issue_value (Exact.round3 a) (Exact.round3 b)).
Proof.
  unfold weighted_mean, total_weight, weighted_sum, py_sum. simpl.
  rewrite exact_zero_plus_rounded.
  destruct (Exact.le0 (Exact.round3 a)) eqn:Ele; [reflexivity|].
  rewrite exact_round3_idempotent. do 2 f_equal.
  rewrite <- (exact_round3_idempotent b). apply exact_round3_eq.
  assert (Hne : ~ (Exact.round3 a == 0)%Q).
  { intros Hz. unfold Exact.le0 in Ele.
    assert (Hle : Qle_bool (Exact.round3 a) 0 = true)
      by (apply Qle_bool_iff; rewrite Hz; apply Qle_refl).
    congruence. }
  rewrite exact_round3_idempotent. field. exact Hne.
Qed.

(** X4.  Aggregating what the [aggregate_metrics] of [analyze.py]
    returned, on its own, need not give it back on binary64 floats: the
    single observation of weight 2^1023 and score 1.9999999999999998
    aggregates to the score 2.0, and that result aggregates to the score
    infinity.  Read over exact rational arithmetic it does give it back:
    every issue comes out with the same confidence and score, but for an
    issue whose confidence was rounded to zero, which is dropped. *)
Theorem aggregate_metrics_twice :
  (let observed : bundle B64.float :=
     [("X", PyList [PyFloat (B64.of_Z (2 ^ 1023));
                    PyFloat (S754_finite false (2 ^ 53 - 1) (-52))])] in
   let once : bundle B64.float :=
     [("X", PyList [PyFloat (B64.of_Z (2 ^ 1023)); PyFloat (B64.of_Z 2)])] in
   let twice : bundle B64.float :=
     [("X", PyList [PyFloat (B64.of_Z (2 ^ 1023)); PyFloat (S754_infinity false)])] in
   Analyze.aggregate_metrics [observed] = Ok once
   /\ Analyze.aggregate_metrics [once] = Ok twice)
  /\
  (forall (metrics_list : list (bundle Q)) (r : bundle Q),
     Analyze.aggregate_metrics metrics_list = Ok r ->
     exists r',
       Analyze.aggregate_metrics [r] = Ok r'
       /\ forall issue_id,
            get issue_id r' =
            match get issue_id r with
            | Some (PyList [PyFloat total_weight; PyFloat final_score]) =>
                if fle0 total_weight then None else get issue_id r
            | _ => None
            end).
Proof.
  split; [vm_compute; split; reflexivity|].
  intros metrics_list r E.
  pose proof (@aggregate_with_values _ _ _ Analyze.read_observation
                (fun total_weight final_score : Q =>
                   PyList [PyFloat total_weight; PyFloat final_score])
                exact_eq0_le0 metrics_list r E) as Hshape.
  pose proof (@aggregate_with_nodup _ _ _ Analyze.read_observation
                (fun total_weight final_score : Q =>
                   PyList [PyFloat total_weight; PyFloat final_score])
                exact_eq0_le0 metrics_list r E) as Hnodup.
  pose proof (aggregate_with_total Analyze.read_observation
                (fun total_weight final_score : Q =>
                   PyList [PyFloat total_weight; PyFloat final_score])
                exact_eq0_le0 [r]) as Hok.
  rewrite all_read_floats in Hok
    by (eapply Forall_impl; [|exact Hshape]; intros entry [a [b Hv]]; eauto).
  unfold Analyze.aggregate_metrics.
  destruct (aggregate_with Analyze.read_observation
              (fun total_weight final_score : Q =>
                 PyList [PyFloat total_weight; PyFloat final_score]) [r])
    as [r'|e] eqn:E'; [|discriminate Hok].
  exists r'. split; [reflexivity|]. intros issue_id.
  rewrite (aggregate_with_get Analyze.read_observation _ exact_eq0_le0 _ issue_id E').
  rewrite (observations_single Analyze.read_observation r issue_id Hnodup).
  destruct (get issue_id r) as [data|] eqn:Eg; [|reflexivity].
  assert (Hin : In (issue_id, data) r).
  { clear -Eg. induction r as [|[k v] rest IH]; simpl in *; [discriminate|].
    destruct (String.eqb k issue_id) eqn:Ek.
    - apply String.eqb_eq in Ek. inversion Eg; subst. left. reflexivity.
    - right. apply IH. exact Eg. }
  rewrite Forall_forall in Hshape.
  destruct (Hshape _ Hin) as [a [b Hv]]. simpl in Hv. subst data.
  cbn [Analyze.read_observation py_float rbind].
  apply exact_weighted_mean_rounded.
Qed.

(** X4, over exact arithmetic, on the scenario of two sources that score
    "ENV" 80 and 60. *)
Lemma aggregate_metrics_twice_scenario :
  let metrics_list : list (bundle Q) :=
    [ [("ENV", PyList [PyInt 1; PyInt 80])];
      [("ENV", PyList [PyInt 1; PyInt 60])] ] in
  let r : bundle Q := [("ENV", PyList [PyFloat (2000 # 1000); PyFloat (70000 # 1000)])] in
  Analyze.aggregate_metrics metrics_list = Ok r /\
  exists r',
    Analyze.aggregate_metrics [r] = Ok r'
    /\ forall issue_id,
         get issue_id r' =
         match get issue_id r with
         | Some (PyList [PyFloat total_weight; PyFloat final_score]) =>
             if fle0 total_weight then None else get issue_id r
         | _ => None
         end.
Proof.
  split; [reflexivity|].
  exact (proj2 aggregate_metrics_twice
           [ [("ENV", PyList [PyInt 1; PyInt 80])];
             [("ENV", PyList [PyInt 1; PyInt 60])] ] _ eq_refl).
Defined.
(* ===================================================================== *)
(** * string_standard_formatting and wait_until_4am *)
(* ===================================================================== *)

Lemma lower_fixes_a_z_0_9 (c : ascii) :
  Analyze.is_a_z_0_9 c = true -> Analyze.lower c = c.
Proof.
  destruct c as [[] [] [] [] [] [] [] []]; intros Hc;
    first [reflexivity | discriminate Hc].
Qed.

Lemma keep_app (p : ascii -> bool) (s t : string) :
  Analyze.keep p (s ++ t) = (Analyze.keep p s ++ Analyze.keep p t)%string.
Proof.
  induction s as [|c s IH]; simpl.
  - reflexivity.
  - destruct (p c); simpl; rewrite IH; reflexivity.
Qed.

Lemma map_chars_app (f : ascii -> ascii) (s t : string) :
  Analyze.map_chars f (s ++ t) = (Analyze.map_chars f s ++ Analyze.map_chars f t)%string.
Proof.
  induction s as [|c s IH]; simpl.
  - reflexivity.
  - rewrite IH. reflexivity.
Qed.

Lemma keep_all (p : ascii -> bool) (s : string) :
  forallb p (list_ascii_of_string (Analyze.keep p s)) = true.
Proof.
  induction s as [|c s IH]; simpl.
  - reflexivity.
  - destruct (p c) eqn:Ec; simpl; [rewrite Ec|]; exact IH.
Qed.

Section LowerStr.

(** The tests of [lower_str] on the bytes that follow. *)
Let head_is (n : nat) (s : string) : bool :=
  match s with
  | String c _ => (nat_of_ascii c =? n)%nat
  | EmptyString => false
  end.

Let tail (s : string) : string :=
  match s with
  | String _ rest => rest
  | EmptyString => EmptyString
  end.

Let dotted (c : ascii) (rest : string) : bool :=
  (nat_of_ascii c =? 196)%nat && head_is 176 rest.

Let kelvin (c : ascii) (rest : string) : bool :=
  (nat_of_ascii c =? 226)%nat && head_is 132 rest && head_is 170 (tail rest).

Lemma lower_str_step (c : ascii) (rest : string) :
  Analyze.lower_str (String c rest) =
  if dotted c rest then
    String "i" (String (ascii_of_nat 204) (String (ascii_of_nat 135)
      (Analyze.lower_str (tail rest))))
  else if kelvin c rest then String "k" (Analyze.lower_str (tail (tail rest)))
  else String (Analyze.lower c) (Analyze.lower_str rest).
Proof.
  unfold dotted, kelvin, head_is, tail.
  destruct rest as [|c1 [|c2 rest2]]; cbn [Analyze.lower_str];
    rewrite ?andb_false_r; reflexivity.
Qed.

Lemma lower_str_cases (P : string -> Prop) :
  P EmptyString ->
  (forall c rest, dotted c rest = true -> P (tail rest) -> P (String c rest)) ->
  (forall c rest, dotted c rest = false -> kelvin c rest = true ->
                  P (tail (tail rest)) -> P (String c rest)) ->
  (forall c rest, dotted c rest = false -> kelvin c rest = false ->
                  P rest -> P (String c rest)) ->
  forall s, P s.
Proof.
  intros Hempty Hdotted Hkelvin Hplain.
  assert (Hall : forall (n : nat) (s : string), (String.length s <= n)%nat -> P s).
  { induction n as [|n IH]; intros s Hs.
    - destruct s; [exact Hempty | simpl in Hs; lia].
    - destruct s as [|c rest]; [exact Hempty|]. simpl in Hs.
      assert (Htail : forall r : string,
                (String.length (tail r) <= String.length r)%nat)
        by (intros r; destruct r; simpl; lia).
      destruct (dotted c rest) eqn:Ed.
      + apply Hdotted; [exact Ed|]. apply IH.
        pose proof (Htail rest). lia.
      + destruct (kelvin c rest) eqn:Ek.
        * apply Hkelvin; [exact Ed | exact Ek |]. apply IH.
          pose proof (Htail rest). pose proof (Htail (tail rest)). lia.
        * apply Hplain; [exact Ed | exact Ek |]. apply IH. lia. }
  intros s. apply (Hall (String.length s)). constructor.
Qed.

Lemma head_is_nonempty (n : nat) (s : string) :
  head_is n s = true -> exists c rest, s = String c rest /\ nat_of_ascii c = n.
Proof.
  destruct s as [|c rest]; simpl; [discriminate|].
  intros Hc. apply Nat.eqb_eq in Hc. eauto.
Qed.

Lemma ascii_plain (c : ascii) (rest : string) :
  Analyze.is_ascii c = true -> dotted c rest = false /\ kelvin c rest = false.
Proof.
  unfold Analyze.is_ascii, dotted, kelvin. intros Hc. apply Nat.ltb_lt in Hc.
  assert (E1 : (nat_of_ascii c =? 196)%nat = false) by (apply Nat.eqb_neq; lia).
  assert (E2 : (nat_of_ascii c =? 226)%nat = false) by (apply Nat.eqb_neq; lia).
  rewrite E1, E2. split; reflexivity.
Qed.

Lemma a_z_0_9_is_ascii (c : ascii) :
  Analyze.is_a_z_0_9 c = true -> Analyze.is_ascii c = true.
Proof.
  unfold Analyze.is_a_z_0_9, Analyze.is_ascii. cbv zeta. intros Hc.
  apply Nat.ltb_lt.
  apply orb_true_iff in Hc.
  destruct Hc as [Hc|Hc]; apply andb_true_iff in Hc; destruct Hc as [_ Hc];
    apply Nat.leb_le in Hc; lia.
Qed.

Lemma lower_is_ascii (c : ascii) :
  Analyze.is_a_z_0_9 (Analyze.lower c) = true -> Analyze.is_ascii c = true.
Proof.
  destruct c as [[] [] [] [] [] [] [] []]; intros Hc;
    first [reflexivity | discriminate Hc].
Qed.

Lemma ascii_starts_character (c : ascii) :
  Analyze.is_ascii c = true -> Analyze.is_continuation c = false.
Proof.
  unfold Analyze.is_ascii, Analyze.is_continuation. cbv zeta. intros Hc.
  apply Nat.ltb_lt in Hc.
  assert (E : (128 <=? nat_of_ascii c)%nat = false) by (apply Nat.leb_gt; lia).
  rewrite E. reflexivity.
Qed.

(** An ASCII character is lowered on its own. *)
Lemma lower_str_ascii (c : ascii) (rest : string) :
  Analyze.is_ascii c = true ->
  Analyze.lower_str (String c rest) = String (Analyze.lower c) (Analyze.lower_str rest).
Proof.
  intros Hc. rewrite lower_str_step.
  destruct (@ascii_plain c rest Hc) as [Ed Ek]. rewrite Ed, Ek. reflexivity.
Qed.

Lemma string_standard_formatting_ascii (c : ascii) (rest : string) :
  Analyze.is_ascii c = true ->
  Analyze.string_standard_formatting (String c rest) =
  if Analyze.is_a_z_0_9 (Analyze.lower c)
  then String (Analyze.lower c) (Analyze.string_standard_formatting rest)
  else Analyze.string_standard_formatting rest.
Proof.
  intros Hc. unfold Analyze.string_standard_formatting.
  rewrite (@lower_str_ascii c rest Hc). reflexivity.
Qed.

Lemma string_standard_formatting_fixes (s : string) :
  forallb Analyze.is_a_z_0_9 (list_ascii_of_string s) = true ->
  Analyze.string_standard_formatting s = s.
Proof.
  induction s as [|c s IH]; intros Hs.
  - reflexivity.
  - simpl in Hs. apply andb_true_iff in Hs. destruct Hs as [Hc Hs].
    rewrite (@string_standard_formatting_ascii c s (@a_z_0_9_is_ascii c Hc)).
    rewrite (@lower_fixes_a_z_0_9 c Hc), Hc, (IH Hs). reflexivity.
Qed.

(** No test of [lower_str] reaches into a string that starts with a
    character. *)
Lemma head_is_app (n : nat) (rest t : string) :
  (128 <= n)%nat -> (n <= 191)%nat ->
  Analyze.starts_character t = true ->
  head_is n (rest ++ t) = head_is n rest.
Proof.
  intros Hlo Hhi Ht. destruct rest as [|c rest]; [|reflexivity].
  simpl. destruct t as [|c t]; [reflexivity|].
  simpl in *. apply negb_true_iff in Ht.
  unfold Analyze.is_continuation in Ht. cbv zeta in Ht.
  apply Nat.eqb_neq. intros E. rewrite E in Ht.
  apply Nat.leb_le in Hlo, Hhi. rewrite Hlo, Hhi in Ht. discriminate Ht.
Qed.

Lemma dotted_app (c : ascii) (rest t : string) :
  Analyze.starts_character t = true ->
  dotted c (rest ++ t) = dotted c rest.
Proof.
  intros Ht. unfold dotted. rewrite (@head_is_app 176 rest t); [reflexivity|lia|lia|exact Ht].
Qed.

Lemma kelvin_app (c : ascii) (rest t : string) :
  Analyze.starts_character t = true ->
  kelvin c (rest ++ t) = kelvin c rest.
Proof.
  intros Ht. unfold kelvin.
  rewrite (@head_is_app 132 rest t); [|lia|lia|exact Ht].
  destruct rest as [|c1 rest1].
  - simpl. rewrite !andb_false_r. reflexivity.
  - change (tail (String c1 rest1 ++ t)) with (rest1 ++ t)%string.
    rewrite (@head_is_app 170 rest1 t); [reflexivity|lia|lia|exact Ht].
Qed.

Lemma lower_str_app (s t : string) :
  Analyze.starts_character t = true ->
  Analyze.lower_str (s ++ t) = (Analyze.lower_str s ++ Analyze.lower_str t)%string.
Proof.
  intros Ht. pattern s. apply lower_str_cases; clear s.
  - reflexivity.
  - intros c rest Ed IH.
    change (String c rest ++ t)%string with (String c (rest ++ t)).
    rewrite !lower_str_step, (@dotted_app c rest t Ht), Ed.
    unfold dotted in Ed. apply andb_true_iff in Ed. destruct Ed as [_ Ed].
    destruct (@head_is_nonempty _ _ Ed) as [c1 [rest1 [E _]]]. subst rest.
    change (tail (String c1 rest1 ++ t)) with (rest1 ++ t)%string.
    change (tail (String c1 rest1)) with rest1 in *.
    rewrite IH. reflexivity.
  - intros c rest Ed Ek IH.
    change (String c rest ++ t)%string with (String c (rest ++ t)).
    rewrite !lower_str_step, (@dotted_app c rest t Ht), (@kelvin_app c rest t Ht), Ed, Ek.
    unfold kelvin in Ek. apply andb_true_iff in Ek. destruct Ek as [Ek E2].
    apply andb_true_iff in Ek. destruct Ek as [_ E1].
    destruct (@head_is_nonempty _ _ E1) as [c1 [rest1 [E _]]]. subst rest.
    change (tail (String c1 rest1)) with rest1 in *.
    destruct (@head_is_nonempty _ _ E2) as [c2 [rest2 [E _]]]. subst rest1.
    change (tail (tail (String c1 (String c2 rest2) ++ t))) with (rest2 ++ t)%string.
    change (tail (String c2 rest2)) with rest2 in *.
    rewrite IH. reflexivity.
  - intros c rest Ed Ek IH.
    change (String c rest ++ t)%string with (String c (rest ++ t)).
    rewrite !lower_str_step, (@dotted_app c rest t Ht), (@kelvin_app c rest t Ht), Ed, Ek.
    rewrite IH. reflexivity.
Qed.

(** Lowering the ASCII letters leaves the bytes outside ASCII alone. *)
Lemma lower_keeps_high (c : ascii) (n : nat) :
  (128 <= n)%nat ->
  (nat_of_ascii (Analyze.lower c) =? n)%nat = (nat_of_ascii c =? n)%nat.
Proof.
  intros Hn. unfold Analyze.lower. cbv zeta.
  destruct ((65 <=? nat_of_ascii c) && (nat_of_ascii c <=? 90))%nat eqn:E;
    [|reflexivity].
  apply andb_true_iff in E. destruct E as [E1 E2].
  apply Nat.leb_le in E1, E2.
  rewrite nat_ascii_embedding by lia.
  transitivity false; [|symmetry]; apply Nat.eqb_neq; lia.
Qed.

Lemma head_is_map_lower (n : nat) (s : string) :
  (128 <= n)%nat ->
  head_is n (Analyze.map_chars Analyze.lower s) = head_is n s.
Proof.
  intros Hn. destruct s as [|c s]; [reflexivity|].
  simpl. apply lower_keeps_high. exact Hn.
Qed.

Lemma tail_map_lower (s : string) :
  tail (Analyze.map_chars Analyze.lower s) = Analyze.map_chars Analyze.lower (tail s).
Proof. destruct s; reflexivity. Qed.

Lemma lower_lower (c : ascii) : Analyze.lower (Analyze.lower c) = Analyze.lower c.
Proof. destruct c as [[] [] [] [] [] [] [] []]; reflexivity. Qed.

Lemma lower_str_map_lower (s : string) :
  Analyze.lower_str (Analyze.map_chars Analyze.lower s) = Analyze.lower_str s.
Proof.
  pattern s. apply lower_str_cases; clear s.
  - reflexivity.
  - intros c rest Ed IH. cbn [Analyze.map_chars]. rewrite !lower_str_step.
    unfold dotted in *.
    rewrite lower_keeps_high, head_is_map_lower, Ed by lia.
    rewrite tail_map_lower, IH. reflexivity.
  - intros c rest Ed Ek IH. cbn [Analyze.map_chars]. rewrite !lower_str_step.
    unfold dotted, kelvin in *.
    rewrite !lower_keeps_high, !tail_map_lower, !head_is_map_lower, Ed, Ek by lia.
    rewrite IH. reflexivity.
  - intros c rest Ed Ek IH. cbn [Analyze.map_chars]. rewrite !lower_str_step.
    unfold dotted, kelvin in *.
    rewrite !lower_keeps_high, !tail_map_lower, !head_is_map_lower, Ed, Ek by lia.
    rewrite lower_lower, IH. reflexivity.
Qed.

Lemma code_points_cons (c : ascii) (s : string) :
  Analyze.code_points (String c s) =
  ((if Analyze.is_continuation c then 0 else 1) + Analyze.code_points s)%nat.
Proof.
  unfold Analyze.code_points. cbn [Analyze.keep].
  destruct (Analyze.is_continuation c); reflexivity.
Qed.

Lemma code_points_tail (s : string) :
  (Analyze.code_points (tail s) <= Analyze.code_points s)%nat.
Proof.
  destruct s as [|c s]; [constructor|].
  rewrite code_points_cons. simpl. lia.
Qed.

Lemma lead_starts_character (c : ascii) (n : nat) :
  (192 <= n)%nat -> (nat_of_ascii c =? n)%nat = true ->
  Analyze.is_continuation c = false.
Proof.
  intros Hn Hc. apply Nat.eqb_eq in Hc.
  unfold Analyze.is_continuation. cbv zeta. rewrite Hc.
  assert (E : (n <=? 191)%nat = false) by (apply Nat.leb_gt; lia).
  rewrite E, andb_false_r. reflexivity.
Qed.

Lemma string_standard_formatting_length (s : string) :
  (String.length (Analyze.string_standard_formatting s) <= Analyze.code_points s)%nat.
Proof.
  unfold Analyze.string_standard_formatting.
  pattern s. apply lower_str_cases; clear s.
  - constructor.
  - intros c rest Ed IH. rewrite lower_str_step, Ed, code_points_cons.
    unfold dotted in Ed. apply andb_true_iff in Ed. destruct Ed as [Ec _].
    rewrite (@lead_starts_character c 196) by (lia || exact Ec).
    pose proof (code_points_tail rest).
    change (Analyze.keep Analyze.is_a_z_0_9
              (String "i" (String (ascii_of_nat 204) (String (ascii_of_nat 135)
                 (Analyze.lower_str (tail rest))))))
      with (String "i" (Analyze.keep Analyze.is_a_z_0_9 (Analyze.lower_str (tail rest)))).
    cbn [String.length]. lia.
  - intros c rest Ed Ek IH. rewrite lower_str_step, Ed, Ek, code_points_cons.
    unfold kelvin in Ek. apply andb_true_iff in Ek. destruct Ek as [Ek _].
    apply andb_true_iff in Ek. destruct Ek as [Ec _].
    rewrite (@lead_starts_character c 226) by (lia || exact Ec).
    pose proof (code_points_tail rest). pose proof (code_points_tail (tail rest)).
    change (Analyze.keep Analyze.is_a_z_0_9
              (String "k" (Analyze.lower_str (tail (tail rest)))))
      with (String "k" (Analyze.keep Analyze.is_a_z_0_9
                          (Analyze.lower_str (tail (tail rest))))).
    cbn [String.length]. lia.
  - intros c rest Ed Ek IH. rewrite lower_str_step, Ed, Ek, code_points_cons.
    cbn [Analyze.keep].
    destruct (Analyze.is_a_z_0_9 (Analyze.lower c)) eqn:Ec.
    + rewrite (@ascii_starts_character c (@lower_is_ascii c Ec)).
      cbn [String.length]. lia.
    + lia.
Qed.

End LowerStr.

(** X5.  [string_standard_formatting] returns only characters of
    [a-z0-9], never more of them than the characters it was given, and
    formatting a name that is already formatted changes nothing. *)
Theorem string_standard_formatting_idempotent :
  forall s : string,
    forallb Analyze.is_a_z_0_9
      (list_ascii_of_string (Analyze.string_standard_formatting s)) = true
    /\ (String.length (Analyze.string_standard_formatting s) <=?
        Analyze.code_points s)%nat = true
    /\ Analyze.string_standard_formatting (Analyze.string_standard_formatting s) =
       Analyze.string_standard_formatting s.
Proof.
  intros s.
  assert (Hall : forallb Analyze.is_a_z_0_9
            (list_ascii_of_string (Analyze.string_standard_formatting s)) = true)
    by apply keep_all.
  split; [exact Hall|]. split.
  - apply Nat.leb_le. apply string_standard_formatting_length.
  - apply string_standard_formatting_fixes. exact Hall.
Qed.

(** X6.  Names that differ only in the case of ASCII letters, or in ASCII
    characters outside [A-Za-z0-9] (spaces, dots, ...), get the same
    formatted name: formatting goes through the concatenation of two
    [str], does not see the case of an ASCII letter, and drops every ASCII
    character whose lower case is not in [a-z0-9].  Outside ASCII, the
    Kelvin sign U+212A is kept as ["k"] and the dotted capital I U+0130 as
    ["i"]. *)
Theorem string_standard_formatting_merges_names :
  forall (s t : string) (c : ascii),
    Analyze.starts_character t = true ->
    Analyze.string_standard_formatting (s ++ t) =
    (Analyze.string_standard_formatting s ++ Analyze.string_standard_formatting t)%string
    /\ Analyze.string_standard_formatting (Analyze.map_chars Analyze.lower s) =
       Analyze.string_standard_formatting s
    /\ (Analyze.is_ascii c = true ->
        Analyze.string_standard_formatting (s ++ String c t) =
        (if Analyze.is_a_z_0_9 (Analyze.lower c)
         then Analyze.string_standard_formatting s ++
              String (Analyze.lower c) (Analyze.string_standard_formatting t)
         else Analyze.string_standard_formatting (s ++ t))%string)
    /\ Analyze.string_standard_formatting
         (s ++ String (ascii_of_nat 226) (String (ascii_of_nat 132)
                 (String (ascii_of_nat 170) t))) =
       (Analyze.string_standard_formatting s ++
        String "k" (Analyze.string_standard_formatting t))%string
    /\ Analyze.string_standard_formatting
         (s ++ String (ascii_of_nat 196) (String (ascii_of_nat 176) t)) =
       (Analyze.string_standard_formatting s ++
        String "i" (Analyze.string_standard_formatting t))%string.
Proof.
  intros s t c Ht.
  assert (Happ : forall a b,
    Analyze.starts_character b = true ->
    Analyze.string_standard_formatting (a ++ b) =
    (Analyze.string_standard_formatting a ++ Analyze.string_standard_formatting b)%string).
  { intros a b Hb. unfold Analyze.string_standard_formatting.
    rewrite (@lower_str_app a b Hb), keep_app. reflexivity. }
  split; [apply Happ; exact Ht|]. split; [|split; [|split]].
  - unfold Analyze.string_standard_formatting.
    rewrite lower_str_map_lower. reflexivity.
  - intros Hc.
    rewrite Happ
      by (cbn [Analyze.starts_character];
          rewrite (@ascii_starts_character c Hc); reflexivity).
    rewrite (@string_standard_formatting_ascii c t Hc).
    destruct (Analyze.is_a_z_0_9 (Analyze.lower c)); [reflexivity|].
    rewrite (Happ s t Ht). reflexivity.
  - rewrite Happ by reflexivity. reflexivity.
  - rewrite Happ by reflexivity. reflexivity.
Qed.

(** X6, on the names "Coca-Cola Co." and "COCACOLA co", and on a name
    written with the Kelvin sign. *)
Lemma string_standard_formatting_merges_names_cola :
  Analyze.starts_character "Cola Co." = true
  /\ Analyze.string_standard_formatting ("Coca-" ++ "Cola Co.") = "cocacolaco"
  /\ Analyze.string_standard_formatting "COCACOLA co" = "cocacolaco"
  /\ Analyze.string_standard_formatting
       (String (ascii_of_nat 226) (String (ascii_of_nat 132)
          (String (ascii_of_nat 170) "elvin"))) = "kelvin".
Proof.
  split; [reflexivity|]. split; [|split].
  - etransitivity.
    + exact (proj1 (string_standard_formatting_merges_names "Coca-" "Cola Co." "-"
                      eq_refl)).
    + reflexivity.
  - reflexivity.
  - reflexivity.
Defined.




(* ===================================================================== *)
(** * More about the retry loops *)
(* ===================================================================== *)


(** X8.  [data_grounded_gemini] and [ask_compeditors] return the first
    answer they get: when the model is rate limited for the first [k]
    calls ([k] at most 4) and then answers, each has made [k + 1] calls,
    has slept [attempt * 300 + 60] seconds after each of the [k] rate-limited
    ones (60, 360, 660, 960) and returns what it reads off that answer. *)
Theorem retry_sites_return_first_answer :
  forall (env : Analyze.outside (F := B64.float)) (company : string)
         (w : Analyze.world) (k : nat) (r : Analyze.gc_response),
    (k <=? 4)%nat = true ->
    (forall j : nat, (j < k)%nat ->
       Analyze.generate env (j + Analyze.calls w) = Analyze.Fails (ClientError 429)) ->
    Analyze.generate env (k + Analyze.calls w) = Analyze.Responds r ->
    (forall final_output,
        Analyze.research_scores r = Ok final_output ->
        Analyze.data_grounded_gemini env company (Some tt) false w =
        (Ok (Some (map (fun kv => (fst kv, PyList [PyFloat (fst (snd kv));
                                                    PyFloat (snd (snd kv))]))
                     final_output)),
         Analyze.World (S k + Analyze.calls w)
           (Analyze.trace w ++
            Analyze.Called Analyze.DataGroundedGemini company ::
            Analyze.backoff Analyze.GroundedModel k ++
            [Analyze.Generate Analyze.GroundedModel])))
    /\
    (forall compeditors,
        Analyze.competition r = Ok compeditors ->
        Analyze.ask_compeditors env company (Some tt) false w =
        (Ok compeditors,
         Analyze.World (S k + Analyze.calls w)
           (Analyze.trace w ++
            Analyze.Called Analyze.AskCompeditors company ::
            Analyze.backoff Analyze.CompetitorLookup k ++
            [Analyze.Generate Analyze.CompetitorLookup]))).
Proof.
  intros env company w k r Hk Hrl Hg. apply Nat.leb_le in Hk. split.
  - intros final_output Hr.
    apply (@data_grounded_gemini_answered_after _ env company w k r);
      [exact Hk | split; [exact Hrl | exact Hg] | exact Hr].
  - intros compeditors Hr.
    apply (@ask_compeditors_answered_after _ env company w k r);
      [exact Hk | split; [exact Hrl | exact Hg] | exact Hr].
Qed.

(** X8, when the third call is the first to be answered: three calls,
    with sleeps of 60 and 360 seconds. *)
Lemma retry_sites_return_first_answer_third_call :
  let r : Analyze.gc_response (F := B64.float) :=
    Analyze.Response (Ok []) (Ok [("ENV", (B64.of_Z 50, B64.of_Z 85))])
      (Ok (Analyze.Products "phones")) in
  let env := Analyze.rate_limited_then 2 r None in
  (2 <=? 4)%nat = true /\
  Analyze.generate env 0 = Analyze.Fails (ClientError 429) /\
  Analyze.generate env 1 = Analyze.Fails (ClientError 429) /\
  Analyze.generate env 2 = Analyze.Responds r /\
  Analyze.data_grounded_gemini env "Acme" (Some tt) false Analyze.start =
  (Ok (Some [("ENV", PyList [PyFloat (B64.of_Z 50); PyFloat (B64.of_Z 85)])]),
   Analyze.World 3
     [ Analyze.Called Analyze.DataGroundedGemini "Acme";
       Analyze.Generate Analyze.GroundedModel; Analyze.Sleep 60;
       Analyze.Generate Analyze.GroundedModel; Analyze.Sleep 360;
       Analyze.Generate Analyze.GroundedModel ]).
Proof.
  split; [reflexivity|]. split; [reflexivity|]. split; [reflexivity|].
  split; [reflexivity|].
  refine (proj1 (@retry_sites_return_first_answer
                   (Analyze.rate_limited_then 2
                      (Analyze.Response (Ok [])
                         (Ok [("ENV", (B64.of_Z 50, B64.of_Z 85))])
                         (Ok (Analyze.Products "phones"))) None)
                   "Acme" Analyze.start 2%nat _ eq_refl _ eq_refl) _ eq_refl).
  intros j Hj. destruct j as [|[|j]]; [reflexivity | reflexivity | lia].
Defined.

(** X9.  [ask_about_article] does not stop at an answer: unless a call
    meets a client error that is not a rate limit, it makes all five calls,
    and what it returns is decided by the fifth alone, the scores read off
    its answer, or the empty mapping when it failed, whatever the first
    four came to. *)
Theorem ask_about_article_keeps_last_answer :
  forall (env : Analyze.outside (F := B64.float)) (w : Analyze.world),
    (forall j : nat, (j < 5)%nat ->
       Analyze.is_fatal (Analyze.generate env (j + Analyze.calls w)) = false) ->
    Analyze.calls (snd (Analyze.ask_about_article env (Some tt) w)) =
    (5 + Analyze.calls w)%nat
    /\ fst (Analyze.ask_about_article env (Some tt) w) =
       match Analyze.generate env (4 + Analyze.calls w) with
       | Analyze.Responds response =>
           (output <- Analyze.article_scores response ;;
            Ok (map (fun kv => (fst kv, PyList [fst (snd kv); snd (snd kv)])) output))%result
       | Analyze.Fails _ => Ok []
       end.
Proof.
  intros env w Hf. apply ask_about_article_five_calls. exact Hf.
Qed.

(** X9, when the first four calls are answered and the fifth fails: the
    four answers are lost and the empty mapping is returned. *)
Lemma ask_about_article_keeps_last_answer_lost :
  let r : Analyze.gc_response (F := B64.float) :=
    Analyze.Response (Ok [("ENV", (PyInt 80, PyInt 75))]) (Ok [])
      (Ok (Analyze.Names [])) in
  let env :=
    Analyze.Outside
      (fun n => if (n <? 4)%nat then Analyze.Responds r else Analyze.Fails OtherException)
      (fun _ => Ok ([], [])) (fun _ => None) (fun _ => 0) (fun _ => []) in
  Analyze.generate env 0 = Analyze.Responds r /\
  Analyze.generate env 4 = Analyze.Fails OtherException /\
  Analyze.calls (snd (Analyze.ask_about_article env (Some tt) Analyze.start)) = 5%nat /\
  fst (Analyze.ask_about_article env (Some tt) Analyze.start) = Ok [].
Proof.
  split; [reflexivity|]. split; [reflexivity|].
  refine (ask_about_article_keeps_last_answer
            (Analyze.Outside
               (fun n => if (n <? 4)%nat then Analyze.Responds _
                         else Analyze.Fails OtherException)
               (fun _ => Ok ([], [])) (fun _ => None) (fun _ => 0) (fun _ => []))
            Analyze.start _).
  intros j Hj. destruct j as [|[|[|[|[|j]]]]]; first [reflexivity | lia].
Defined.

(** X10.  Under failures that are no client errors (a timeout, a broken
    connection, ...) through five calls, each retry site makes its five
    calls one after the other, without any sleep, and then gives its
    fallback: the empty mapping for article scoring and the grounded model,
    the empty list for the competitor lookup. *)
Theorem retry_sites_under_passing_failures :
  forall (env : Analyze.outside (F := B64.float)) (company : string)
         (w : Analyze.world),
    (forall j : nat, (j < 5)%nat ->
       Analyze.is_transient (Analyze.generate env (j + Analyze.calls w)) = true) ->
    Analyze.ask_about_article env (Some tt) w =
    (Ok [],
     Analyze.World (5 + Analyze.calls w)
       (Analyze.trace w ++ repeat (Analyze.Generate Analyze.ArticleScoring) 5))
    /\
    Analyze.data_grounded_gemini env company (Some tt) false w =
    (Ok (Some []),
     Analyze.World (5 + Analyze.calls w)
       (Analyze.trace w ++
        Analyze.Called Analyze.DataGroundedGemini company ::
        repeat (Analyze.Generate Analyze.GroundedModel) 5))
    /\
    Analyze.ask_compeditors env company (Some tt) false w =
    (Ok (Analyze.Names []),
     Analyze.World (5 + Analyze.calls w)
       (Analyze.trace w ++
        Analyze.Called Analyze.AskCompeditors company ::
        repeat (Analyze.Generate Analyze.CompetitorLookup) 5)).
Proof.
  intros env company w Hf. split; [|split].
  - apply ask_about_article_failing. exact Hf.
  - apply data_grounded_gemini_failing. exact Hf.
  - apply ask_compeditors_failing. exact Hf.
Qed.

(** X10, when every call fails with an exception of another kind. *)
Lemma retry_sites_under_passing_failures_other :
  let env := Analyze.failing_model (F := B64.float) OtherException None in
  Analyze.is_transient (Analyze.generate env 0) = true /\
  Analyze.ask_compeditors env "Acme" (Some tt) false Analyze.start =
  (Ok (Analyze.Names []),
   Analyze.World 5
     [ Analyze.Called Analyze.AskCompeditors "Acme";
       Analyze.Generate Analyze.CompetitorLookup;
       Analyze.Generate Analyze.CompetitorLookup;
       Analyze.Generate Analyze.CompetitorLookup;
       Analyze.Generate Analyze.CompetitorLookup;
       Analyze.Generate Analyze.CompetitorLookup ]).
Proof.
  split; [reflexivity|].
  refine (proj2 (proj2 (retry_sites_under_passing_failures
                          (Analyze.failing_model OtherException None) "Acme"
                          Analyze.start _))).
  intros j Hj. reflexivity.
Defined.
(* ===================================================================== *)
(** * What a run adds to the trace *)
(* ===================================================================== *)

Lemma in_keys_set {V} (i k : string) (v : V) (d : dict V) :
  In i (keys (set k v d)) <-> i = k \/ In i (keys d).
Proof.
  induction d as [|[k' v'] rest IH]; simpl.
  - intuition.
  - destruct (String.eqb k' k) eqn:Ek; simpl.
    + apply String.eqb_eq in Ek. subst k'. intuition.
    + rewrite IH. intuition.
Qed.

Section PipelineTraces.
Context {F : Type} `{FloatOps F}.
Variable env : Analyze.outside (F := F).

(** The events that are allowed. *)
Variable ok : Analyze.event -> Prop.

(** A computation only appends allowed events to the trace, and counts
    its calls of the model. *)
Let appends {A : Type} (m : Analyze.M A) : Prop :=
  forall w, exists added,
    Analyze.trace (snd (m w)) = Analyze.trace w ++ added
    /\ Forall ok added
    /\ Analyze.calls (snd (m w)) =
       (Analyze.calls w + List.length (filter Analyze.is_generate added))%nat.

(** The model may be called and the run may sleep between its calls. *)
Let remote_ok : Prop :=
  (forall s, ok (Analyze.Generate s)) /\ (forall z, ok (Analyze.Sleep z)).

(** The pauses of the search for a company are allowed. *)
Let pauses_ok (company : string) : Prop :=
  forall p, In p (Analyze.pauses env company) -> ok (Analyze.pause_event p).

Lemma appends_still {A : Type} (m : Analyze.M A) :
  (forall w, snd (m w) = w) -> appends m.
Proof.
  intros Hm w. exists []. rewrite Hm, app_nil_r. simpl.
  rewrite Nat.add_0_r. repeat split. constructor.
Qed.

Lemma appends_ret {A : Type} (a : A) : appends (Analyze.ret a).
Proof. apply appends_still. reflexivity. Qed.

Lemma appends_raise {A : Type} (e : exn) : appends (Analyze.raise (A := A) e).
Proof. apply appends_still. reflexivity. Qed.

Lemma appends_lift {A : Type} (r : result A) : appends (Analyze.lift r).
Proof. apply appends_still. reflexivity. Qed.

Lemma appends_time_now : appends (Analyze.time_now env).
Proof. apply appends_still. reflexivity. Qed.

Lemma appends_bind {A B : Type} (m : Analyze.M A) (k : A -> Analyze.M B) :
  appends m -> (forall a, appends (k a)) -> appends (Analyze.bind m k).
Proof.
  intros Hm Hk w. unfold Analyze.bind.
  destruct (Hm w) as [added1 [Ht1 [Ho1 Hc1]]].
  destruct (m w) as [[a|e] w1]; simpl in *.
  - destruct (Hk a w1) as [added2 [Ht2 [Ho2 Hc2]]].
    exists (added1 ++ added2).
    rewrite Ht2, Ht1, Hc2, Hc1, app_assoc, filter_app, length_app.
    split; [reflexivity|]. split.
    + apply Forall_app. split; assumption.
    + symmetry. apply Nat.add_assoc.
  - exists added1. repeat split; assumption.
Qed.

Lemma appends_try {A : Type} (m : Analyze.M A) : appends m -> appends (Analyze.try m).
Proof.
  intros Hm w. unfold Analyze.try.
  destruct (Hm w) as [added [Ht [Ho Hc]]].
  destruct (m w) as [r w1]. exists added. repeat split; assumption.
Qed.

Lemma appends_log (e : Analyze.event) :
  ok e -> Analyze.is_generate e = false -> appends (Analyze.log e).
Proof.
  intros He Hg w. exists [e]. simpl. rewrite Hg. simpl.
  rewrite Nat.add_0_r. repeat split. constructor; [exact He | constructor].
Qed.

(** The pauses of the search are sleeps, and no call of the model. *)
Lemma appends_pauses (company : string) :
  pauses_ok company ->
  appends (Analyze.log_all (map Analyze.pause_event (Analyze.pauses env company))).
Proof.
  intros Hp w. exists (map Analyze.pause_event (Analyze.pauses env company)).
  simpl. split; [reflexivity|]. split.
  - apply Forall_forall. intros e He. apply in_map_iff in He.
    destruct He as [p [<- Hin]]. apply Hp. exact Hin.
  - assert (E : forall ps,
              filter Analyze.is_generate (map Analyze.pause_event ps) = []).
    { induction ps as [|p ps IH]; [reflexivity|].
      simpl. destruct p; exact IH. }
    rewrite E. simpl. symmetry. apply Nat.add_0_r.
Qed.

Lemma appends_generate_content (s : Analyze.site) (client : option unit) :
  client = None \/ remote_ok ->
  appends (Analyze.generate_content env client s).
Proof.
  intros [->|[Hg _]]; [apply appends_raise|].
  destruct client as [u|]; [|apply appends_raise].
  intros w. exists [Analyze.Generate s]. simpl.
  split; [reflexivity|]. split.
  - constructor; [apply Hg | constructor].
  - rewrite Nat.add_1_r. reflexivity.
Qed.

(** Without a client the three loops leave the world as it is. *)
Lemma ask_about_article_attempts_no_client (attempts : list Z) :
  forall response w,
    snd (Analyze.ask_about_article_attempts env None attempts response w) = w.
Proof.
  induction attempts as [|attempt rest IH]; intros response w; simpl.
  - reflexivity.
  - unfold Analyze.bind, Analyze.try, Analyze.raise. simpl.
    destruct (attempt =? 4); [reflexivity | apply IH].
Qed.

Lemma data_grounded_gemini_attempts_no_client (attempts : list Z) :
  forall w, snd (Analyze.data_grounded_gemini_attempts env None attempts w) = w.
Proof.
  induction attempts as [|attempt rest IH]; intros w; simpl.
  - reflexivity.
  - unfold Analyze.bind, Analyze.try, Analyze.raise. simpl.
    destruct (attempt =? 4); [reflexivity | apply IH].
Qed.

Lemma ask_compeditors_attempts_no_client (attempts : list Z) :
  forall w, snd (Analyze.ask_compeditors_attempts env None attempts w) = w.
Proof.
  induction attempts as [|attempt rest IH]; intros w; simpl.
  - reflexivity.
  - unfold Analyze.bind, Analyze.try, Analyze.raise. simpl. apply IH.
Qed.

Ltac appends_step :=
  first
    [ apply appends_ret
    | apply appends_raise
    | apply appends_lift
    | apply appends_time_now
    | apply appends_generate_content; right; assumption
    | apply appends_try
    | apply appends_log; [first [assumption | solve [auto]] | reflexivity]
    | apply appends_bind; [|intros ?]
    | match goal with
      | |- appends (match ?x with _ => _ end) => destruct x
      | |- appends (if ?b then _ else _) => destruct b
      end ].

Lemma appends_ask_about_article_attempts (client : option unit) (attempts : list Z) :
  client = None \/ remote_ok ->
  forall response,
    appends (Analyze.ask_about_article_attempts env client attempts response).
Proof.
  intros [->|Hr] response.
  - apply appends_still. apply ask_about_article_attempts_no_client.
  - revert response. pose proof (proj2 Hr) as Hsleep.
    induction attempts as [|attempt rest IH]; intros response; simpl.
    + apply appends_ret.
    + apply appends_bind; [apply appends_try, appends_generate_content; right; exact Hr|].
      intros [r|e]; [apply IH|].
      destruct e; repeat first [apply IH | unfold Analyze.sleep; appends_step].
Qed.

Lemma appends_ask_about_article (client : option unit) :
  client = None \/ remote_ok -> appends (Analyze.ask_about_article env client).
Proof.
  intros Hc. unfold Analyze.ask_about_article.
  apply appends_bind; [apply appends_ask_about_article_attempts; exact Hc|].
  intros a. repeat appends_step.
Qed.

Lemma appends_data_grounded_gemini_attempts (client : option unit) (attempts : list Z) :
  client = None \/ remote_ok ->
  appends (Analyze.data_grounded_gemini_attempts env client attempts).
Proof.
  intros [->|Hr].
  - apply appends_still. apply data_grounded_gemini_attempts_no_client.
  - pose proof (proj2 Hr) as Hsleep.
    induction attempts as [|attempt rest IH]; simpl.
    + apply appends_ret.
    + apply appends_bind; [repeat appends_step|].
      intros [r|e]; [apply appends_ret|].
      destruct e; repeat first [apply IH | unfold Analyze.sleep; appends_step].
Qed.

Lemma appends_ask_compeditors_attempts (client : option unit) (attempts : list Z) :
  client = None \/ remote_ok ->
  appends (Analyze.ask_compeditors_attempts env client attempts).
Proof.
  intros [->|Hr].
  - apply appends_still. apply ask_compeditors_attempts_no_client.
  - pose proof (proj2 Hr) as Hsleep.
    induction attempts as [|attempt rest IH]; simpl.
    + apply appends_ret.
    + apply appends_bind; [repeat appends_step|].
      intros [r|e]; [apply appends_ret|].
      destruct e; repeat first [apply IH | unfold Analyze.sleep; appends_step].
Qed.

Lemma appends_score_articles (client : option unit)
    (responses : list (string * list string)) :
  client = None \/ remote_ok ->
  forall datasets, appends (Analyze.score_articles env client responses datasets).
Proof.
  intros Hc.
  induction responses as [|[issue_id articles] rest IH]; intros datasets; simpl.
  - apply appends_ret.
  - destruct articles; [apply IH|].
    apply appends_bind; [apply appends_ask_about_article; exact Hc|].
    intros a. apply IH.
Qed.

(** The analysis of one company: its four sources are announced; outside
    test mode the search makes its pauses; and the model is reached only
    outside test mode and with a client. *)
Lemma appends_analyze_company (company : string) (client : option unit)
    (test_mode : bool) :
  (forall s, ok (Analyze.Called s company)) ->
  (test_mode = false -> pauses_ok company) ->
  test_mode = true \/ client = None \/ remote_ok ->
  appends (Analyze.analyze_company env company client test_mode).
Proof.
  intros Hcall Hpauses Hmode.
  unfold Analyze.analyze_company, Analyze.data_google, Analyze.data_fmp,
    Analyze.data_grounded_gemini, Analyze.ask_compeditors.
  destruct test_mode.
  - repeat first [apply appends_log; [apply Hcall | reflexivity] | appends_step].
  - assert (Hc : client = None \/ remote_ok)
      by (destruct Hmode as [Hm|Hm]; [discriminate Hm | exact Hm]).
    repeat first
      [ apply appends_score_articles; exact Hc
      | apply appends_data_grounded_gemini_attempts; exact Hc
      | apply appends_ask_compeditors_attempts; exact Hc
      | apply appends_pauses; apply Hpauses; reflexivity
      | apply appends_log; [apply Hcall | reflexivity]
      | appends_step ].
Qed.

Lemma appends_analyze_loop (companies : list string) (client : option unit)
    (test_mode : bool) (skip_company : string -> bool) :
  (forall e, Analyze.is_generate e = false -> Analyze.is_sleep e = false -> ok e) ->
  (test_mode = false ->
   forall company,
     In company companies ->
     skip_company (Analyze.string_standard_formatting company) = false ->
     pauses_ok company) ->
  test_mode = true \/ client = None \/ remote_ok ->
  forall all_company_data,
    appends (Analyze.analyze_loop env companies client test_mode skip_company
               all_company_data).
Proof.
  intros Hok Hpauses Hmode.
  induction companies as [|company rest IH]; intros all_company_data; simpl.
  - apply appends_ret.
  - assert (IH' := IH (fun Ht c Hc => Hpauses Ht c (or_intror Hc))).
    destruct (skip_company (Analyze.string_standard_formatting company)) eqn:Es.
    + apply appends_bind; [apply appends_log; [apply Hok|]; reflexivity|].
      intros _. apply IH'.
    + apply appends_bind.
      * apply appends_analyze_company; [| |exact Hmode].
        -- intros s. apply Hok; reflexivity.
        -- intros Ht. apply (Hpauses Ht company); [left; reflexivity | exact Es].
      * intros [output_data|]; [|apply IH'].
        apply appends_bind; [apply appends_log; [apply Hok|]; reflexivity|].
        intros _. apply IH'.
Qed.

End PipelineTraces.

Lemma no_generate_among (added : list Analyze.event) :
  Forall (fun e => Analyze.is_generate e = false) added ->
  filter Analyze.is_generate added = [].
Proof.
  induction 1 as [|e added He _ IH]; simpl.
  - reflexivity.
  - rewrite He. exact IH.
Qed.

Section Records.
Context {F : Type} `{FloatOps F}.
Variable env : Analyze.outside (F := F).

(** A record is built for the company analysed, from metrics that are
    not empty. *)
Lemma analyze_company_record (company : string) (client : option unit)
    (test_mode : bool) (w : Analyze.world) (record : Analyze.company_data) :
  fst (Analyze.analyze_company env company client test_mode w) = Ok (Some record) ->
  Analyze.full_name record = company /\ truthy (Analyze.metrics record) = true.
Proof.
  unfold Analyze.analyze_company, Analyze.bind.
  destruct (Analyze.data_google env company client test_mode w)
    as [[[[google_data sources]|]|e] w1]; simpl; try discriminate.
  destruct (Analyze.data_fmp env company test_mode w1) as [[fmp_data|e] w2];
    simpl; try discriminate.
  destruct (Analyze.data_grounded_gemini env company client test_mode w2)
    as [[[gemini_response|]|e] w3]; simpl; try discriminate.
  unfold Analyze.lift.
  destruct (Analyze.aggregate_metrics [google_data; fmp_data; gemini_response])
    as [metrics|e]; simpl; try discriminate.
  destruct (Analyze.ask_compeditors env company client test_mode w3)
    as [[competitors|e] w4]; simpl; try discriminate.
  destruct (truthy metrics) eqn:Et; simpl; try discriminate.
  intros E. inversion E; subst. simpl. split; [reflexivity | exact Et].
Qed.

(** The analysis of a company never hands anything to [add_data]. *)
Lemma analyze_company_adds_no_data (company : string) (client : option unit)
    (test_mode : bool) (w : Analyze.world) :
  exists added,
    Analyze.trace (snd (Analyze.analyze_company env company client test_mode w)) =
    Analyze.trace w ++ added
    /\ forallb (fun e => negb (Analyze.is_add_data e)) added = true.
Proof.
  destruct (@appends_analyze_company F _ env (fun e => Analyze.is_add_data e = false)
              company client test_mode) with (w := w) as [added [Ht [Ho _]]].
  - reflexivity.
  - intros _ p _. destruct p; reflexivity.
  - right. right. split; reflexivity.
  - exists added. split; [exact Ht|].
    apply forallb_forall. intros e He. rewrite Forall_forall in Ho.
    rewrite (Ho e He). reflexivity.
Qed.

Lemma no_add_data_among (key : string) (added : list Analyze.event) :
  forallb (fun e => negb (Analyze.is_add_data e)) added = true ->
  ~ In (Analyze.AddData key) added.
Proof.
  intros Ha Hin. rewrite forallb_forall in Ha. specialize (Ha _ Hin). discriminate Ha.
Qed.

(** The loop files a record for a company exactly when it hands it to
    [add_data], under the formatted name, and only for companies of the
    list that are not skipped. *)
Lemma analyze_loop_records (companies : list string) (client : option unit)
    (test_mode : bool) (skip_company : string -> bool) :
  forall all_company_data w d,
    fst (Analyze.analyze_loop env companies client test_mode skip_company
           all_company_data w) = Ok d ->
    exists added,
      Analyze.trace
        (snd (Analyze.analyze_loop env companies client test_mode skip_company
                all_company_data w)) = Analyze.trace w ++ added
      /\ (forall key,
            In key (keys d) <->
            In key (keys all_company_data) \/ In (Analyze.AddData key) added)
      /\ (forall key record,
            get key d = Some record ->
            get key all_company_data = Some record
            \/ (key = Analyze.string_standard_formatting (Analyze.full_name record)
                /\ In (Analyze.full_name record) companies
                /\ skip_company key = false
                /\ truthy (Analyze.metrics record) = true)).
Proof.
  induction companies as [|company rest IH]; intros all_company_data w d; simpl.
  - intros Hd. inversion Hd; subst. exists []. rewrite app_nil_r.
    split; [reflexivity|]. split.
    + intros key. simpl. tauto.
    + intros key record Hg. left. exact Hg.
  - destruct (skip_company (Analyze.string_standard_formatting company)) eqn:Es.
    + unfold Analyze.bind, Analyze.log. simpl. intros Hd.
      destruct (IH _ _ _ Hd) as [added [Ht [Hk Hr]]].
      exists (Analyze.Skipped company :: added). rewrite Ht. simpl.
      rewrite <- app_assoc. split; [reflexivity|]. split.
      * intros key. rewrite Hk. simpl. intuition discriminate.
      * intros key record Hg. destruct (Hr key record Hg) as [Ha|Ha]; [left; exact Ha|].
        right. simpl. tauto.
    + unfold Analyze.bind.
      destruct (analyze_company_adds_no_data company client test_mode w)
        as [added1 [Ht1 Ho1]].
      pose proof (analyze_company_record company client test_mode w) as Hrec.
      destruct (Analyze.analyze_company env company client test_mode w)
        as [[[output_data|]|e] w1]; simpl in *; try discriminate.
      * unfold Analyze.log. simpl. intros Hd.
        destruct (IH _ _ _ Hd) as [added [Ht [Hk Hr]]].
        destruct (Hrec output_data eq_refl) as [Hname Hmetrics].
        exists (added1 ++ Analyze.AddData (Analyze.string_standard_formatting company) :: added).
        rewrite Ht. simpl. rewrite Ht1, <- !app_assoc. split; [reflexivity|]. split.
        -- intros key. rewrite Hk, in_keys_set, in_app_iff. simpl.
           pose proof (no_add_data_among key added1 Ho1) as Hno.
           split.
           ++ intros [[->|Ha]|Ha]; auto.
           ++ intros [Ha|[Ha|[Ha|Ha]]]; auto; [contradiction|].
              inversion Ha; subst. auto.
        -- intros key record Hg. destruct (Hr key record Hg) as [Ha|Ha].
           ++ rewrite get_set in Ha.
              destruct (String.eqb (Analyze.string_standard_formatting company) key) eqn:Ek.
              ** apply String.eqb_eq in Ek. inversion Ha; subst. right.
                 repeat split; auto.
              ** left. exact Ha.
           ++ right. simpl. tauto.
      * intros Hd.
        destruct (IH _ _ _ Hd) as [added [Ht [Hk Hr]]].
        exists (added1 ++ added). rewrite Ht, Ht1, <- app_assoc.
        split; [reflexivity|]. split.
        -- intros key. rewrite Hk, in_app_iff.
           pose proof (no_add_data_among key added1 Ho1) as Hno. tauto.
        -- intros key record Hg. destruct (Hr key record Hg) as [Ha|Ha]; [left; exact Ha|].
           right. simpl. tauto.
Qed.

End Records.

(** X11.  In test mode, and also when the keys name no Vertex AI project
    (there is no client then), [analyze_companies] never calls the model,
    whatever the companies and the outside world.  In test mode it never
    sleeps either.  Outside test mode it sleeps only in the search of
    [data_google]: every sleep of the run is a pause of the search for a
    company of the list that the skip predicate let through.  The other
    events of the run are the announcements of the sources, the skips and
    the records handed to [add_data]. *)
Theorem analyze_companies_stays_offline :
  forall (env : Analyze.outside (F := B64.float)) (companies : list string)
         (keys : dict string) (test_mode : bool) (skip_company : string -> bool)
         (w : Analyze.world),
    test_mode || negb (mem "vertexai_project_name" keys) = true ->
    let out := Analyze.analyze_companies env companies keys test_mode skip_company w in
    Analyze.calls (snd out) = Analyze.calls w
    /\ exists added,
         Analyze.trace (snd out) = Analyze.trace w ++ added
         /\ forallb (fun e => negb (Analyze.is_generate e)) added = true
         /\ (test_mode = true ->
             forallb (fun e => negb (Analyze.is_sleep e)) added = true)
         /\ (forall e,
               In e added -> Analyze.is_sleep e = true ->
               exists company,
                 In company companies
                 /\ skip_company (Analyze.string_standard_formatting company) = false
                 /\ In e (map Analyze.pause_event (Analyze.pauses env company))).
Proof.
  intros env companies keys test_mode skip_company w Hmode out.
  destruct (@appends_analyze_loop _ _ env
              (fun e =>
                 Analyze.is_generate e = false
                 /\ (Analyze.is_sleep e = true ->
                     test_mode = false
                     /\ exists company,
                          In company companies
                          /\ skip_company (Analyze.string_standard_formatting company) =
                             false
                          /\ In e (map Analyze.pause_event (Analyze.pauses env company))))
              companies
              (if mem "vertexai_project_name" keys then Some tt else None)
              test_mode skip_company) with (all_company_data := @nil (string * Analyze.company_data (F := B64.float))) (w := w)
    as [added [Ht [Ho Hc]]].
  - intros e Hg Hs. split; [exact Hg|]. intros Hs'. congruence.
  - intros Htest company Hin Hskip p Hp. split.
    + destruct p; reflexivity.
    + intros _. split; [exact Htest|]. exists company.
      split; [exact Hin|]. split; [exact Hskip|].
      apply in_map. exact Hp.
  - destruct test_mode; [left; reflexivity|]. right. left.
    simpl in Hmode. apply negb_true_iff in Hmode. rewrite Hmode. reflexivity.
  - rewrite Forall_forall in Ho. split.
    + unfold out, Analyze.analyze_companies. rewrite Hc.
      rewrite no_generate_among
        by (apply Forall_forall; intros e He; exact (proj1 (Ho e He))).
      simpl. apply Nat.add_0_r.
    + exists added. split; [exact Ht|]. split; [|split].
      * apply forallb_forall. intros e He. rewrite (proj1 (Ho e He)). reflexivity.
      * intros Htest. apply forallb_forall. intros e He.
        destruct (Analyze.is_sleep e) eqn:Es; [|reflexivity].
        destruct (proj2 (Ho e He) Es) as [Hfalse _]. congruence.
      * intros e He Hs. exact (proj2 (proj2 (Ho e He) Hs)).
Qed.

(** X11, on a run without any key over two companies, outside test
    mode, in a world where the search for Tesla waits 20 seconds once: that
    wait is the only sleep of the run. *)
Lemma analyze_companies_stays_offline_no_keys :
  let env :=
    Analyze.Outside (F := B64.float) (fun _ => Analyze.Fails OtherException)
      (fun _ => Ok ([], [])) (fun _ => None) (fun _ => 0)
      (fun company => if String.eqb company "Tesla" then [Analyze.Reload] else []) in
  let out :=
    Analyze.analyze_companies env ["Tesla"; "Temu"] [] false (fun _ => false)
      Analyze.start in
  false || negb (mem "vertexai_project_name" ([] : dict string)) = true /\
  filter Analyze.is_sleep (Analyze.trace (snd out)) = [Analyze.Sleep 20] /\
  Analyze.calls (snd out) = 0%nat /\
  exists added,
    Analyze.trace (snd out) = [] ++ added
    /\ forallb (fun e => negb (Analyze.is_generate e)) added = true
    /\ (false = true -> forallb (fun e => negb (Analyze.is_sleep e)) added = true)
    /\ (forall e,
          In e added -> Analyze.is_sleep e = true ->
          exists company,
            In company ["Tesla"; "Temu"]
            /\ false = false
            /\ In e (map Analyze.pause_event (Analyze.pauses env company))).
Proof.
  split; [reflexivity|]. split; [reflexivity|].
  exact (analyze_companies_stays_offline
           (Analyze.Outside (F := B64.float) (fun _ => Analyze.Fails OtherException)
              (fun _ => Ok ([], [])) (fun _ => None) (fun _ => 0)
              (fun company => if String.eqb company "Tesla" then [Analyze.Reload] else []))
           ["Tesla"; "Temu"] [] false (fun _ => false) Analyze.start eq_refl).
Defined.

(** X12.  What [analyze_companies] returns and what it hands to
    [add_data] agree: a name is a key of the result exactly when [add_data]
    was called with it.  Every record is filed under the formatted full
    name it carries, which is the name of a company of the list that the
    skip predicate let through, and its metrics are not empty. *)
Theorem analyze_companies_records :
  forall (env : Analyze.outside (F := B64.float)) (companies : list string)
         (keys : dict string) (test_mode : bool) (skip_company : string -> bool)
         (w : Analyze.world) (d : dict Analyze.company_data),
    let out := Analyze.analyze_companies env companies keys test_mode skip_company w in
    fst out = Ok d ->
    exists added,
      Analyze.trace (snd out) = Analyze.trace w ++ added
      /\ (forall key, In key (Dict.keys d) <-> In (Analyze.AddData key) added)
      /\ (forall key record,
            get key d = Some record ->
            key = Analyze.string_standard_formatting (Analyze.full_name record)
            /\ In (Analyze.full_name record) companies
            /\ skip_company key = false
            /\ truthy (Analyze.metrics record) = true).
Proof.
  intros env companies keys test_mode skip_company w d out Hd.
  destruct (analyze_loop_records env companies _ test_mode skip_company [] w Hd)
    as [added [Ht [Hk Hr]]].
  exists added. split; [exact Ht|]. split.
  - intros key. rewrite Hk. simpl. tauto.
  - intros key record Hg. destruct (Hr key record Hg) as [Ha|Ha]; [discriminate Ha | exact Ha].
Qed.

(** X12, on a test-mode run over "Tesla" and "TESLA, Inc.", the second
    of which is skipped: there is one record, under "tesla". *)
Lemma analyze_companies_records_tesla :
  let env := Analyze.failing_model (F := B64.float) OtherException None in
  let out :=
    Analyze.analyze_companies env ["Tesla"; "TESLA, Inc."] [] true
      (fun name => String.eqb name "teslainc" || String.eqb name "") Analyze.start in
  exists d,
    fst out = Ok d
    /\ Dict.keys d = ["tesla"]
    /\ exists added,
         Analyze.trace (snd out) = [] ++ added
         /\ (forall key, In key (Dict.keys d) <-> In (Analyze.AddData key) added)
         /\ (forall key record,
               get key d = Some record ->
               key = Analyze.string_standard_formatting (Analyze.full_name record)
               /\ In (Analyze.full_name record) ["Tesla"; "TESLA, Inc."]
               /\ (String.eqb key "teslainc" || String.eqb key "") = false
               /\ truthy (Analyze.metrics record) = true).
Proof.
  eexists. split; [vm_compute; reflexivity|]. split; [reflexivity|].
  apply (analyze_companies_records
           (Analyze.failing_model (F := B64.float) OtherException None)
           ["Tesla"; "TESLA, Inc."] [] true
           (fun name => String.eqb name "teslainc" || String.eqb name "")
           Analyze.start).
  vm_compute. reflexivity.
Defined.
(* ===================================================================== *)
(** * Runs that do not reach the model *)
(* ===================================================================== *)

Section Offline.
Context {F : Type} `{FloatOps F}.
Variable env : Analyze.outside (F := F).

(** Bundles that are all empty aggregate to the empty mapping. *)
Lemma aggregate_metrics_empty_bundles (n : nat) :
  Analyze.aggregate_metrics (F := F) (repeat [] n) = Ok [].
Proof.
  unfold Analyze.aggregate_metrics, aggregate_with.
  induction n as [|n IH]; simpl; [reflexivity | exact IH].
Qed.

(** Without a client, article scoring answers the empty mapping for every
    issue that has articles. *)
Lemma score_articles_no_client (responses : list (string * list string)) :
  forall datasets w,
    exists n,
      Analyze.score_articles env None responses datasets w =
      (Ok (datasets ++ repeat [] n), w).
Proof.
  induction responses as [|[issue_id articles] rest IH]; intros datasets w; simpl.
  - exists 0%nat. simpl. rewrite app_nil_r. reflexivity.
  - destruct articles as [|article articles]; [apply IH|].
    unfold Analyze.bind.
    change (Analyze.ask_about_article env None w) with (Ok ([] : bundle F), w).
    cbv iota beta.
    match goal with
    | |- context [Analyze.score_articles env None rest ?d w] =>
        destruct (IH d w) as [n Hn]
    end.
    exists (S n). rewrite Hn, <- app_assoc. reflexivity.
Qed.

(** When no issue has an article, no article is scored. *)
Lemma score_articles_no_articles (client : option unit)
    (responses : list (string * list string)) :
  forallb (fun found => match snd found with [] => true | _ => false end) responses = true ->
  forall datasets w,
    Analyze.score_articles env client responses datasets w = (Ok datasets, w).
Proof.
  induction responses as [|[issue_id articles] rest IH]; simpl; intros Hall datasets w.
  - reflexivity.
  - destruct articles; [|discriminate Hall]. apply IH. exact Hall.
Qed.

Lemma data_google_no_client (company : string) (w : Analyze.world)
    (found : list (string * list string) * list string) :
  Analyze.search env company = Ok found ->
  Analyze.data_google env company None false w =
  (Ok (Some ([], snd found)),
   Analyze.World (Analyze.calls w)
     (Analyze.trace w ++
      Analyze.Called Analyze.DataGoogle company ::
      map Analyze.pause_event (Analyze.pauses env company))).
Proof.
  intros Hs.
  unfold Analyze.data_google, Analyze.bind, Analyze.log, Analyze.log_all, Analyze.lift.
  cbv iota beta. rewrite Hs. cbn [Analyze.calls Analyze.trace].
  rewrite <- app_assoc. cbn [app].
  match goal with
  | |- context [Analyze.score_articles env None (fst found) [] ?w0] =>
      destruct (score_articles_no_client (fst found) [] w0) as [n Hn]; rewrite Hn
  end.
  simpl. rewrite aggregate_metrics_empty_bundles. reflexivity.
Qed.

End Offline.

(** The analysis of a company in test mode. *)
Lemma analyze_company_on_test_data :
  forall (env : Analyze.outside (F := B64.float)) (client : option unit)
         (c : ascii) (rest : string) (w : Analyze.world),
    let company := String c rest in
    let called :=
      Analyze.trace w ++
      [ Analyze.Called Analyze.DataGoogle company;
        Analyze.Called Analyze.DataFmp company;
        Analyze.Called Analyze.DataGroundedGemini company;
        Analyze.Called Analyze.AskCompeditors company ] in
    let metrics :=
      [ ("DEI_L", PyList [PyFloat (B64.of_Z 100); PyFloat (B64.dec 475 1)]);
        ("DEI_H", PyList [PyFloat (B64.of_Z 110); PyFloat (B64.dec 52727 3)]);
        ("QUEER", PyList [PyFloat (B64.of_Z 120); PyFloat (B64.dec 525 1)]);
        ("BIPOC", PyList [PyFloat (B64.of_Z 130); PyFloat (B64.dec 55769 3)]);
        ("PAY", PyList [PyFloat (B64.of_Z 190); PyFloat (B64.dec 61316 3)]);
        ("ENV", PyList [PyFloat (B64.of_Z 130); PyFloat (B64.dec 78846 3)]) ] in
    Analyze.analyze_company env company client true w =
    (Ok (Some (Analyze.CompanyData metrics company
                 (Analyze.get_test_competitors company) []
                 (Analyze.clock env called))),
     Analyze.World (Analyze.calls w) called)
    /\
    Analyze.analyze_company env "" client true w =
    (Raise KeyError,
     Analyze.World (Analyze.calls w)
       (Analyze.trace w ++ [Analyze.Called Analyze.DataGoogle ""])).
Proof.
  intros env client c rest w company called metrics. split; [|reflexivity].
  unfold Analyze.analyze_company, Analyze.data_google, Analyze.data_fmp,
    Analyze.data_grounded_gemini, Analyze.ask_compeditors, Analyze.bind,
    Analyze.log, Analyze.ret, Analyze.lift, Analyze.time_now.
  cbn [Analyze.get_test_google_data Analyze.get_test_gemini_response
       Analyze.calls Analyze.trace company].
  match goal with
  | |- context [Analyze.aggregate_metrics ?l] =>
      replace (Analyze.aggregate_metrics l) with (Ok metrics)
        by (vm_compute; reflexivity)
  end.
  cbv iota beta. unfold metrics at 1. cbn [truthy].
  unfold called. rewrite <- !app_assoc. reflexivity.
Qed.

(** X13.  In test mode the analysis of a company does not depend on the
    outside world: whatever the name, as long as it is not empty, the four
    sources are announced in order and the record carries the same metrics,
    the aggregate of the three bundles of test data, the test competitors
    and no source link.  On the empty name the test data of [data_google]
    is [{}], and reading its ["data"] raises [KeyError]. *)
Theorem analyze_company_test_mode :
  forall (env : Analyze.outside (F := B64.float)) (client : option unit)
         (c : ascii) (rest : string) (w : Analyze.world),
    let company := String c rest in
    let called :=
      Analyze.trace w ++
      [ Analyze.Called Analyze.DataGoogle company;
        Analyze.Called Analyze.DataFmp company;
        Analyze.Called Analyze.DataGroundedGemini company;
        Analyze.Called Analyze.AskCompeditors company ] in
    let metrics :=
      [ ("DEI_L", PyList [PyFloat (B64.of_Z 100); PyFloat (B64.dec 475 1)]);
        ("DEI_H", PyList [PyFloat (B64.of_Z 110); PyFloat (B64.dec 52727 3)]);
        ("QUEER", PyList [PyFloat (B64.of_Z 120); PyFloat (B64.dec 525 1)]);
        ("BIPOC", PyList [PyFloat (B64.of_Z 130); PyFloat (B64.dec 55769 3)]);
        ("PAY", PyList [PyFloat (B64.of_Z 190); PyFloat (B64.dec 61316 3)]);
        ("ENV", PyList [PyFloat (B64.of_Z 130); PyFloat (B64.dec 78846 3)]) ] in
    Analyze.analyze_company env company client true w =
    (Ok (Some (Analyze.CompanyData metrics company
                 (Analyze.get_test_competitors company) []
                 (Analyze.clock env called))),
     Analyze.World (Analyze.calls w) called)
    /\
    Analyze.analyze_company env "" client true w =
    (Raise KeyError,
     Analyze.World (Analyze.calls w)
       (Analyze.trace w ++ [Analyze.Called Analyze.DataGoogle ""])).
Proof.
  intros env client c rest w. exact (analyze_company_on_test_data env client c rest w).
Qed.

(** X14.  Two names with the same formatted name share one record: in a
    test-mode run over the two, both are analysed and both records are
    handed to [add_data] under the same key, and what is returned holds the
    record of the second alone. *)
Theorem analyze_companies_same_formatted_name :
  forall (env : Analyze.outside (F := B64.float)) (keys : dict string)
         (c1 c2 : ascii) (rest1 rest2 : string),
    let first := String c1 rest1 in
    let second := String c2 rest2 in
    Analyze.string_standard_formatting first =
    Analyze.string_standard_formatting second ->
    let out :=
      Analyze.analyze_companies env [first; second] keys true (fun _ => false)
        Analyze.start in
    exists record,
      fst out = Ok [(Analyze.string_standard_formatting second, record)]
      /\ Analyze.full_name record = second
      /\ filter Analyze.is_add_data (Analyze.trace (snd out)) =
         [ Analyze.AddData (Analyze.string_standard_formatting second);
           Analyze.AddData (Analyze.string_standard_formatting second) ].
Proof.
  intros env keys c1 c2 rest1 rest2 first second Hsame out.
  subst first second. unfold out, Analyze.analyze_companies.
  generalize (if mem "vertexai_project_name" keys then Some tt else None : option unit).
  intros client.
  assert (Hrun : exists record w',
    Analyze.analyze_loop env [String c1 rest1; String c2 rest2] client true
      (fun _ => false) [] Analyze.start =
    (Ok [(Analyze.string_standard_formatting (String c2 rest2), record)], w')
    /\ Analyze.full_name record = String c2 rest2
    /\ filter Analyze.is_add_data (Analyze.trace w') =
       [ Analyze.AddData (Analyze.string_standard_formatting (String c2 rest2));
         Analyze.AddData (Analyze.string_standard_formatting (String c2 rest2)) ]).
  { cbn [Analyze.analyze_loop]. unfold Analyze.bind at 1.
    rewrite (proj1 (analyze_company_on_test_data env client c1 rest1 Analyze.start)).
    cbv iota beta. unfold Analyze.bind at 1. unfold Analyze.log at 1. cbv iota beta.
    unfold Analyze.bind at 1.
    match goal with
    | |- context [Analyze.analyze_company env (String c2 rest2) client true ?w1] =>
        rewrite (proj1 (analyze_company_on_test_data env client c2 rest2 w1))
    end.
    cbv iota beta. unfold Analyze.bind, Analyze.log, Analyze.ret. cbv iota beta.
    rewrite Hsame.
    eexists. eexists. split; [|split].
    - cbn [set]. rewrite String.eqb_refl. reflexivity.
    - reflexivity.
    - reflexivity. }
  destruct Hrun as [record [w' [Hrun [Hname Hadd]]]].
  rewrite Hrun. exists record. repeat split; assumption.
Qed.

(** X14, on "Tesla" and "TESLA". *)
Lemma analyze_companies_same_formatted_name_tesla :
  let env := Analyze.failing_model (F := B64.float) OtherException None in
  let out :=
    Analyze.analyze_companies env ["Tesla"; "TESLA"] [] true (fun _ => false)
      Analyze.start in
  Analyze.string_standard_formatting "Tesla" = Analyze.string_standard_formatting "TESLA" /\
  exists record,
    fst out = Ok [(Analyze.string_standard_formatting "TESLA", record)]
    /\ Analyze.full_name record = "TESLA"
    /\ filter Analyze.is_add_data (Analyze.trace (snd out)) =
       [ Analyze.AddData (Analyze.string_standard_formatting "TESLA");
         Analyze.AddData (Analyze.string_standard_formatting "TESLA") ].
Proof.
  split; [reflexivity|].
  exact (analyze_companies_same_formatted_name
           (Analyze.failing_model (F := B64.float) OtherException None) []
           "T" "T" "esla" "ESLA" eq_refl).
Defined.

(** X15.  Without a Vertex AI project in the keys, and outside test
    mode, a company is analysed from the financial endpoint alone: the
    search still runs, with its pauses, and gives the source links, but
    article scoring, the
    grounded model and the competitor lookup each give up at once, with no
    call and no sleep, so the metrics are those of [data_fmp] and the
    competitors are the empty list. *)
Theorem analyze_company_without_client :
  forall (env : Analyze.outside (F := B64.float)) (company : string)
         (w : Analyze.world) (found : list (string * list string) * list string),
    Analyze.search env company = Ok found ->
    let fmp_data : bundle B64.float :=
      match Analyze.esg env company with
      | Some (environmentalScore, socialScore) =>
          [ ("ENV", PyList [PyInt 100; environmentalScore]);
            ("PAY", PyList [PyInt 50; socialScore]) ]
      | None => []
      end in
    let called :=
      Analyze.trace w ++
      Analyze.Called Analyze.DataGoogle company ::
      map Analyze.pause_event (Analyze.pauses env company) ++
      [ Analyze.Called Analyze.DataFmp company;
        Analyze.Called Analyze.DataGroundedGemini company ] in
    Analyze.analyze_company env company None false w =
    match Analyze.aggregate_metrics [[]; fmp_data; []] with
    | Ok metrics =>
        let called := called ++ [Analyze.Called Analyze.AskCompeditors company] in
        (Ok (if truthy metrics
             then Some (Analyze.CompanyData metrics company (Analyze.Names [])
                          (snd found) (Analyze.clock env called))
             else None),
         Analyze.World (Analyze.calls w) called)
    | Raise e => (Raise e, Analyze.World (Analyze.calls w) called)
    end.
Proof.
  intros env company w found Hs fmp_data called. subst fmp_data.
  set (aggregated := Analyze.aggregate_metrics _).
  unfold Analyze.analyze_company. unfold Analyze.bind at 1.
  rewrite (data_google_no_client env company w Hs). cbv iota beta.
  unfold Analyze.bind at 1. rewrite data_fmp_returns. cbv iota beta.
  unfold Analyze.data_grounded_gemini, Analyze.ask_compeditors, Analyze.bind,
    Analyze.log, Analyze.ret, Analyze.lift, Analyze.time_now.
  cbv iota beta.
  match goal with
  | |- context [Analyze.data_grounded_gemini_attempts env None Analyze.range5 ?w0] =>
      change (Analyze.data_grounded_gemini_attempts env None Analyze.range5 w0)
        with (Ok (Some ([] : bundle B64.float)), w0)
  end.
  cbv iota beta.
  match goal with
  | |- context [Analyze.aggregate_metrics ?l] =>
      change (Analyze.aggregate_metrics l) with aggregated
  end.
  clearbody aggregated. destruct aggregated as [metrics|e].
  - match goal with
    | |- context [Analyze.ask_compeditors_attempts env None Analyze.range5 ?w0] =>
        change (Analyze.ask_compeditors_attempts env None Analyze.range5 w0)
          with (Ok (@None Analyze.competitors), w0)
    end.
    cbv iota beta. cbn [Analyze.calls Analyze.trace]. unfold called.
    repeat (rewrite <- app_assoc || rewrite <- app_comm_cons). cbn [app].
    destruct (truthy metrics); reflexivity.
  - cbn [Analyze.calls Analyze.trace]. unfold called.
    repeat (rewrite <- app_assoc || rewrite <- app_comm_cons). reflexivity.
Qed.

(** X15, for a company with scores of 72 and 64 at the financial
    endpoint. *)
Lemma analyze_company_without_client_acme :
  let env : Analyze.outside (F := B64.float) :=
    Analyze.Outside (fun _ => Analyze.Fails OtherException)
      (fun _ => Ok ([("ENV", ["an article"])], ["https://example.org/a"]))
      (fun _ => Some (PyInt 72, PyInt 64)) (fun _ => 1700000000)
      (fun _ => [Analyze.Reload]) in
  Analyze.search env "Acme" = Ok ([("ENV", ["an article"])], ["https://example.org/a"]) /\
  Analyze.analyze_company env "Acme" None false Analyze.start =
  (Ok (Some (Analyze.CompanyData
               [ ("ENV", PyList [PyFloat (B64.of_Z 100); PyFloat (B64.of_Z 72)]);
                 ("PAY", PyList [PyFloat (B64.of_Z 50); PyFloat (B64.of_Z 64)]) ]
               "Acme" (Analyze.Names []) ["https://example.org/a"] 1700000000)),
   Analyze.World 0
     [ Analyze.Called Analyze.DataGoogle "Acme";
       Analyze.Sleep 20;
       Analyze.Called Analyze.DataFmp "Acme";
       Analyze.Called Analyze.DataGroundedGemini "Acme";
       Analyze.Called Analyze.AskCompeditors "Acme" ]).
Proof.
  split; [reflexivity|].
  exact (analyze_company_without_client
           (Analyze.Outside (fun _ => Analyze.Fails OtherException)
              (fun _ => Ok ([("ENV", ["an article"])], ["https://example.org/a"]))
              (fun _ => Some (PyInt 72, PyInt 64)) (fun _ => 1700000000)
              (fun _ => [Analyze.Reload]))
           "Acme" Analyze.start eq_refl).
Defined.

(** X16.  [data_google] asks the model about the issues that have
    articles only: when the search finds no article for any issue, it makes
    no model call and returns the empty mapping with the links found; and
    an exception that leaves the search leaves [data_google] too.  Either
    way the trace holds the announcement of the source and the pauses of
    the search, and nothing else. *)
Theorem data_google_without_articles :
  forall (env : Analyze.outside (F := B64.float)) (company : string)
         (client : option unit) (w : Analyze.world),
    let called :=
      Analyze.World (Analyze.calls w)
        (Analyze.trace w ++
         Analyze.Called Analyze.DataGoogle company ::
         map Analyze.pause_event (Analyze.pauses env company)) in
    (forall found,
        Analyze.search env company = Ok found ->
        forallb (fun issue => match snd issue with [] => true | _ => false end)
          (fst found) = true ->
        Analyze.data_google env company client false w =
        (Ok (Some ([], snd found)), called))
    /\
    (forall e,
        Analyze.search env company = Raise e ->
        Analyze.data_google env company client false w = (Raise e, called)).
Proof.
  intros env company client w called. split.
  - intros found Hs Hnone.
    unfold Analyze.data_google, Analyze.bind, Analyze.log, Analyze.log_all,
      Analyze.lift.
    cbv iota beta. rewrite Hs. rewrite (score_articles_no_articles env client _ Hnone).
    cbn [Analyze.calls Analyze.trace]. unfold called.
    rewrite <- app_assoc. reflexivity.
  - intros e Hs.
    unfold Analyze.data_google, Analyze.bind, Analyze.log, Analyze.log_all,
      Analyze.lift.
    cbv iota beta. rewrite Hs.
    cbn [Analyze.calls Analyze.trace]. unfold called.
    rewrite <- app_assoc. reflexivity.
Qed.

(** X16, for a search that finds links and no text. *)
Lemma data_google_without_articles_links :
  let env : Analyze.outside (F := B64.float) :=
    Analyze.Outside (fun _ => Analyze.Fails (ClientError 500))
      (fun _ => Ok ([("ENV", []); ("PAY", [])], ["https://example.org/a"]))
      (fun _ => None) (fun _ => 0) (fun _ => [Analyze.Reload]) in
  Analyze.search env "Acme" = Ok ([("ENV", []); ("PAY", [])], ["https://example.org/a"]) /\
  Analyze.data_google env "Acme" (Some tt) false Analyze.start =
  (Ok (Some ([], ["https://example.org/a"])),
   Analyze.World 0 [Analyze.Called Analyze.DataGoogle "Acme"; Analyze.Sleep 20]).
Proof.
  split; [reflexivity|].
  exact (proj1 (data_google_without_articles
                  (Analyze.Outside (fun _ => Analyze.Fails (ClientError 500))
                     (fun _ => Ok ([("ENV", []); ("PAY", [])], ["https://example.org/a"]))
                     (fun _ => None) (fun _ => 0) (fun _ => [Analyze.Reload]))
                  "Acme" (Some tt) Analyze.start) _ eq_refl eq_refl).
Defined.
(* ===================================================================== *)
(** * The pipeline of analyze_data.py *)
(* ===================================================================== *)

(** What the three bundles of test data aggregate to, for a name that is
    not empty and for the empty name. *)
Lemma analyze_data_test_metrics (c : ascii) (rest : string) :
  AnalyzeData.aggregate_metrics
    [ AnalyzeData.get_test_google_data (String c rest);
      AnalyzeData.get_test_fmp_data;
      AnalyzeData.get_test_gemini_response (String c rest) ] =
  Ok [ ("DEI_L", AnalyzeData.IssueResult (B64.dec 475 1) (B64.of_Z 100));
       ("DEI_H", AnalyzeData.IssueResult (B64.dec 52727 3) (B64.of_Z 110));
       ("QUEER", AnalyzeData.IssueResult (B64.dec 525 1) (B64.of_Z 120));
       ("BIPOC", AnalyzeData.IssueResult (B64.dec 55769 3) (B64.of_Z 130));
       ("PAY", AnalyzeData.IssueResult (B64.dec 59789 3) (B64.dec 1405 1));
       ("ENV", AnalyzeData.IssueResult (B64.dec 83673 3) (B64.dec 508 1)) ]
  /\
  AnalyzeData.aggregate_metrics
    [ AnalyzeData.get_test_google_data "";
      AnalyzeData.get_test_fmp_data;
      AnalyzeData.get_test_gemini_response "" ] =
  Ok [ ("ENV", AnalyzeData.IssueResult (B64.dec 75 2) (B64.dec 8 1));
       ("PAY", AnalyzeData.IssueResult (B64.dec 65 2) (B64.dec 5 1)) ].
Proof. split; vm_compute; reflexivity. Qed.

(** One company whose reading of the keys has "gemini". *)
Lemma analyze_data_loop_step (env : AnalyzeData.outside) (company : string)
    (rest : list string) (n : nat) (all_company_data : dict AnalyzeData.company_data) :
  mem "gemini" (AnalyzeData.load_api_keys env n) = true ->
  exists metrics,
    AnalyzeData.aggregate_metrics
      [ AnalyzeData.get_test_google_data company;
        AnalyzeData.get_test_fmp_data;
        AnalyzeData.get_test_gemini_response company ] = Ok metrics
    /\ AnalyzeData.analyze_loop env (company :: rest) n all_company_data =
       AnalyzeData.analyze_loop env rest (S n)
         (set company
            (AnalyzeData.CompanyData metrics
               (AnalyzeData.get_test_competitors company)
               (AnalyzeData.clock env n))
            all_company_data).
Proof.
  intros Hk. cbn [AnalyzeData.analyze_loop]. rewrite Hk. cbn [negb].
  unfold AnalyzeData.data_google, AnalyzeData.data_fmp,
    AnalyzeData.data_grounded_gemini, AnalyzeData.ask_compeditors.
  cbn [AnalyzeData.TEST_MODE AnalyzeData.str_truthy rbind].
  destruct company as [|c s].
  - rewrite (proj2 (analyze_data_test_metrics "a" "")).
    eexists. split; reflexivity.
  - rewrite (proj1 (analyze_data_test_metrics c s)).
    eexists. split; reflexivity.
Qed.

Lemma analyze_data_loop_records (env : AnalyzeData.outside) (companies : list string) :
  (forall n, mem "gemini" (AnalyzeData.load_api_keys env n) = true) ->
  forall n all_company_data,
  exists d,
    AnalyzeData.analyze_loop env companies n all_company_data = Ok d
    /\ (forall company,
          In company (keys d) <-> In company (keys all_company_data) \/ In company companies)
    /\ (forall company record,
          get company d = Some record ->
          get company all_company_data = Some record
          \/ (Ok (AnalyzeData.metrics record) =
              AnalyzeData.aggregate_metrics
                [ AnalyzeData.get_test_google_data company;
                  AnalyzeData.get_test_fmp_data;
                  AnalyzeData.get_test_gemini_response company ]
              /\ AnalyzeData.competitors record = AnalyzeData.get_test_competitors company)).
Proof.
  intros Hkeys.
  induction companies as [|company rest IH]; intros n all_company_data.
  - exists all_company_data. split; [reflexivity|]. split.
    + intros company. simpl. tauto.
    + intros company record Hg. left. exact Hg.
  - destruct (analyze_data_loop_step env company rest n all_company_data (Hkeys n))
      as [metrics [Hm Hstep]].
    rewrite Hstep.
    destruct (IH (S n)
                (set company
                   (AnalyzeData.CompanyData metrics
                      (AnalyzeData.get_test_competitors company)
                      (AnalyzeData.clock env n))
                   all_company_data)) as [d [Hd [Hk Hr]]].
    exists d. split; [exact Hd|]. split.
    + intros name. rewrite Hk, in_keys_set. simpl. intuition.
    + intros name record Hg. destruct (Hr name record Hg) as [Ha|Ha].
      * rewrite get_set in Ha. destruct (String.eqb company name) eqn:Ek.
        -- apply String.eqb_eq in Ek. subst name. inversion Ha; subst record.
           right. simpl. split; [symmetry; exact Hm | reflexivity].
        -- left. exact Ha.
      * right. exact Ha.
Qed.

(** X17.  [analyze_data.py] always runs on its test data: [TEST_MODE] is
    the string ['true'], which is true, so no source gets past its test
    and the network is never asked, whatever it would answer.  When every
    reading of the keys has "gemini", the run returns one record per
    distinct company name, filed under the name as given (it is not
    formatted), with the aggregate of the three bundles of test data and
    the test competitors; the empty name gets a record too, from the
    financial test data alone. *)
Theorem analyze_data_runs_on_test_data :
  forall (env : AnalyzeData.outside) (companies : list string),
    (forall n, mem "gemini" (AnalyzeData.load_api_keys env n) = true) ->
    exists d,
      AnalyzeData.analyze_companies env companies = Ok d
      /\ (forall company, In company (keys d) <-> In company companies)
      /\ (forall company record,
            get company d = Some record ->
            AnalyzeData.competitors record = AnalyzeData.get_test_competitors company
            /\ AnalyzeData.metrics record =
               match company with
               | EmptyString =>
                   [ ("ENV", AnalyzeData.IssueResult (B64.dec 75 2) (B64.dec 8 1));
                     ("PAY", AnalyzeData.IssueResult (B64.dec 65 2) (B64.dec 5 1)) ]
               | _ =>
                   [ ("DEI_L", AnalyzeData.IssueResult (B64.dec 475 1) (B64.of_Z 100));
                     ("DEI_H", AnalyzeData.IssueResult (B64.dec 52727 3) (B64.of_Z 110));
                     ("QUEER", AnalyzeData.IssueResult (B64.dec 525 1) (B64.of_Z 120));
                     ("BIPOC", AnalyzeData.IssueResult (B64.dec 55769 3) (B64.of_Z 130));
                     ("PAY", AnalyzeData.IssueResult (B64.dec 59789 3) (B64.dec 1405 1));
                     ("ENV", AnalyzeData.IssueResult (B64.dec 83673 3) (B64.dec 508 1)) ]
               end).
Proof.
  intros env companies Hkeys.
  destruct (analyze_data_loop_records env companies Hkeys 0 []) as [d [Hd [Hk Hr]]].
  exists d. split; [exact Hd|]. split.
  - intros company. rewrite Hk. simpl. tauto.
  - intros company record Hg.
    destruct (Hr company record Hg) as [Ha|[Hm Hc]]; [discriminate Ha|].
    split; [exact Hc|].
    destruct company as [|c s].
    + rewrite (proj2 (analyze_data_test_metrics "a" "")) in Hm.
      injection Hm as Hm. exact Hm.
    + rewrite (proj1 (analyze_data_test_metrics c s)) in Hm.
      injection Hm as Hm. exact Hm.
Qed.

(** X17, on a run over "Tesla", "TESLA" and "Tesla" again, with sources
    that would fail if they were asked. *)
Lemma analyze_data_runs_on_test_data_tesla :
  let env :=
    AnalyzeData.Outside (fun _ => [("gemini", "key")]) (fun _ => 1700000000)
      (fun _ => Raise OtherException) (fun _ => Raise OtherException)
      (fun _ => Raise OtherException) (fun _ => Raise OtherException) in
  mem "gemini" (AnalyzeData.load_api_keys env 0) = true /\
  exists d,
    AnalyzeData.analyze_companies env ["Tesla"; "TESLA"; "Tesla"] = Ok d
    /\ keys d = ["Tesla"; "TESLA"]
    /\ (forall company, In company (keys d) <-> In company ["Tesla"; "TESLA"; "Tesla"]).
Proof.
  split; [reflexivity|].
  destruct (analyze_data_runs_on_test_data
              (AnalyzeData.Outside (fun _ => [("gemini", "key")]) (fun _ => 1700000000)
                 (fun _ => Raise OtherException) (fun _ => Raise OtherException)
                 (fun _ => Raise OtherException) (fun _ => Raise OtherException))
              ["Tesla"; "TESLA"; "Tesla"] (fun _ => eq_refl))
    as [d [Hd [Hk Hr]]].
  exists d. split; [exact Hd|]. split; [|exact Hk].
  vm_compute in Hd. injection Hd as Hd. rewrite <- Hd. reflexivity.
Defined.
